(** * task2wechat: the scheduled-task engine of [src/worker.js]

    A shallow embedding of the timer entry point [handleScheduledTasks] and
    of everything it calls: the D1 statements of the task repository
    ([queryDueTasks], [insertTask], [updateTask], [insertTaskLog]), the
    recurrence step [updateTaskAfterSuccess], and the two channel senders
    [sendByServerChan] and [sendByWechatWork].  The copy of these functions
    in [src/functions/_worker.js] has the same control flow (it only drops
    the console output and reads the configuration from another store).

    The HTTP API of the same file is embedded as well: the router
    [handleTaskApi], its four handlers ([handleCreateTask],
    [handleGetTasks], [handleUpdateTask], [handleDeleteTask]) and the
    statements they run ([queryAllTasks], [getTaskById], [deleteTask]).
    The body of a request is typed: it carries some of the properties of
    a task, each with the type the data model gives it.  The serving of
    static files, which is handed to [getAssetFromKV], is left out.  The
    router and the handlers of [src/functions/_worker.js], which differ
    from these, are in the module [Pages].

    How the JavaScript is rendered:
    - a computation is a function from a state to a completion ([Normal] or
      [Throw]) and a new state; a thrown exception keeps the state changes
      made before it, as in JavaScript;
    - the outside world is part of the state: the two D1 tables, the KV
      entry of the configuration, the replies the network is going to give
      (consumed one per [fetch]), the clock read by [Date.now()], and a
      trace of the observable calls, each with its arguments;
    - a prepared statement of D1 is rendered by its two steps: [bind],
      which checks the values it is given and throws on a value it does
      not support, and the run of the statement, which needs as many
      values as the SQL text has placeholders and then does to an
      in-memory table what the text says.  The statements that read and
      delete bind one string.  [insertTask], [updateTask] and
      [insertTaskLog] hand [bind] a single value, the array of their
      values, and an array that holds a string is not a value D1 binds;
    - [config.notification_channels[name]] is a property read on the object
      that [JSON.parse] returned: it finds the object's own members and the
      names every object inherits, and its result is tested for truthiness;
    - [config.retry_config] may be missing; when it is there, its two
      properties are numbers, [max_retry] a natural number;
    - a JSON object held in a task or in the configuration is the list of
      its own members in their order, with strings as values;
    - console output is not part of the state;
    - the time zone of the runtime is UTC, so that [getDate]/[setDate] and
      [getMonth]/[setMonth] are the UTC accessors;
    - [Date.parse] belongs to the host: every definition that constructs a
      [Date] from a string takes it as the section variable [Date_parse]. *)

From Stdlib Require Import ZArith List String Ascii Bool Lia DecimalString Sorted.
From stdpp Require Import gmap strings.
Import ListNotations.

Open Scope string_scope.
Open Scope list_scope.

(** ** Completions and the state-and-exception monad *)

Inductive exn : Type :=
| Error (msg : string)
| ReferenceError (msg : string)
| TypeError (msg : string)
| RangeError (msg : string)
| SyntaxError (msg : string).

(** [error.message] *)
Definition exn_message (e : exn) : string :=
  match e with
  | Error m | ReferenceError m | TypeError m | RangeError m | SyntaxError m => m
  end.

Inductive completion (A : Type) : Type :=
| Normal (a : A)
| Throw (e : exn).
Arguments Normal {A} a.
Arguments Throw {A} e.

Definition M (S A : Type) : Type := S -> completion A * S.

Definition ret {S A : Type} (a : A) : M S A := fun s => (Normal a, s).

Definition throw {S A : Type} (e : exn) : M S A := fun s => (Throw e, s).

Definition bind {S A B : Type} (m : M S A) (k : A -> M S B) : M S B :=
  fun s =>
    match m s with
    | (Normal a, s') => k a s'
    | (Throw e, s') => (Throw e, s')
    end.

Definition gets {S A : Type} (f : S -> A) : M S A := fun s => (Normal (f s), s).

Definition modify {S : Type} (f : S -> S) : M S unit := fun s => (Normal tt, f s).

(** [try { body } catch (e) { handler }] *)
Definition try_catch {S A : Type} (body : M S A) (handler : exn -> M S A) : M S A :=
  fun s =>
    match body s with
    | (Normal a, s') => (Normal a, s')
    | (Throw e, s') => handler e s'
    end.

(** [try { body } catch (e) { handler } finally { final }]: [final] runs
    whatever happened; an exception of the handler is thrown again after
    [final], unless [final] throws itself. *)
Definition try_catch_finally {S : Type}
    (body : M S unit) (handler : exn -> M S unit) (final : M S unit) : M S unit :=
  fun s =>
    match try_catch body handler s with
    | (Normal _, s') => final s'
    | (Throw e, s') =>
        match final s' with
        | (Normal _, s'') => (Throw e, s'')
        | (Throw e', s'') => (Throw e', s'')
        end
    end.

(** [for (const x of xs) { body }] *)
Fixpoint for_of {S A : Type} (xs : list A) (body : A -> M S unit) : M S unit :=
  match xs with
  | [] => ret tt
  | x :: rest => bind (body x) (fun _ => for_of rest body)
  end.

Declare Scope js_scope.
Delimit Scope js_scope with js.
Notation "'let*' x ':=' c 'in' k" := (bind c (fun x => k))
  (at level 10, x name, c at level 100, k at level 200) : js_scope.
Notation "c ';;' k" := (bind c (fun _ => k))
  (at level 100, k at level 200, right associativity) : js_scope.

(** ** JavaScript strings *)

(** [!!s] for a value that is a string or [undefined] *)
Definition truthy (s : option string) : bool :=
  match s with
  | None => false
  | Some "" => false
  | Some _ => true
  end.

(** [`${s}`] for a value that is a string or [undefined] *)
Definition template (s : option string) : string :=
  match s with
  | None => "undefined"
  | Some s => s
  end.

(** [`${n}`] for a non-negative integer *)
Definition string_of_nat (n : nat) : string := NilEmpty.string_of_uint (Nat.to_uint n).

(** [s.startsWith(p)] *)
Definition startsWith (s p : string) : bool := String.prefix p s.

(** The class [\d] *)
Definition is_digit (c : ascii) : bool :=
  ((48 <=? nat_of_ascii c) && (nat_of_ascii c <=? 57))%nat.

(** The longest run of digits at the head of [s]: what [(\d+)] takes. *)
Fixpoint take_digits (s : string) : string :=
  match s with
  | String c s' => if is_digit c then String c (take_digits s') else ""
  | EmptyString => ""
  end.

(** [sctp(\d+)] tried at the first character of [s]; the capture group. *)
Definition sctp_match_here (s : string) : option string :=
  match s with
  | String "s" (String "c" (String "t" (String "p" rest))) =>
      match take_digits rest with
      | "" => None
      | digits => Some digits
      end
  | _ => None
  end.

(** [/sctp(\d+)/.exec(s)]: the pattern is tried at every position from the
    left; the result is [matchResult[1]] of the first match, [None] for
    [null]. *)
Fixpoint regex_sctp_exec (s : string) : option string :=
  match sctp_match_here s with
  | Some digits => Some digits
  | None =>
      match s with
      | String _ s' => regex_sctp_exec s'
      | EmptyString => None
      end
  end.

(** ** Dates

    A [Date] holds a time value: milliseconds since the epoch, or [NaN]
    for an invalid date ([None] here).  The calendar functions follow the
    definitions of ECMAScript ([Day], [TimeWithinDay], [MakeDay],
    [MakeDate], [TimeClip]) with a local time zone adjustment of zero. *)

Definition msPerDay : Z := 86400000.

Definition Day (t : Z) : Z := (t / msPerDay)%Z.

Definition TimeWithinDay (t : Z) : Z := (t mod msPerDay)%Z.

(** Day number of the civil date [y]-[m]-[d], [m] in 1..12 (proleptic
    Gregorian calendar, day 0 is 1970-01-01). *)
Definition days_from_civil (y m d : Z) : Z :=
  (let y' := if m <=? 2 then y - 1 else y in
   let era := y' / 400 in
   let yoe := y' - era * 400 in
   let mp := if 2 <? m then m - 3 else m + 9 in
   let doy := (153 * mp + 2) / 5 + d - 1 in
   let doe := yoe * 365 + yoe / 4 - yoe / 100 + doy in
   era * 146097 + doe - 719468)%Z.

(** The civil date (year, month 1..12, day of month) of a day number. *)
Definition civil_from_days (z : Z) : Z * Z * Z :=
  (let z' := z + 719468 in
   let era := z' / 146097 in
   let doe := z' - era * 146097 in
   let yoe := (doe - doe / 1460 + doe / 36524 - doe / 146096) / 365 in
   let doy := doe - (365 * yoe + yoe / 4 - yoe / 100) in
   let mp := (5 * doy + 2) / 153 in
   let d := doy - (153 * mp + 2) / 5 + 1 in
   let m := if mp <? 10 then mp + 3 else mp - 9 in
   (if m <=? 2 then yoe + era * 400 + 1 else yoe + era * 400, m, d))%Z.

Definition YearFromTime (t : Z) : Z := fst (fst (civil_from_days (Day t))).

(** Months count from 0, as in JavaScript. *)
Definition MonthFromTime (t : Z) : Z := (snd (fst (civil_from_days (Day t))) - 1)%Z.

Definition DateFromTime (t : Z) : Z := snd (civil_from_days (Day t)).

(** [MakeDay(year, month, date)]: [month] may lie outside 0..11 and [date]
    outside the month; both roll over. *)
Definition MakeDay (year month date : Z) : Z :=
  (days_from_civil (year + month / 12) (month mod 12 + 1) 1 + date - 1)%Z.

Definition MakeDate (day time : Z) : Z := (day * msPerDay + time)%Z.

Definition TimeClip (t : Z) : option Z :=
  if (Z.abs t <=? 8640000000000000)%Z then Some t else None.

(** [d.getDate()]; [None] is [NaN]. *)
Definition getDate (d : option Z) : option Z := option_map DateFromTime d.

(** [d.getMonth()] *)
Definition getMonth (d : option Z) : option Z := option_map MonthFromTime d.

(** [d.setDate(dt)]: the new time value of [d]. *)
Definition setDate (d : option Z) (dt : option Z) : option Z :=
  match d, dt with
  | Some t, Some dt =>
      TimeClip (MakeDate (MakeDay (YearFromTime t) (MonthFromTime t) dt) (TimeWithinDay t))
  | _, _ => None
  end.

(** [d.setMonth(m)]: the day of the month is kept and rolls over when the
    new month is shorter. *)
Definition setMonth (d : option Z) (m : option Z) : option Z :=
  match d, m with
  | Some t, Some m =>
      TimeClip (MakeDate (MakeDay (YearFromTime t) m (DateFromTime t)) (TimeWithinDay t))
  | _, _ => None
  end.

(** [a + n] on a number that may be [NaN] *)
Definition plus_number (a : option Z) (n : Z) : option Z := option_map (fun x => (x + n)%Z) a.

(** [a <= b] on the time values of two dates; false when either is [NaN]. *)
Definition Date_le (a b : option Z) : bool :=
  match a, b with
  | Some x, Some y => (x <=? y)%Z
  | _, _ => false
  end.

Definition digit_char (n : Z) : ascii := ascii_of_nat (48 + Z.to_nat (n mod 10)).

(** [n] written with [width] decimal digits, zero padded. *)
Fixpoint pad_digits (width : nat) (n : Z) : string :=
  match width with
  | O => ""
  | S w => pad_digits w (n / 10) +:+ String (digit_char n) ""
  end.

(** [d.toISOString()] of a valid date: [YYYY-MM-DDTHH:mm:ss.sssZ], with the
    signed six-digit year outside 0..9999. *)
Definition ISO_string (t : Z) : string :=
  (let y := YearFromTime t in
   let ms := TimeWithinDay t in
   let year :=
     if (0 <=? y) && (y <=? 9999) then pad_digits 4 y
     else if y <? 0 then "-" +:+ pad_digits 6 (- y)
     else "+" +:+ pad_digits 6 y in
   year +:+ "-" +:+ pad_digits 2 (MonthFromTime t + 1) +:+ "-" +:+ pad_digits 2 (DateFromTime t)
   +:+ "T" +:+ pad_digits 2 (ms / 3600000) +:+ ":" +:+ pad_digits 2 (ms / 60000 mod 60)
   +:+ ":" +:+ pad_digits 2 (ms / 1000 mod 60) +:+ "." +:+ pad_digits 3 (ms mod 1000) +:+ "Z")%Z.

(** [d.toISOString()]: a [RangeError] on an invalid date. *)
Definition toISOString {S : Type} (d : option Z) : M S string :=
  match d with
  | Some t => ret (ISO_string t)
  | None => throw (RangeError "Invalid time value")
  end.

(** A parser for the strings [toISOString] produces within years 0..9999;
    it is the instance of the host's [Date.parse] used in the examples. *)
Definition digit_value (c : ascii) : option Z :=
  if is_digit c then Some (Z.of_nat (nat_of_ascii c) - 48)%Z else None.

Fixpoint digits_value (acc : Z) (s : string) : option Z :=
  match s with
  | EmptyString => Some acc
  | String c s' =>
      match digit_value c with
      | Some v => digits_value (acc * 10 + v)%Z s'
      | None => None
      end
  end.

Definition number_at (s : string) (start len : nat) : option Z :=
  let part := String.substring start len s in
  if (String.length part =? len)%nat then digits_value 0 part else None.

Definition ISO_parse (s : string) : option Z :=
  match number_at s 0 4, number_at s 5 2, number_at s 8 2,
        number_at s 11 2, number_at s 14 2, number_at s 17 2, number_at s 20 3 with
  | Some y, Some mo, Some d, Some h, Some mi, Some sec, Some ms =>
      if (String.length s =? 24)%nat
         && String.eqb (String.substring 4 1 s) "-" && String.eqb (String.substring 7 1 s) "-"
         && String.eqb (String.substring 10 1 s) "T" && String.eqb (String.substring 13 1 s) ":"
         && String.eqb (String.substring 16 1 s) ":" && String.eqb (String.substring 19 1 s) "."
         && String.eqb (String.substring 23 1 s) "Z"
         && (1 <=? mo)%Z && (mo <=? 12)%Z && (1 <=? d)%Z
         && (d <=? days_from_civil (y + mo / 12) (mo mod 12 + 1) 1 - days_from_civil y mo 1)%Z
         && (h <=? 23)%Z && (mi <=? 59)%Z && (sec <=? 59)%Z
      then Some (MakeDate (days_from_civil y mo d) (h * 3600000 + mi * 60000 + sec * 1000 + ms))%Z
      else None
  | _, _, _, _, _, _, _ => None
  end.

(** [`${n}`] for an integer *)
Definition string_of_Z (n : Z) : string := NilZero.string_of_int (Z.to_int n).

(** ** JSON text

    [JSON.stringify] of a string: quotes, with the escapes of ECMAScript's
    [QuoteJSONString] for the characters below U+0020, the quote and the
    backslash. *)

Definition hex_digit (n : nat) : ascii :=
  if (n <? 10)%nat then ascii_of_nat (48 + n) else ascii_of_nat (87 + n).

Definition backslash : ascii := ascii_of_nat 92.

Definition double_quote : ascii := ascii_of_nat 34.

Definition json_escape_char (c : ascii) : string :=
  let n := nat_of_ascii c in
  if (n =? 34)%nat then String backslash (String c "")
  else if (n =? 92)%nat then String backslash (String c "")
  else if (n =? 8)%nat then String backslash "b"
  else if (n =? 9)%nat then String backslash "t"
  else if (n =? 10)%nat then String backslash "n"
  else if (n =? 12)%nat then String backslash "f"
  else if (n =? 13)%nat then String backslash "r"
  else if (n <? 32)%nat then
    String backslash ("u00" +:+ String (hex_digit (n / 16)) (String (hex_digit (n mod 16)) ""))
  else String c "".

Fixpoint json_escape (s : string) : string :=
  match s with
  | EmptyString => ""
  | String c s' => json_escape_char c +:+ json_escape s'
  end.

Definition json_quote (s : string) : string :=
  String double_quote (json_escape s) +:+ String double_quote "".

(** A value held in one of the two JSON properties of a task, as JavaScript
    sees it: a decoded object, a string (the text of the column), [null] or
    [undefined]. *)
Inductive js_column (A : Type) : Type :=
| Obj (o : A)
| Text (s : string)
| Null
| Undefined.
Arguments Obj {A} o.
Arguments Text {A} s.
Arguments Null {A}.
Arguments Undefined {A}.

(** A JSON object whose values are strings, as JavaScript holds it: its
    own keys in the order in which they were added, each with its value.
    A key counts once, where it comes first in the list. *)
Definition members : Type := list (string * string).

(** [o[key]] *)
Definition property (key : string) (o : members) : option string :=
  option_map snd (List.find (fun m => String.eqb (fst m) key) o).

(** The members of [o], each key once. *)
Fixpoint own_members (seen : list string) (o : members) : members :=
  match o with
  | [] => []
  | m :: rest =>
      if existsb (String.eqb (fst m)) seen then own_members seen rest
      else m :: own_members (fst m :: seen) rest
  end.

(** [{touser, toparty, totag}] and what else the object carries. *)
Definition receiver : Type := members.

Definition touser : receiver -> option string := property "touser".

Definition toparty : receiver -> option string := property "toparty".

Definition totag : receiver -> option string := property "totag".

(** [{period, end_time}] and what else the object carries. *)
Definition cycle : Type := members.

Definition period : cycle -> option string := property "period".

Definition end_time : cycle -> option string := property "end_time".

Definition json_object (texts : list string) : string :=
  "{" +:+ String.concat "," texts +:+ "}".

(** [JSON.stringify(o)] for an object: its own members, in their order. *)
Definition object_json (o : members) : string :=
  json_object (map (fun m => json_quote (fst m) +:+ ":" +:+ json_quote (snd m))
                   (own_members [] o)).

(** [JSON.stringify(v)]: the text of an object, the quoted text of a
    string, the text [null] for [null], and [undefined] ([None]) for
    [undefined]. *)
Definition JSON_stringify (v : js_column members) : option string :=
  match v with
  | Obj o => Some (object_json o)
  | Text s => Some (json_quote s)
  | Null => Some "null"
  | Undefined => None
  end.

(** ** Values handed to D1 *)

(** The JavaScript values that reach [bind] in this program: values that
    are no objects, and arrays of such values. *)
Inductive js_scalar : Type :=
| V_undefined
| V_null
| V_boolean (b : bool)
| V_number (n : Z)
| V_string (s : string).

Inductive js_value : Type :=
| Scalar (v : js_scalar)
| Array (elements : list js_scalar).

(** [typeof v] *)
Definition typeof (v : js_value) : string :=
  match v with
  | Scalar V_undefined => "undefined"
  | Scalar V_null => "object"
  | Scalar (V_boolean _) => "boolean"
  | Scalar (V_number _) => "number"
  | Scalar (V_string _) => "string"
  | Array _ => "object"
  end.

(** [`${v}`] *)
Definition String_of_scalar (v : js_scalar) : string :=
  match v with
  | V_undefined => "undefined"
  | V_null => "null"
  | V_boolean b => if b then "true" else "false"
  | V_number n => string_of_Z n
  | V_string s => s
  end.

(** The text of an element in the text of an array: nothing for [null]
    and [undefined]. *)
Definition element_text (v : js_scalar) : string :=
  match v with
  | V_undefined | V_null => ""
  | _ => String_of_scalar v
  end.

(** [`${v}`]; an array is the texts of its elements joined by commas. *)
Definition String_of (v : js_value) : string :=
  match v with
  | Scalar v => String_of_scalar v
  | Array elements => String.concat "," (map element_text elements)
  end.

(** A number that fits a byte. *)
Definition is_byte (v : js_scalar) : bool :=
  match v with
  | V_number n => (0 <=? n)%Z && (n <? 256)%Z
  | _ => false
  end.

(** The values [bind] accepts: numbers, strings, booleans, [null], and
    arrays of bytes (a blob). *)
Definition D1_supports (v : js_value) : bool :=
  match v with
  | Scalar V_undefined => false
  | Scalar _ => true
  | Array elements => forallb is_byte elements
  end.

(** What D1 binds for a value it accepts: a boolean is bound as 1 or 0. *)
Definition D1_bound (v : js_value) : js_value :=
  match v with
  | Scalar (V_boolean b) => Scalar (V_number (if b then 1 else 0))
  | _ => v
  end.

(** The message of the error [bind] throws on a value it does not accept. *)
Definition D1_TYPE_ERROR (v : js_value) : string :=
  "D1_TYPE_ERROR: Type '" +:+ typeof v +:+ "' not supported for value '" +:+ String_of v +:+ "'".

(** [statement.bind(...values)]: the values are checked in their order. *)
Definition D1_bind {S : Type} (values : list js_value) : M S (list js_value) :=
  match List.find (fun v => negb (D1_supports v)) values with
  | Some v => throw (Error (D1_TYPE_ERROR v))
  | None => ret (map D1_bound values)
  end.

(** The run of a bound statement whose text has [placeholders] question
    marks: with another number of values the statement is not run. *)
Definition D1_run {S : Type} (placeholders : nat) (values : list js_value) (statement : M S unit)
  : M S unit :=
  if (List.length values =? placeholders)%nat then statement
  else throw (Error "D1_ERROR: Wrong number of parameter bindings for SQL query.").

(** ** Data *)

(** A row of the table [task]. *)
Module Row.
Record t : Type := mk {
  id : string;
  name : string;
  content : string;
  channel : string;
  channel_config : option string;
  status : bool;
  type : string;
  execute_time : string;
  cycle_config : option string;
  create_time : string;
  update_time : string;
  execute_count : Z
}.
End Row.

(** A task object in the worker. *)
Module Task.
Record t : Type := mk {
  id : string;
  name : string;
  content : string;
  channel : string;
  channel_config : js_column receiver;
  status : bool;
  type : string;
  execute_time : string;
  cycle_config : js_column cycle;
  create_time : string;
  update_time : string;
  execute_count : Z
}.

Definition set_status (v : bool) (x : t) : t :=
  mk (id x) (name x) (content x) (channel x) (channel_config x) v (type x)
     (execute_time x) (cycle_config x) (create_time x) (update_time x) (execute_count x).

Definition set_execute_time (v : string) (x : t) : t :=
  mk (id x) (name x) (content x) (channel x) (channel_config x) (status x) (type x)
     v (cycle_config x) (create_time x) (update_time x) (execute_count x).

Definition set_update_time (v : string) (x : t) : t :=
  mk (id x) (name x) (content x) (channel x) (channel_config x) (status x) (type x)
     (execute_time x) (cycle_config x) (create_time x) v (execute_count x).

Definition set_execute_count (v : Z) (x : t) : t :=
  mk (id x) (name x) (content x) (channel x) (channel_config x) (status x) (type x)
     (execute_time x) (cycle_config x) (create_time x) (update_time x) v.
End Task.

(** A row of the table [log]. *)
Module Log.
Record t : Type := mk {
  id : string;
  task_id : string;
  channel : string;
  execute_time : string;
  status : string;
  message : string;
  duration : Z
}.
End Log.

(** A column read back by [SELECT *]: text stays text. *)
Definition column_value {A : Type} (c : option string) : js_column A :=
  match c with
  | Some s => Text s
  | None => Null
  end.

(** The object D1 hands to the worker for a row. *)
Definition task_of_row (r : Row.t) : Task.t :=
  Task.mk (Row.id r) (Row.name r) (Row.content r) (Row.channel r)
          (column_value (Row.channel_config r)) (Row.status r) (Row.type r)
          (Row.execute_time r) (column_value (Row.cycle_config r))
          (Row.create_time r) (Row.update_time r) (Row.execute_count r).

(** An object among the members of [config.notification_channels]: the
    properties the senders read. *)
Record channelConfig : Type := {
  send_key : option string;
  api_prefix : option string;
  corp_id : option string;
  app_secret : option string;
  agent_id : option string;
  default_receiver : option receiver
}.

(** The value of a member of [config.notification_channels]: a value that
    is falsy ([null], [false], 0, the empty string), or a value that is
    truthy, with the properties the senders find in it (none in a value
    that is no object). *)
Inductive channel_entry : Type :=
| Falsy_entry
| Entry (c : channelConfig).

Record retry_config_t : Type := {
  max_retry : nat;
  retry_interval : Z
}.

(** The configuration; [notification_channels] is [None] when the property
    is missing or is not an object and holds the members of a plain object
    otherwise, [retry_config] is [None] when the property is missing. *)
Record config_t : Type := {
  notification_channels : option (gmap string channel_entry);
  retry_config : option retry_config_t
}.

(** What the KV key [GLOBAL_CONFIG] holds. *)
Inductive kv_entry : Type :=
| Kv_missing
| Kv_not_json
| Kv_config (c : config_t).

(** The decoded body of a provider's reply: the properties the senders
    read, and the text [JSON.stringify] gives for it. *)
Record json_body : Type := {
  code : option Z;
  message : option string;
  errcode : option Z;
  errmsg : option string;
  access_token : option string;
  json_text : string
}.

(** How one [fetch] followed by [response.json()] ends. *)
Inductive fetch_outcome : Type :=
| Reject (e : exn)
| Reply (b : json_body).

(** The body of a request. *)
Inductive payload : Type :=
| No_body
| ServerChan_body (title desp : string)
| WechatWork_body (to_user to_party to_tag description : string).

(** The calls that are observed, with their arguments. *)
Inductive event : Type :=
| Ev_sendByServerChan
| Ev_sendByWechatWork
| Ev_fetch (url : string) (body : payload)
| Ev_setTimeout (ms : Z)
| Ev_updateTask (task : Task.t)
| Ev_insertTaskLog (log : Log.t).

Record world : Type := mkWorld {
  db_task : list Row.t;
  db_log : list Log.t;
  GLOBAL_CONFIG : kv_entry;
  net : list fetch_outcome;
  clock : Z;
  uuid : nat;
  trace : list event
}.

Definition set_db_task (v : list Row.t) (w : world) : world :=
  mkWorld v (db_log w) (GLOBAL_CONFIG w) (net w) (clock w) (uuid w) (trace w).

Definition set_db_log (v : list Log.t) (w : world) : world :=
  mkWorld (db_task w) v (GLOBAL_CONFIG w) (net w) (clock w) (uuid w) (trace w).

Definition set_net (v : list fetch_outcome) (w : world) : world :=
  mkWorld (db_task w) (db_log w) (GLOBAL_CONFIG w) v (clock w) (uuid w) (trace w).

Definition set_clock (v : Z) (w : world) : world :=
  mkWorld (db_task w) (db_log w) (GLOBAL_CONFIG w) (net w) v (uuid w) (trace w).

Definition set_uuid (v : nat) (w : world) : world :=
  mkWorld (db_task w) (db_log w) (GLOBAL_CONFIG w) (net w) (clock w) v (trace w).

Definition emit (e : event) (w : world) : world :=
  mkWorld (db_task w) (db_log w) (GLOBAL_CONFIG w) (net w) (clock w) (uuid w) (trace w ++ [e]).

(** [executeResult] *)
Record executeResult_t : Type := {
  er_status : string;
  er_message : string
}.

(** The state of one pass of the loop of [handleScheduledTasks]: the world
    and the two mutable objects of the loop body, [task] and
    [executeResult]. *)
Record frame : Type := mkFrame {
  the_world : world;
  task : Task.t;
  executeResult : executeResult_t
}.

Definition set_task (v : Task.t) (f : frame) : frame :=
  mkFrame (the_world f) v (executeResult f).

Definition set_executeResult (v : executeResult_t) (f : frame) : frame :=
  mkFrame (the_world f) (task f) v.

(** A computation on the world, run inside a frame. *)
Definition in_world {A : Type} (m : M world A) : M frame A :=
  fun f =>
    let '(r, w) := m (the_world f) in
    (r, mkFrame w (task f) (executeResult f)).

(** ** The task repository (D1) *)

(** [WHERE status = TRUE AND execute_time <= ?]; the one value bound is a
    string; the column is text and is compared as text. *)
Definition is_due (currentTime : string) (r : Row.t) : bool :=
  Row.status r && String.leb (Row.execute_time r) currentTime.

(** [ORDER BY execute_time ASC], rows with equal keys in storage order. *)
Fixpoint insert_by_execute_time (r : Row.t) (sorted : list Row.t) : list Row.t :=
  match sorted with
  | [] => [r]
  | x :: rest =>
      if String.leb (Row.execute_time r) (Row.execute_time x) then r :: x :: rest
      else x :: insert_by_execute_time r rest
  end.

Definition order_by_execute_time (rows : list Row.t) : list Row.t :=
  fold_right insert_by_execute_time [] rows.

Definition select_due (table : list Row.t) (currentTime : string) : list Row.t :=
  order_by_execute_time (List.filter (is_due currentTime) table).

Definition queryDueTasks (currentTime : string) : M world (list Task.t) :=
  gets (fun w => map task_of_row (select_due (db_task w) currentTime)).

(** The result of [JSON.stringify] as an element of an array. *)
Definition optional_text (v : option string) : js_scalar :=
  match v with
  | Some s => V_string s
  | None => V_undefined
  end.

(** The row that holds the values of a task, one per column. *)
Definition row_of_task (t : Task.t) : Row.t :=
  Row.mk (Task.id t) (Task.name t) (Task.content t) (Task.channel t)
         (JSON_stringify (Task.channel_config t)) (Task.status t) (Task.type t)
         (Task.execute_time t) (JSON_stringify (Task.cycle_config t))
         (Task.create_time t) (Task.update_time t) (Task.execute_count t).

(** [insertTask(env, task)]: the array literal is the one argument of
    [bind]; the [INSERT] has twelve placeholders. *)
Definition insertTask (t : Task.t) : M world unit :=
  (let* values :=
     D1_bind [Array [V_string (Task.id t); V_string (Task.name t); V_string (Task.content t);
                     V_string (Task.channel t);
                     optional_text (JSON_stringify (Task.channel_config t));
                     V_boolean (Task.status t); V_string (Task.type t);
                     V_string (Task.execute_time t);
                     optional_text (JSON_stringify (Task.cycle_config t));
                     V_string (Task.create_time t); V_string (Task.update_time t);
                     V_number (Task.execute_count t)]] in
   D1_run 12 values (modify (fun w => set_db_task (db_task w ++ [row_of_task t]) w)))%js.

(** [UPDATE task SET ... WHERE id = ?] on one row: every column but [id]
    and [create_time] is overwritten. *)
Definition update_row (t : Task.t) (r : Row.t) : Row.t :=
  if String.eqb (Row.id r) (Task.id t) then
    Row.mk (Row.id r) (Task.name t) (Task.content t) (Task.channel t)
           (JSON_stringify (Task.channel_config t)) (Task.status t) (Task.type t)
           (Task.execute_time t) (JSON_stringify (Task.cycle_config t))
           (Row.create_time r) (Task.update_time t) (Task.execute_count t)
  else r.

(** [updateTask(env, task)]: again one array for [bind]; the [UPDATE] has
    eleven placeholders. *)
Definition updateTask (t : Task.t) : M world unit :=
  (modify (emit (Ev_updateTask t)) ;;
   let* values :=
     D1_bind [Array [V_string (Task.name t); V_string (Task.content t);
                     V_string (Task.channel t);
                     optional_text (JSON_stringify (Task.channel_config t));
                     V_boolean (Task.status t); V_string (Task.type t);
                     V_string (Task.execute_time t);
                     optional_text (JSON_stringify (Task.cycle_config t));
                     V_string (Task.update_time t); V_number (Task.execute_count t);
                     V_string (Task.id t)]] in
   D1_run 11 values (modify (fun w => set_db_task (map (update_row t) (db_task w)) w)))%js.

(** [insertTaskLog(env, log)]: one array for [bind]; the [INSERT] has seven
    placeholders. *)
Definition insertTaskLog (log : Log.t) : M world unit :=
  (modify (emit (Ev_insertTaskLog log)) ;;
   let* values :=
     D1_bind [Array [V_string (Log.id log); V_string (Log.task_id log);
                     V_string (Log.channel log); V_string (Log.execute_time log);
                     V_string (Log.status log); V_string (Log.message log);
                     V_number (Log.duration log)]] in
   D1_run 7 values (modify (fun w => set_db_log (db_log w ++ [log]) w)))%js.

(** ** The host *)

(** [Date.now()] *)
Definition Date_now : M world Z := gets clock.

(** [crypto.randomUUID()]: a fresh identifier at every call. *)
Definition randomUUID : M world string :=
  fun w => (Normal ("uuid-" +:+ string_of_nat (uuid w)), set_uuid (S (uuid w)) w).

(** [await new Promise(resolve => setTimeout(resolve, ms))] *)
Definition setTimeout (ms : Z) : M world unit :=
  modify (fun w => emit (Ev_setTimeout ms) (set_clock (clock w + Z.max 0 ms) w)).

(** [await fetch(url, ...)] followed by [await response.json()]: the next
    reply of the network; with none left the request is rejected. *)
Definition fetch (url : string) (body : payload) : M world json_body :=
  fun w =>
    let w' := emit (Ev_fetch url body) w in
    match net w with
    | [] => (Throw (TypeError "fetch failed"), w')
    | Reject e :: rest => (Throw e, set_net rest w')
    | Reply b :: rest => (Normal b, set_net rest w')
    end.

(** ** Channel senders *)

(** The endpoint [sendByServerChan] posts to (its lines up to the [fetch]). *)
Definition ServerChan_pushUrl {S : Type} (channelConfig : channelConfig) : M S string :=
  if negb (truthy (send_key channelConfig)) then
    throw (Error "ServerChan 推送失败: 缺少 send_key")
  else
    let key := template (send_key channelConfig) in
    if startsWith key "sctp" then
      match regex_sctp_exec key with
      | None => throw (Error "ServerChan 推送失败: 无效的 sctp 格式 send_key")
      | Some serverNum => ret ("https://" +:+ serverNum +:+ ".push.ft07.com/send/" +:+ key +:+ ".send")
      end
    else ret (template (api_prefix channelConfig) +:+ key +:+ ".send").

(** [sendByServerChan(content, channelConfig, {title})]; the spread of the
    options makes [title] the title that is sent. *)
Definition sendByServerChan (content : string) (channelConfig : channelConfig) (title : string)
  : M world json_body :=
  (modify (emit Ev_sendByServerChan) ;;
   let* pushUrl := ServerChan_pushUrl channelConfig in
   let* responseData := fetch pushUrl (ServerChan_body title content) in
   match code responseData with
   | Some 0%Z => ret responseData
   | _ =>
       throw (Error ("ServerChan 推送失败: " +:+
                     (if truthy (message responseData) then template (message responseData)
                      else "未知错误")))
   end)%js.

(** A property of [{...default_receiver, ...taskChannelConfig}]: only an
    object contributes named properties. *)
Definition merged (field : receiver -> option string)
    (default : option receiver) (overrides : js_column receiver) : option string :=
  match overrides with
  | Obj o =>
      match field o with
      | Some v => Some v
      | None => match default with Some d => field d | None => None end
      end
  | _ => match default with Some d => field d | None => None end
  end.

(** [v || fallback] *)
Definition or_else (v : option string) (fallback : string) : string :=
  if truthy v then template v else fallback.

(** [sendByWechatWork(content, channelConfig, taskChannelConfig)]; of the
    request body the receivers and the description are kept. *)
Definition sendByWechatWork (content : string) (channelConfig : channelConfig)
    (taskChannelConfig : js_column receiver) : M world json_body :=
  (modify (emit Ev_sendByWechatWork) ;;
   if negb (truthy (corp_id channelConfig)) || negb (truthy (app_secret channelConfig))
      || negb (truthy (agent_id channelConfig)) then
     throw (Error "WeChatWork 推送失败: 缺少 corp_id/app_secret/agent_id")
   else
     let tokenUrl := "https://qyapi.weixin.qq.com/cgi-bin/gettoken?corpid=" +:+
                     template (corp_id channelConfig) +:+ "&corpsecret=" +:+
                     template (app_secret channelConfig) in
     let* tokenData := fetch tokenUrl No_body in
     match errcode tokenData with
     | Some 0%Z =>
         let pushUrl := "https://qyapi.weixin.qq.com/cgi-bin/message/send?access_token=" +:+
                        template (access_token tokenData) in
         let requestData :=
           WechatWork_body
             (or_else (merged touser (default_receiver channelConfig) taskChannelConfig) "@all")
             (or_else (merged toparty (default_receiver channelConfig) taskChannelConfig) "")
             (or_else (merged totag (default_receiver channelConfig) taskChannelConfig) "")
             content in
         let* pushData := fetch pushUrl requestData in
         match errcode pushData with
         | Some 0%Z => ret pushData
         | _ => throw (Error ("WeChatWork 推送失败: " +:+ template (errmsg pushData)))
         end
     | _ => throw (Error ("WeChatWork 获取 token 失败: " +:+ template (errmsg tokenData)))
     end)%js.

(** ** The scheduler *)

Section Host.

(** [new Date(s).getTime()] of the host, [None] for [NaN]. *)
Variable Date_parse : string -> option Z.

Definition new_Date (s : string) : option Z := Date_parse s.

(** [v?.p] on a JSON property of the task: a string has no property [p]. *)
Definition optional_chain {A : Type} (p : A -> option string) (v : js_column A) : option string :=
  match v with
  | Obj o => p o
  | _ => None
  end.

Definition modify_task (g : Task.t -> Task.t) : M frame unit :=
  modify (fun f => set_task (g (task f)) f).

(** [updateTaskAfterSuccess(env, task, currentTime)]: [task] is the object
    of the frame and is changed in place. *)
Definition updateTaskAfterSuccess (currentTime : string) : M frame unit :=
  (let* t0 := gets task in
   let* nextExecuteTime :=
     if String.eqb (Task.type t0) "single" then
       modify_task (Task.set_status false) ;; ret (Task.execute_time t0)
     else if String.eqb (Task.type t0) "cycle" then
       let period := optional_chain period (Task.cycle_config t0) in
       let endDate := optional_chain end_time (Task.cycle_config t0) in
       if truthy endDate && Date_le (new_Date (template endDate)) (new_Date currentTime) then
         modify_task (Task.set_status false) ;; ret (Task.execute_time t0)
       else
         let current := new_Date currentTime in
         match period with
         | Some p =>
             if String.eqb p "day" then
               toISOString (setDate current (plus_number (getDate current) 1))
             else if String.eqb p "week" then
               toISOString (setDate current (plus_number (getDate current) 7))
             else if String.eqb p "month" then
               toISOString (setMonth current (plus_number (getMonth current) 1))
             else ret (Task.execute_time t0)
         | None => ret (Task.execute_time t0)
         end
     else ret (Task.execute_time t0) in
   modify_task (fun t => Task.set_execute_count (Task.execute_count t + 1)%Z t) ;;
   modify_task (Task.set_update_time currentTime) ;;
   modify_task (Task.set_execute_time nextExecuteTime) ;;
   let* t := gets task in
   in_world (updateTask t))%js.

(** [JSON.stringify(pushResponse)] inside a template literal;
    [pushResponse] is [undefined] when no sender was called. *)
Definition stringify_response (pushResponse : option json_body) : string :=
  match pushResponse with
  | Some b => json_text b
  | None => "undefined"
  end.

(** The names every object inherits from [Object.prototype]. *)
Definition Object_prototype : list string :=
  ["constructor"; "__defineGetter__"; "__defineSetter__"; "hasOwnProperty";
   "__lookupGetter__"; "__lookupSetter__"; "isPrototypeOf"; "propertyIsEnumerable";
   "toString"; "valueOf"; "__proto__"; "toLocaleString"].

(** None of the properties the senders read: what they find in a
    function, in [Object.prototype] and in a value that is no object. *)
Definition no_properties_read : channelConfig :=
  Build_channelConfig None None None None None None.

(** [config.notification_channels[name]], [None] when the value read is
    falsy: an own member is found first, then an inherited name, whose
    value is a function or [Object.prototype] itself; a name that is
    neither reads [undefined]. *)
Definition channel_property (channels : gmap string channel_entry) (name : string)
  : option channelConfig :=
  match channels !! name with
  | Some (Entry c) => Some c
  | Some Falsy_entry => None
  | None =>
      if existsb (String.eqb name) Object_prototype then Some no_properties_read else None
  end.

(** The [try] block of the loop body (lines 123-141). *)
Definition first_attempt (channels : gmap string channel_entry) (currentTime : string)
  : M frame unit :=
  (let* t := gets task in
   let* channelConfig :=
     match channel_property channels (Task.channel t) with
     | Some c => ret c
     | None => throw (Error ("未知推送渠道: " +:+ Task.channel t))
     end in
   let* pushResponse :=
     if String.eqb (Task.channel t) "server_chan" then
       let* r := in_world (sendByServerChan (Task.content t) channelConfig (Task.name t)) in
       ret (Some r)
     else if String.eqb (Task.channel t) "wechat_work" then
       let* r := in_world (sendByWechatWork (Task.content t) channelConfig
                                            (Task.channel_config t)) in
       ret (Some r)
     else ret None in
   modify (set_executeResult
             {| er_status := "success";
                er_message := "推送成功，渠道响应: " +:+ stringify_response pushResponse |}) ;;
   updateTaskAfterSuccess currentTime)%js.

(** The identifier [channelConfig] read in the [catch] block.  The [const]
    of that name is declared inside the [try] block and is not in scope in
    the [catch] block, and no enclosing scope declares the name: reading it
    throws. *)
Definition channelConfig_in_catch : M frame channelConfig :=
  throw (ReferenceError "channelConfig is not defined").

(** The inner [try] block of the retry loop (lines 151-163); the arguments
    of a call are evaluated before the call. *)
Definition retry_attempt (currentTime : string) (retryCount : nat) : M frame unit :=
  (let* t := gets task in
   (if String.eqb (Task.channel t) "server_chan" then
      let* channelConfig := channelConfig_in_catch in
      let* r := in_world (sendByServerChan (Task.content t) channelConfig (Task.name t)) in
      ret tt
    else if String.eqb (Task.channel t) "wechat_work" then
      let* channelConfig := channelConfig_in_catch in
      let* r := in_world (sendByWechatWork (Task.content t) channelConfig
                                           (Task.channel_config t)) in
      ret tt
    else ret tt) ;;
   modify (set_executeResult
             {| er_status := "success";
                er_message := "重试 " +:+ string_of_nat retryCount +:+ " 次后推送成功" |}) ;;
   updateTaskAfterSuccess currentTime)%js.

(** [executeResult.message = ...] *)
Definition set_message (m : string) (f : frame) : frame :=
  set_executeResult {| er_status := er_status (executeResult f); er_message := m |} f.

(** The loop [while (retryCount < max_retry)] (lines 146-170), once
    [config.retry_config] has been read.  [remaining] is
    [max_retry - retryCount], so that the test of the loop is
    [remaining <> 0]; the result of the inner [try] tells whether the
    [break] was reached. *)
Fixpoint retry_loop (retry_config : retry_config_t) (currentTime : string)
    (remaining retryCount : nat) : M frame unit :=
  match remaining with
  | O => ret tt
  | S remaining' =>
      (in_world (setTimeout (retry_interval retry_config)) ;;
       let retryCount := S retryCount in
       let* broke :=
         try_catch
           (retry_attempt currentTime retryCount ;; ret true)
           (fun retryError =>
              (if (max_retry retry_config <=? retryCount)%nat then
                 modify (set_message ("推送失败（重试 " +:+ string_of_nat retryCount +:+
                                      " 次）: " +:+ exn_message retryError))
               else ret tt) ;;
              ret false) in
       if broke : bool then ret tt
       else retry_loop retry_config currentTime remaining' retryCount)%js
  end.

(** The [catch] block of the loop body (lines 143-170).  The test of the
    loop reads [config.retry_config.max_retry]: with [retry_config]
    missing the read throws, outside of the inner [try].  [config] is not
    assigned to, so the property is the same at every later read. *)
Definition catch_block (config : config_t) (currentTime : string) : M frame unit :=
  match retry_config config with
  | None => throw (TypeError "Cannot read properties of undefined (reading 'max_retry')")
  | Some retry_config => retry_loop retry_config currentTime (max_retry retry_config) 0
  end.

(** The [finally] block (lines 171-182). *)
Definition finally_log (currentTime : string) (startTime : Z) : M frame unit :=
  (let* log_id := in_world randomUUID in
   let* t := gets task in
   let* result := gets executeResult in
   let* now := in_world Date_now in
   in_world (insertTaskLog
               (Log.mk log_id (Task.id t) (Task.channel t) currentTime
                       (er_status result) (er_message result) (now - startTime)%Z)))%js.

(** The body of [for (const task of dueTasks)] (lines 119-183). *)
Definition dispatch_task (config : config_t) (channels : gmap string channel_entry)
    (currentTime : string) (t : Task.t) : M world unit :=
  fun w =>
    let startTime := clock w in
    let '(r, f) :=
      try_catch_finally
        (first_attempt channels currentTime)
        (fun error => catch_block config currentTime)
        (finally_log currentTime startTime)
        (mkFrame w t {| er_status := "fail"; er_message := "" |}) in
    (r, the_world f).

(** [loadAppConfig(env)] *)
Definition loadAppConfig : M world config_t :=
  (let* entry := gets GLOBAL_CONFIG in
   match entry with
   | Kv_missing =>
       throw (Error ("配置未找到，请先在 KV 命名空间中创建名为 " +:+ String double_quote "GLOBAL_CONFIG"
                     +:+ String double_quote " 的键"))
   | Kv_not_json => throw (SyntaxError "Unexpected token in JSON")
   | Kv_config c => ret c
   end)%js.

(** [handleScheduledTasks(env)] *)
Definition handleScheduledTasks : M world unit :=
  try_catch
    (let* config := loadAppConfig in
     match notification_channels config with
     | None => throw (Error "配置中的 notification_channels 必须是对象")
     | Some channels =>
         let* now := Date_now in
         let* currentTime := toISOString (TimeClip now) in
         let* dueTasks := queryDueTasks currentTime in
         for_of dueTasks (dispatch_task config channels currentTime)
     end)%js
    (fun error => ret tt).

End Host.

(** ** The task repository: the statements of the HTTP API *)

(** [SELECT * FROM task] *)
Definition queryAllTasks : M world (list Task.t) :=
  gets (fun w => map task_of_row (db_task w)).

(** [DELETE FROM task WHERE id = ?] *)
Definition deleteTask (taskId : string) : M world unit :=
  modify (fun w =>
            set_db_task (List.filter (fun r => negb (String.eqb (Row.id r) taskId)) (db_task w)) w).

(** [SELECT * FROM task WHERE id = ?], then [results[0] || null]. *)
Definition getTaskById (taskId : string) : M world (option Task.t) :=
  gets (fun w =>
          option_map task_of_row
                     (List.find (fun r => String.eqb (Row.id r) taskId) (db_task w))).

(** ** The HTTP API *)

(** The body of a request once decoded: the properties of a task it
    carries ([None] for a property that is absent). *)
Record taskData_t : Type := {
  d_id : option string;
  d_name : option string;
  d_content : option string;
  d_channel : option string;
  d_channel_config : option (js_column receiver);
  d_status : option bool;
  d_type : option string;
  d_execute_time : option string;
  d_cycle_config : option (js_column cycle);
  d_create_time : option string;
  d_update_time : option string;
  d_execute_count : option Z
}.

(** How [request.json()] ends. *)
Inductive request_json : Type :=
| Json_rejects (e : exn)
| Json_object (d : taskData_t).

Module Request.
Record t : Type := mk {
  method : string;
  pathname : string;
  json : request_json
}.
End Request.

(** The body of a response; for a JSON body, the value that
    [JSON.stringify] is applied to. *)
Inductive response_body : Type :=
| Body_text (s : string)
| Body_created (taskId : string)
| Body_success
| Body_failure (msg : string)
| Body_tasks (tasks : list Task.t).

Module Response.
Record t : Type := mk {
  status : nat;
  body : response_body
}.
End Response.

(** [await request.json()] *)
Definition request_body (request : Request.t) : M world taskData_t :=
  match Request.json request with
  | Json_rejects e => throw e
  | Json_object d => ret d
  end.

(** [new Date().toISOString()] *)
Definition current_ISO_time : M world string :=
  (let* now := Date_now in toISOString (TimeClip now))%js.

(** [s.split(sep)] for a separator of one character. *)
Fixpoint split_on (sep : ascii) (s : string) : list string :=
  match s with
  | EmptyString => [""]
  | String c s' =>
      if Ascii.eqb c sep then "" :: split_on sep s'
      else
        match split_on sep s' with
        | first :: others => String c first :: others
        | [] => [String c ""]
        end
  end.

Definition requiredFields : list string :=
  ["name"; "content"; "channel"; "execute_time"; "type"].

(** [taskData[field]] for a required field. *)
Definition required_field (taskData : taskData_t) (field : string) : option string :=
  if String.eqb field "name" then d_name taskData
  else if String.eqb field "content" then d_content taskData
  else if String.eqb field "channel" then d_channel taskData
  else if String.eqb field "execute_time" then d_execute_time taskData
  else if String.eqb field "type" then d_type taskData
  else None.

(** [requiredFields.filter(field => !taskData[field])] *)
Definition missingFields (taskData : taskData_t) : list string :=
  List.filter (fun field => negb (truthy (required_field taskData field))) requiredFields.

(** [a ?? b] on a property that is present or not. *)
Definition or_default {A : Type} (v : option A) (default : A) : A :=
  match v with
  | Some a => a
  | None => default
  end.

(** The object literal of [handleCreateTask]: generated values first, then
    the spread of [taskData], which overrides each of them it carries. *)
Definition created_task (id now1 now2 : string) (taskData : taskData_t) : Task.t :=
  Task.mk (or_default (d_id taskData) id)
          (template (d_name taskData))
          (template (d_content taskData))
          (template (d_channel taskData))
          (or_default (d_channel_config taskData) (Obj []))
          (or_default (d_status taskData) true)
          (template (d_type taskData))
          (template (d_execute_time taskData))
          (or_default (d_cycle_config taskData) Undefined)
          (or_default (d_create_time taskData) now1)
          (or_default (d_update_time taskData) now2)
          (or_default (d_execute_count taskData) 0%Z).

(** [handleCreateTask(request, env)] *)
Definition handleCreateTask (request : Request.t) : M world Response.t :=
  try_catch
    (let* taskData := request_body request in
     match missingFields taskData with
     | _ :: _ =>
         ret (Response.mk 400 (Body_text ("缺少必填字段: " +:+
                                          String.concat ",  " (missingFields taskData))))
     | [] =>
         let* id := randomUUID in
         let* create_time := current_ISO_time in
         let* update_time := current_ISO_time in
         let task := created_task id create_time update_time taskData in
         insertTask task ;;
         ret (Response.mk 201 (Body_created (Task.id task)))
     end)%js
    (fun error =>
       ret (Response.mk 500 (Body_failure (or_else (Some (exn_message error))
                                                   "Failed to create task")))).

(** [handleGetTasks(env)] *)
Definition handleGetTasks : M world Response.t :=
  try_catch
    (let* tasks := queryAllTasks in ret (Response.mk 200 (Body_tasks tasks)))%js
    (fun error =>
       ret (Response.mk 500 (Body_failure (or_else (Some (exn_message error))
                                                   "Failed to retrieve tasks")))).

(** [{...task, ...taskData, update_time}] *)
Definition merged_task (task : Task.t) (taskData : taskData_t) (update_time : string) : Task.t :=
  Task.mk (or_default (d_id taskData) (Task.id task))
          (or_default (d_name taskData) (Task.name task))
          (or_default (d_content taskData) (Task.content task))
          (or_default (d_channel taskData) (Task.channel task))
          (or_default (d_channel_config taskData) (Task.channel_config task))
          (or_default (d_status taskData) (Task.status task))
          (or_default (d_type taskData) (Task.type task))
          (or_default (d_execute_time taskData) (Task.execute_time task))
          (or_default (d_cycle_config taskData) (Task.cycle_config task))
          (or_default (d_create_time taskData) (Task.create_time task))
          update_time
          (or_default (d_execute_count taskData) (Task.execute_count task)).

(** [handleUpdateTask(request, taskId, env)] *)
Definition handleUpdateTask (request : Request.t) (taskId : string) : M world Response.t :=
  try_catch
    (let* taskData := request_body request in
     let* found := getTaskById taskId in
     match found with
     | None => ret (Response.mk 404 (Body_text "任务不存在"))
     | Some task =>
         let* update_time := current_ISO_time in
         updateTask (merged_task task taskData update_time) ;;
         ret (Response.mk 200 Body_success)
     end)%js
    (fun error =>
       ret (Response.mk 500 (Body_failure (or_else (Some (exn_message error))
                                                   "Failed to update task")))).

(** [handleDeleteTask(taskId, env)] *)
Definition handleDeleteTask (taskId : string) : M world Response.t :=
  try_catch
    (deleteTask taskId ;; ret (Response.mk 200 Body_success))%js
    (fun error =>
       ret (Response.mk 500 (Body_failure (or_else (Some (exn_message error))
                                                   "Failed to delete task")))).

(** [handleTaskApi(request, url, env)] *)
Definition handleTaskApi (request : Request.t) : M world Response.t :=
  let method := Request.method request in
  let pathname := Request.pathname request in
  let pathSegments := split_on "/" pathname in
  let taskId := nth_error pathSegments 3 in
  if String.eqb method "POST" && String.eqb pathname "/api/tasks" then handleCreateTask request
  else if String.eqb method "GET" && String.eqb pathname "/api/tasks" then handleGetTasks
  else if String.eqb method "PUT" && startsWith pathname "/api/tasks/" && truthy taskId then
    handleUpdateTask request (template taskId)
  else if String.eqb method "DELETE" && startsWith pathname "/api/tasks/" && truthy taskId then
    handleDeleteTask (template taskId)
  else ret (Response.mk 404 (Body_text "Not Found")).

(** ** The HTTP API of [src/functions/_worker.js]

    The Pages variant of the worker has its own router and its own
    handlers: the paths differ, the id of an item route is not tested, and
    no handler has a [try] block.  The statements are the ones above. *)

Module Pages.

(** [handleGetTasks(env)] *)
Definition handleGetTasks : M world Response.t :=
  (let* tasks := queryAllTasks in ret (Response.mk 200 (Body_tasks tasks)))%js.

(** [handleUpdateTask(request, taskId, env)] *)
Definition handleUpdateTask (request : Request.t) (taskId : string) : M world Response.t :=
  (let* taskData := request_body request in
   let* found := getTaskById taskId in
   match found with
   | None => ret (Response.mk 404 (Body_text "任务不存在"))
   | Some task =>
       let* update_time := current_ISO_time in
       updateTask (merged_task task taskData update_time) ;;
       ret (Response.mk 200 Body_success)
   end)%js.

(** [handleDeleteTask(taskId, env)] *)
Definition handleDeleteTask (taskId : string) : M world Response.t :=
  (deleteTask taskId ;; ret (Response.mk 200 Body_success))%js.

Section Router.

(** [handleCreateTask] of this file runs an [INSERT] whose text has
    thirteen placeholders for twelve columns; what the database makes of
    it is left open, and the handler is a parameter of the router. *)
Variable handleCreateTask : Request.t -> M world Response.t.

(** [next()]: the static files of Pages. *)
Variable next : M world Response.t.

(** [handleTaskApi(request, url, env)] *)
Definition handleTaskApi (request : Request.t) : M world Response.t :=
  let method := Request.method request in
  let pathname := Request.pathname request in
  if String.eqb method "POST" && String.eqb pathname "/api/task" then handleCreateTask request
  else if String.eqb method "GET" && String.eqb pathname "/api/tasks" then handleGetTasks
  else if String.eqb method "PUT" && startsWith pathname "/api/task/" then
    let taskId := nth_error (split_on "/" pathname) 3 in
    handleUpdateTask request (template taskId)
  else if String.eqb method "DELETE" && startsWith pathname "/api/task/" then
    let taskId := nth_error (split_on "/" pathname) 3 in
    handleDeleteTask (template taskId)
  else ret (Response.mk 404 (Body_text "Not Found")).

(** [onRequest(context)] *)
Definition onRequest (request : Request.t) : M world Response.t :=
  if startsWith (Request.pathname request) "/api/task" then handleTaskApi request else next.

End Router.

End Pages.

(** ** Notions used in the statements *)

Definition sender_call (e : event) : bool :=
  match e with
  | Ev_sendByServerChan | Ev_sendByWechatWork => true
  | _ => false
  end.

Definition fetch_call (e : event) : bool :=
  match e with
  | Ev_fetch _ _ => true
  | _ => false
  end.

Definition update_call (e : event) : bool :=
  match e with
  | Ev_updateTask _ => true
  | _ => false
  end.

Definition sleep_call (e : event) : bool :=
  match e with
  | Ev_setTimeout _ => true
  | _ => false
  end.

Definition log_call (e : event) : bool :=
  match e with
  | Ev_insertTaskLog _ => true
  | _ => false
  end.

Definition count_events (p : event -> bool) (evs : list event) : nat :=
  List.length (List.filter p evs).

(** The events a computation added to the trace. *)
Definition new_events (before after : world) : list event :=
  skipn (List.length (trace before)) (trace after).

(** The records that were handed to [insertTaskLog]. *)
Definition records_handed (evs : list event) : list Log.t :=
  flat_map (fun e => match e with Ev_insertTaskLog log => [log] | _ => [] end) evs.

(** The task objects that were handed to [updateTask]. *)
Definition tasks_handed (evs : list event) : list Task.t :=
  flat_map (fun e => match e with Ev_updateTask t => [t] | _ => [] end) evs.

(** The error [updateTask] gets from [bind] for the task object [t]. *)
Definition update_error (t : Task.t) : exn :=
  Error (D1_TYPE_ERROR
           (Array [V_string (Task.name t); V_string (Task.content t);
                   V_string (Task.channel t);
                   optional_text (JSON_stringify (Task.channel_config t));
                   V_boolean (Task.status t); V_string (Task.type t);
                   V_string (Task.execute_time t);
                   optional_text (JSON_stringify (Task.cycle_config t));
                   V_string (Task.update_time t); V_number (Task.execute_count t);
                   V_string (Task.id t)])).

(** The error [insertTaskLog] gets from [bind] for the record [log]. *)
Definition log_error (log : Log.t) : exn :=
  Error (D1_TYPE_ERROR
           (Array [V_string (Log.id log); V_string (Log.task_id log);
                   V_string (Log.channel log); V_string (Log.execute_time log);
                   V_string (Log.status log); V_string (Log.message log);
                   V_number (Log.duration log)])).

(** The error [insertTask] gets from [bind] for the task object [t]. *)
Definition insert_error (t : Task.t) : exn :=
  Error (D1_TYPE_ERROR
           (Array [V_string (Task.id t); V_string (Task.name t); V_string (Task.content t);
                   V_string (Task.channel t);
                   optional_text (JSON_stringify (Task.channel_config t));
                   V_boolean (Task.status t); V_string (Task.type t);
                   V_string (Task.execute_time t);
                   optional_text (JSON_stringify (Task.cycle_config t));
                   V_string (Task.create_time t); V_string (Task.update_time t);
                   V_number (Task.execute_count t)])).

(** The message starts with the name D1 gives to a value it does not bind. *)
Definition D1_type_error (e : exn) : Prop :=
  exists v, e = Error (D1_TYPE_ERROR v).

(** The task object as [updateTaskAfterSuccess] leaves it when it sets the
    status to [st] and the next execution time to [next]. *)
Definition advanced (st : bool) (next currentTime : string) (t : Task.t) : Task.t :=
  Task.mk (Task.id t) (Task.name t) (Task.content t) (Task.channel t) (Task.channel_config t)
          st (Task.type t) next (Task.cycle_config t) (Task.create_time t) currentTime
          (Task.execute_count t + 1)%Z.

(** The task object [updateTaskAfterSuccess] makes of a task read from the
    table. *)
Definition advanced_row (currentTime : string) (r : Row.t) : Task.t :=
  advanced (if String.eqb (Row.type r) "single" then false else Row.status r)
           (Row.execute_time r) currentTime (task_of_row r).

(** The frame in which [updateTask] throws, called with the task object
    [t']. *)
Definition after_update (t' : Task.t) (f : frame) : frame :=
  mkFrame (emit (Ev_updateTask t') (the_world f)) t' (executeResult f).

(** The record the [finally] block hands to [insertTaskLog] for the frame
    [f]. *)
Definition log_record (currentTime : string) (startTime : Z) (f : frame) : Log.t :=
  Log.mk ("uuid-" +:+ string_of_nat (uuid (the_world f))) (Task.id (task f))
         (Task.channel (task f)) currentTime (er_status (executeResult f))
         (er_message (executeResult f)) (clock (the_world f) - startTime)%Z.

(** The world in which [insertTaskLog] throws, called with that record. *)
Definition logged (currentTime : string) (startTime : Z) (f : frame) : world :=
  emit (Ev_insertTaskLog (log_record currentTime startTime f))
       (set_uuid (S (uuid (the_world f))) (the_world f)).

Definition quiet_event (e : event) : bool := sender_call e || fetch_call e || sleep_call e.

(** [w] is [w0] after sender calls, requests and sleeps only: the tables,
    the configuration and the identifiers are as in [w0]. *)
Definition quiet (w0 w : world) : Prop :=
  db_task w = db_task w0 /\ db_log w = db_log w0 /\ GLOBAL_CONFIG w = GLOBAL_CONFIG w0 /\
  uuid w = uuid w0 /\
  exists evs, trace w = trace w0 ++ evs /\ forallb quiet_event evs = true.

(** [w] has the tables and the configuration of [w0]. *)
Definition same_store (w0 w : world) : Prop :=
  db_task w = db_task w0 /\ db_log w = db_log w0 /\ GLOBAL_CONFIG w = GLOBAL_CONFIG w0.

(** A triple for computations that may throw: from a state in [P], the
    state after a normal completion is in [Qn] and the state after a throw
    is in [Qt]. *)
Definition hoare {S A : Type} (P : S -> Prop) (m : M S A)
    (Qn : A -> S -> Prop) (Qt : exn -> S -> Prop) : Prop :=
  forall s, P s ->
    match m s with
    | (Normal a, s') => Qn a s'
    | (Throw e, s') => Qt e s'
    end.

Definition row_le (a b : Row.t) : Prop :=
  String.leb (Row.execute_time a) (Row.execute_time b) = true.

Definition starts_without_digit (s : string) : Prop :=
  match s with
  | String c _ => is_digit c = false
  | EmptyString => True
  end.

(** [sctp(\d+)] matches at the head of [s] and captures [digits]: the
    capture is the whole run of digits that follows [sctp]. *)
Definition matches_here (s digits : string) : Prop :=
  exists rest,
    s = "sctp" +:+ digits +:+ rest /\ digits <> "" /\
    (forall c, In c (list_ascii_of_string digits) -> is_digit c = true) /\
    starts_without_digit rest.

(** The first match of [/sctp(\d+)/] in [s]: the leftmost position at
    which the pattern matches. *)
Definition first_match (s digits : string) : Prop :=
  exists before here,
    s = before +:+ here /\ matches_here here digits /\
    forall before' here' digits',
      s = before' +:+ here' -> matches_here here' digits' ->
      (String.length before <= String.length before')%nat.

Definition no_match (s : string) : Prop :=
  forall before here digits, s = before +:+ here -> ~ matches_here here digits.

(** At most [k] calls of a sender were added to the trace of [w0]. *)
Definition sent (k : nat) (w0 w : world) : Prop :=
  exists evs, trace w = trace w0 ++ evs /\ (count_events sender_call evs <= k)%nat.

(** The frame of a pass over the task [t0] that started in [w0], before
    its [finally] block: the tables, the configuration and the
    identifiers are those of [w0], the task object has the id and the
    channel of [t0], no record was handed to [insertTaskLog], at most [k]
    calls of a sender were made, and while [executeResult] says [fail] no
    task object was handed to [updateTask]. *)
Definition in_pass (w0 : world) (t0 : Task.t) (k : nat) (f : frame) : Prop :=
  same_store w0 (the_world f) /\ uuid (the_world f) = uuid w0 /\
  Task.id (task f) = Task.id t0 /\ Task.channel (task f) = Task.channel t0 /\
  exists evs,
    trace (the_world f) = trace w0 ++ evs /\
    List.filter log_call evs = [] /\
    (count_events sender_call evs <= k)%nat /\
    (er_status (executeResult f) = "fail" -> List.filter update_call evs = []).

(** The frame says [success]. *)
Definition says_success (f : frame) : Prop := er_status (executeResult f) = "success".

Section Recurrence.

Variable Date_parse : string -> option Z.

(** The recurrence rule of [updateTaskAfterSuccess] as a function of the
    task object: the status and the next execution time it sets, or the
    exception it throws before it has changed anything. *)
Definition advance (currentTime : string) (t : Task.t) : completion (bool * string) :=
  if String.eqb (Task.type t) "single" then Normal (false, Task.execute_time t)
  else if String.eqb (Task.type t) "cycle" then
    let period := optional_chain period (Task.cycle_config t) in
    let endDate := optional_chain end_time (Task.cycle_config t) in
    if truthy endDate && Date_le (Date_parse (template endDate)) (Date_parse currentTime) then
      Normal (false, Task.execute_time t)
    else
      let current := Date_parse currentTime in
      let next (d : option Z) : completion (bool * string) :=
        match d with
        | Some v => Normal (Task.status t, ISO_string v)
        | None => Throw (RangeError "Invalid time value")
        end in
      match period with
      | Some p =>
          if String.eqb p "day" then next (setDate current (plus_number (getDate current) 1))
          else if String.eqb p "week" then next (setDate current (plus_number (getDate current) 7))
          else if String.eqb p "month" then
            next (setMonth current (plus_number (getMonth current) 1))
          else Normal (Task.status t, Task.execute_time t)
      | None => Normal (Task.status t, Task.execute_time t)
      end
  else Normal (Task.status t, Task.execute_time t).

End Recurrence.

(** A task object whose [cycle_config] is no object, as every task that is
    read from the table. *)
Definition undecoded (t : Task.t) : Prop :=
  match Task.cycle_config t with
  | Obj _ => False
  | _ => True
  end.

(** The task object after [n] calls of [updateTaskAfterSuccess] on a task
    read from the table. *)
Fixpoint advanced_times (n : nat) (currentTime : string) (r : Row.t) : Task.t :=
  match n with
  | O => task_of_row r
  | S n' =>
      let t := advanced_times n' currentTime r in
      advanced (if String.eqb (Row.type r) "single" then false else Task.status t)
               (Task.execute_time t) currentTime t
  end.

(** The clock shows a time that a [Date] can hold. *)
Definition valid_clock (w : world) : Prop := (Z.abs (clock w) <= 8640000000000000)%Z.

(** [c] does not occur in [s]. *)
Fixpoint without_char (c : ascii) (s : string) : Prop :=
  match s with
  | EmptyString => True
  | String x s' => x <> c /\ without_char c s'
  end.

(** The answer of [handleTaskApi] to a request it has no route for. *)
Definition Not_Found : M world Response.t := ret (Response.mk 404 (Body_text "Not Found")).

(** What a handler of the API may do to the world [w]: answer, with one of
    five statuses, and touch nothing but the task table, which changes
    only under 200 and 201. *)
Definition contained (w : world) (out : completion Response.t * world) : Prop :=
  exists response w',
    out = (Normal response, w') /\
    db_log w' = db_log w /\ net w' = net w /\ GLOBAL_CONFIG w' = GLOBAL_CONFIG w /\
    clock w' = clock w /\
    In (Response.status response) [200; 201; 400; 404; 500]%nat /\
    (Response.status response <> 200%nat -> Response.status response <> 201%nat ->
     db_task w' = db_task w) /\
    (Response.status response = 201%nat -> exists row, db_task w' = db_task w ++ [row]) /\
    (Response.status response = 200%nat ->
     List.length (db_task w') <= List.length (db_task w))%nat.

(** [channelConfig] carries the three credentials of WeChat Work. *)
Definition has_credentials (cc : channelConfig) : bool :=
  truthy (corp_id cc) && truthy (app_secret cc) && truthy (agent_id cc).

(** The address of the token request. *)
Definition tokenUrl_of (cc : channelConfig) : string :=
  "https://qyapi.weixin.qq.com/cgi-bin/gettoken?corpid=" +:+ template (corp_id cc) +:+
  "&corpsecret=" +:+ template (app_secret cc).

(** The test [code === 0] (or [errcode === 0]) on a property of a reply. *)
Definition accepted (c : option Z) : bool :=
  match c with
  | Some 0%Z => true
  | _ => false
  end.

(** The receiver [sendByWechatWork] posts to for one of the three
    properties: the value of the task's own object when it has one that is
    not empty; otherwise, when that object does not have the property at
    all (or the task carries no object), the value of [default_receiver]
    when it is not empty; otherwise [fallback]. *)
Definition receiver_sent (field : receiver -> option string) (cc : channelConfig)
    (overrides : js_column receiver) (fallback : string) : string :=
  let default :=
    match default_receiver cc with
    | Some d => match field d with Some "" | None => fallback | Some v => v end
    | None => fallback
    end in
  match overrides with
  | Obj o =>
      match field o with
      | Some "" => fallback
      | Some v => v
      | None => default
      end
  | _ => default
  end.

(** The call of a sender that the [try] block makes for the row [r] ends
    with the completion [c] in the world [w1]. *)
Definition first_send_ends (r : Row.t) (cc : channelConfig) (w : world)
    (c : completion json_body) (w1 : world) : Prop :=
  (Row.channel r = "server_chan" /\
   sendByServerChan (Row.content r) cc (Row.name r) w = (c, w1)) \/
  (Row.channel r = "wechat_work" /\
   sendByWechatWork (Row.content r) cc (column_value (Row.channel_config r)) w = (c, w1)).

(** The message of the record after [n] retries that all threw at the read
    of [channelConfig]. *)
Definition message_after_retries (n : nat) : string :=
  match n with
  | O => ""
  | S _ => "推送失败（重试 " +:+ string_of_nat n +:+ " 次）: channelConfig is not defined"
  end.

(** The number of retries of the [catch] block and the time it sleeps
    before each of them; with [retry_config] missing there is none, the
    test of the loop throws. *)
Definition retries (config : config_t) : nat :=
  match retry_config config with
  | Some rc => max_retry rc
  | None => 0%nat
  end.

Definition interval (config : config_t) : Z :=
  match retry_config config with
  | Some rc => retry_interval rc
  | None => 0%Z
  end.

(** The events of [n] retries of a task read from the table on a channel
    that has no sender, after [done] calls of [updateTaskAfterSuccess]:
    each retry sleeps and hands the task object, advanced once more, to
    [updateTask]. *)
Fixpoint retry_events (ms : Z) (currentTime : string) (r : Row.t) (done n : nat) : list event :=
  match n with
  | O => []
  | S n' =>
      Ev_setTimeout ms :: Ev_updateTask (advanced_times (S done) currentTime r)
        :: retry_events ms currentTime r (S done) n'
  end.

(** The message the last retry leaves when it threw [e]. *)
Definition retry_message (n : nat) (e : exn) : string :=
  "推送失败（重试 " +:+ string_of_nat n +:+ " 次）: " +:+ exn_message e.

(** The time [current.setMonth(current.getMonth() + 1)] leaves in
    [current]: the same day of the month and time of day in the next month
    (a day the next month does not have rolls over into the month after). *)
Definition next_month (t : Z) : Z :=
  MakeDate (MakeDay (YearFromTime t) (MonthFromTime t + 1) (DateFromTime t)) (TimeWithinDay t).

(** The time [t] lies in the years 0000 to 9999, which [toISOString]
    writes with four digits. *)
Definition four_digit_year (t : Z) : Prop := (0 <= YearFromTime t <= 9999)%Z.

(** The leap years of the Gregorian calendar. *)
Definition is_leap_year (y : Z) : bool :=
  ((y mod 4 =? 0) && negb (y mod 100 =? 0) || (y mod 400 =? 0))%Z.

(** The number of days of the month [m] (1 for January) of the year [y]. *)
Definition days_in_month (y m : Z) : Z :=
  (if m =? 2 then if is_leap_year y then 29 else 28
   else if (m =? 4) || (m =? 6) || (m =? 9) || (m =? 11) then 30
   else 31)%Z.

(** ** Example inputs *)

Definition demo_server_chan : channelConfig :=
  Build_channelConfig (Some "SCT123abc") (Some "https://sctapi.ftqq.com/") None None None None.

Definition demo_sctp : channelConfig :=
  Build_channelConfig (Some "sctp4711tXyZ") None None None None None.

Definition demo_wechat_work : channelConfig :=
  Build_channelConfig None None (Some "ww1") (Some "secret") (Some "1000002") None.

Definition demo_email : channelConfig :=
  Build_channelConfig None None None None None None.

(** Objects for [server_chan], [wechat_work] and [email], [null] for
    [fax]; no member [sms]. *)
Definition demo_channels : gmap string channel_entry :=
  <["server_chan" := Entry demo_server_chan]>
    (<["wechat_work" := Entry demo_wechat_work]>
       (<["email" := Entry demo_email]> (<["fax" := Falsy_entry]> ∅))).

Definition demo_config (N : nat) : config_t :=
  Build_config_t (Some demo_channels) (Some (Build_retry_config_t N 10%Z)).

(** The same channels without [retry_config]. *)
Definition config_without_retry : config_t := Build_config_t (Some demo_channels) None.

Definition demo_now : string := "2024-01-01T00:00:00.000Z".

(** Midnight of 2024-01-01 (UTC) in milliseconds. *)
Definition demo_clock : Z := 1704067200000.

Definition demo_task (id channel type : string) (cycle_config : js_column cycle) : Task.t :=
  Task.mk id "reminder" "stand-up at ten" channel Undefined true type demo_now cycle_config
          "2023-12-01T00:00:00.000Z" "2023-12-01T00:00:00.000Z" 0.

Definition weekly_task : Task.t :=
  demo_task "weekly" "server_chan" "cycle" (Obj [("period", "week")]).

Definition expired_task : Task.t :=
  demo_task "expired" "server_chan" "cycle"
            (Obj [("period", "day"); ("end_time", "2023-12-31T00:00:00.000Z")]).

Definition single_task : Task.t := demo_task "once" "server_chan" "single" Undefined.

Definition email_task : Task.t := demo_task "mail" "email" "single" Undefined.

Definition sms_task : Task.t := demo_task "sms" "sms" "single" Undefined.

(** A task whose channel is a name every object inherits. *)
Definition inherited_task : Task.t := demo_task "odd" "constructor" "single" Undefined.

Definition ok_reply : json_body :=
  Build_json_body (Some 0%Z) None (Some 0%Z) None None "{}".

Definition refused_reply : json_body :=
  Build_json_body (Some 40001%Z) (Some "bad send_key") (Some 40001%Z) (Some "bad") None "{}".

(** A world whose table holds a row for each of the given tasks, with the
    values of the task in its columns and the two JSON properties as text. *)
Definition demo_world (N : nat) (replies : list fetch_outcome) (tasks : list Task.t) : world :=
  mkWorld (map row_of_task tasks) [] (Kv_config (demo_config N)) replies demo_clock 0 [].

(** [max_retry = 2], a provider that refuses every request, one task. *)
Definition world_refused : world :=
  demo_world 2 [Reply refused_reply; Reply refused_reply; Reply refused_reply] [single_task].

(** Two due tasks; the provider accepts. *)
Definition world_two_tasks : world :=
  demo_world 2 [Reply ok_reply; Reply ok_reply] [single_task; email_task].

(** A task on a channel without an entry, [max_retry = 3]. *)
Definition world_sms : world := demo_world 3 [] [sms_task].

(** A weekly task and a provider that accepts. *)
Definition world_weekly : world := demo_world 0 [Reply ok_reply] [weekly_task].

Definition world_expired_refused : world := demo_world 1 [Reply refused_reply] [expired_task].

Definition world_expired_accepted : world := demo_world 1 [Reply ok_reply] [expired_task].

Definition world_once : world := demo_world 0 [Reply ok_reply] [single_task].

Definition world_mail : world := demo_world 1 [] [email_task].

(** The one-shot task, a provider that accepts, and a configuration
    without [retry_config]. *)
Definition world_without_retry : world :=
  mkWorld (map row_of_task [single_task; email_task]) [] (Kv_config config_without_retry)
          [Reply ok_reply; Reply ok_reply] demo_clock 0 [].

(** The first instant of the year 10000, in milliseconds, and a row that
    is set for it. *)
Definition year_10000 : Z := 253402300800000.

Definition far_row : Row.t :=
  Row.mk "far" "reminder" "stand-up at ten" "server_chan" None true "single"
         "+010000-01-01T00:00:00.000Z" None
         "2023-12-01T00:00:00.000Z" "2023-12-01T00:00:00.000Z" 0.

Definition world_far : world :=
  mkWorld [far_row] [] (Kv_config (demo_config 0)) [Reply ok_reply] demo_clock 0 [].

(** The task of [world_mail] with [max_retry = 0]. *)
Definition world_mail_no_retry : world := demo_world 0 [] [email_task].

(** The world a minute after a tick that left [w], the provider ready to
    accept one more request. *)
Definition a_minute_later (w : world) : world :=
  set_net [Reply ok_reply] (set_clock (clock w + 60000)%Z w).

(** The [cycle_config] of [expired_task]. *)
Definition expired_cycle : cycle :=
  [("period", "day"); ("end_time", "2023-12-31T00:00:00.000Z")].

(** The record of the pass over [single_task] in [world_refused]. *)
Definition refused_record : Log.t :=
  Log.mk "uuid-0" "once" "server_chan" demo_now "fail"
         "推送失败（重试 2 次）: channelConfig is not defined" 20.

(** The record of the pass over [expired_task] in
    [world_expired_refused]. *)
Definition expired_record : Log.t :=
  Log.mk "uuid-0" "expired" "server_chan" demo_now "fail"
         "推送失败（重试 1 次）: channelConfig is not defined" 10.

(** The task whose channel is [constructor], with [max_retry = 2]. *)
Definition world_inherited : world := demo_world 2 [] [inherited_task].

(** ** Example requests *)

Definition no_properties : taskData_t :=
  Build_taskData_t None None None None None None None None None None None None.

(** A body with the five required properties, a receiver and a period. *)
Definition demo_body : taskData_t :=
  Build_taskData_t None (Some "reminder") (Some "stand-up at ten") (Some "wechat_work")
                   (Some (Obj [("touser", "alice")])) None (Some "cycle")
                   (Some demo_now) (Some (Obj [("period", "week")]))
                   None None None.

(** The same body without [name] and with an empty [type]. *)
Definition incomplete_body : taskData_t :=
  Build_taskData_t None None (Some "stand-up at ten") (Some "wechat_work")
                   (Some (Obj [("touser", "alice")])) None (Some "")
                   (Some demo_now) (Some (Obj [("period", "week")]))
                   None None None.

(** A body that renames a task and may carry an [id]. *)
Definition rename_body (id : option string) : taskData_t :=
  Build_taskData_t id (Some "renamed") None None None None None None None None None None.

Definition demo_request (method pathname : string) (d : taskData_t) : Request.t :=
  Request.mk method pathname (Json_object d).

Definition broken_request : Request.t :=
  Request.mk "POST" "/api/tasks" (Json_rejects (SyntaxError "Unexpected end of JSON input")).

(** The reply to a token request that succeeds. *)
Definition token_reply : json_body :=
  Build_json_body None None (Some 0%Z) (Some "ok") (Some "tok") "{}".

Definition world_token : world := demo_world 0 [Reply token_reply; Reply ok_reply] [email_task].

Definition world_token_refused : world := demo_world 0 [Reply refused_reply] [email_task].

Definition world_no_config : world := mkWorld [] [] Kv_missing [] demo_clock 0 [].

(** A WeChat Work entry with a default receiver. *)
Definition demo_wechat_team : channelConfig :=
  Build_channelConfig None None (Some "ww1") (Some "secret") (Some "1000002")
                      (Some [("touser", "team"); ("toparty", "7")]).

(** * Properties *)

(** ** Text order *)

Lemma ascii_compare_refl (a : ascii) : Ascii.compare a a = Eq.
Proof. unfold Ascii.compare. apply N.compare_refl. Qed.

Lemma string_compare_refl (s : string) : String.compare s s = Eq.
Proof. induction s as [|c s IH]; simpl; [reflexivity|]. now rewrite ascii_compare_refl. Qed.

Lemma string_compare_trans (c : comparison) (s1 s2 s3 : string) :
  String.compare s1 s2 = c -> String.compare s2 s3 = c -> String.compare s1 s3 = c.
Proof.
  revert s2 s3. induction s1 as [|a s1 IH]; intros [|b s2] [|d s3]; simpl; try congruence.
  unfold Ascii.compare.
  destruct (N.compare_spec (N_of_ascii a) (N_of_ascii b)) as [Hab|Hab|Hab];
    destruct (N.compare_spec (N_of_ascii b) (N_of_ascii d)) as [Hbd|Hbd|Hbd];
    destruct (N.compare_spec (N_of_ascii a) (N_of_ascii d)) as [Had|Had|Had];
    intros H1 H2; subst; try congruence; try lia; eauto.
Qed.

Lemma string_leb_trans (s1 s2 s3 : string) :
  String.leb s1 s2 = true -> String.leb s2 s3 = true -> String.leb s1 s3 = true.
Proof.
  unfold String.leb. intros H12 H23.
  destruct (String.compare s1 s2) eqn:E12; try discriminate;
    destruct (String.compare s2 s3) eqn:E23; try discriminate.
  - apply String.compare_eq_iff in E12, E23. subst. now rewrite string_compare_refl.
  - apply String.compare_eq_iff in E12. subst. now rewrite E23.
  - apply String.compare_eq_iff in E23. subst. now rewrite E12.
  - now rewrite (string_compare_trans Lt s1 s2 s3).
Qed.

(** ** Calendar arithmetic *)

Section Calendar.

Local Open Scope Z_scope.

(** [days_from_civil] takes the civil date of a day number back to it. *)
Lemma civil_from_days_inverse (z : Z) :
  days_from_civil (fst (fst (civil_from_days z))) (snd (fst (civil_from_days z)))
                  (snd (civil_from_days z)) = z /\
  (1 <= snd (fst (civil_from_days z)) <= 12)%Z.
Proof.
  unfold civil_from_days, days_from_civil. cbv zeta. cbn [fst snd].
  set (z' := z + 719468).
  set (era := z' / 146097).
  set (doe := z' - era * 146097).
  assert (0 <= doe < 146097) as Hdoe by (subst doe era; Z.div_mod_to_equations; lia).
  set (yoe := (doe - doe / 1460 + doe / 36524 - doe / 146096) / 365).
  assert (0 <= yoe <= 399) as Hyoe by (subst yoe; Z.div_mod_to_equations; lia).
  set (doy := doe - (365 * yoe + yoe / 4 - yoe / 100)).
  assert (0 <= doy <= 365) as Hdoy by (subst doy yoe; Z.div_mod_to_equations; lia).
  set (mp := (5 * doy + 2) / 153).
  assert (0 <= mp <= 11) as Hmp by (subst mp; Z.div_mod_to_equations; lia).
  destruct (Z.ltb_spec mp 10) as [H10|H10].
  - replace (mp + 3 <=? 2) with false by (symmetry; apply Z.leb_gt; lia).
    replace (2 <? mp + 3) with true by (symmetry; apply Z.ltb_lt; lia).
    replace (mp + 3 - 3) with mp by lia.
    replace ((yoe + era * 400) / 400) with era by (Z.div_mod_to_equations; lia).
    replace (yoe + era * 400 - era * 400) with yoe by lia.
    split; [|lia]. subst doy z' doe. clearbody mp yoe. lia.
  - replace (mp - 9 <=? 2) with true by (symmetry; apply Z.leb_le; lia).
    replace (2 <? mp - 9) with false by (symmetry; apply Z.ltb_ge; lia).
    replace (mp - 9 + 9) with mp by lia.
    replace (yoe + era * 400 + 1 - 1) with (yoe + era * 400) by lia.
    replace ((yoe + era * 400) / 400) with era by (Z.div_mod_to_equations; lia).
    replace (yoe + era * 400 - era * 400) with yoe by lia.
    split; [|lia]. subst doy z' doe. clearbody mp yoe. lia.
Qed.

Lemma days_from_civil_linear (y m d : Z) :
  days_from_civil y m d = (days_from_civil y m 1 + d - 1)%Z.
Proof. unfold days_from_civil. cbv zeta. lia. Qed.

Lemma MakeDay_of_date (t n : Z) :
  MakeDay (YearFromTime t) (MonthFromTime t) (DateFromTime t + n) = (Day t + n)%Z.
Proof.
  unfold MakeDay, YearFromTime, MonthFromTime, DateFromTime.
  destruct (civil_from_days_inverse (Day t)) as (Hinv & Hm).
  set (y := fst (fst (civil_from_days (Day t)))) in *.
  set (m := snd (fst (civil_from_days (Day t)))) in *.
  set (d := snd (civil_from_days (Day t))) in *.
  replace ((m - 1) / 12)%Z with 0%Z by (Z.div_mod_to_equations; lia).
  replace ((m - 1) mod 12 + 1)%Z with m by (Z.div_mod_to_equations; lia).
  rewrite Z.add_0_r. rewrite (days_from_civil_linear y m d) in Hinv. lia.
Qed.

(** [d.setDate(d.getDate() + n)] moves the time value by [n] days. *)
Lemma setDate_add_days (t n : Z) :
  setDate (Some t) (plus_number (getDate (Some t)) n) = TimeClip (t + n * msPerDay).
Proof.
  cbn [setDate plus_number getDate option_map]. f_equal.
  rewrite MakeDay_of_date. unfold MakeDate, Day, TimeWithinDay, msPerDay.
  Z.div_mod_to_equations. lia.
Qed.

Lemma next_month_eq (t : Z) :
  next_month t
  = MakeDate (MakeDay (YearFromTime t) (MonthFromTime t + 1) (DateFromTime t)) (TimeWithinDay t).
Proof. reflexivity. Qed.

Lemma getMonth_Some (t : Z) : getMonth (Some t) = Some (MonthFromTime t).
Proof. reflexivity. Qed.

Lemma plus_number_Some (a n : Z) : plus_number (Some a) n = Some (a + n)%Z.
Proof. reflexivity. Qed.

Lemma setMonth_Some (t m : Z) :
  setMonth (Some t) (Some m)
  = TimeClip (MakeDate (MakeDay (YearFromTime t) m (DateFromTime t)) (TimeWithinDay t)).
Proof. reflexivity. Qed.

(** [d.setMonth(d.getMonth() + 1)] *)
Lemma setMonth_next (t : Z) :
  setMonth (Some t) (plus_number (getMonth (Some t)) 1) = TimeClip (next_month t).
Proof. now rewrite getMonth_Some, plus_number_Some, setMonth_Some, next_month_eq. Qed.

End Calendar.

(** ** The order of the texts of [toISOString] *)

Section IsoOrder.

Local Open Scope Z_scope.

(** The steps of [civil_from_days]. *)
Lemma civil_from_days_steps (z : Z) :
  exists era doe yoe doy mp,
    z + 719468 = era * 146097 + doe /\ 0 <= doe < 146097 /\
    yoe = (doe - doe / 1460 + doe / 36524 - doe / 146096) / 365 /\ 0 <= yoe <= 399 /\
    doy = doe - (365 * yoe + yoe / 4 - yoe / 100) /\ 0 <= doy <= 365 /\
    mp = (5 * doy + 2) / 153 /\ 0 <= mp <= 11 /\
    1 <= doy - (153 * mp + 2) / 5 + 1 <= 31 /\
    civil_from_days z
    = (if mp <? 10 then yoe + era * 400 else yoe + era * 400 + 1,
       if mp <? 10 then mp + 3 else mp - 9,
       doy - (153 * mp + 2) / 5 + 1).
Proof.
  unfold civil_from_days. cbv zeta.
  set (z' := z + 719468).
  set (era := z' / 146097).
  set (doe := z' - era * 146097).
  assert (0 <= doe < 146097) as Hdoe by (subst doe era; Z.div_mod_to_equations; lia).
  set (yoe := (doe - doe / 1460 + doe / 36524 - doe / 146096) / 365).
  assert (0 <= yoe <= 399) as Hyoe by (subst yoe; Z.div_mod_to_equations; lia).
  set (doy := doe - (365 * yoe + yoe / 4 - yoe / 100)).
  assert (0 <= doy <= 365) as Hdoy by (subst doy yoe; Z.div_mod_to_equations; lia).
  set (mp := (5 * doy + 2) / 153).
  assert (0 <= mp <= 11) as Hmp by (subst mp; Z.div_mod_to_equations; lia).
  assert (1 <= doy - (153 * mp + 2) / 5 + 1 <= 31) as Hd
      by (subst mp; Z.div_mod_to_equations; lia).
  exists era, doe, yoe, doy, mp.
  split; [subst doe; lia|]. do 8 (split; [first [assumption|reflexivity]|]).
  destruct (Z.ltb_spec mp 10) as [H10|H10].
  - replace (mp + 3 <=? 2) with false by (symmetry; apply Z.leb_gt; lia). reflexivity.
  - replace (mp - 9 <=? 2) with true by (symmetry; apply Z.leb_le; lia). reflexivity.
Qed.

Lemma year_of_era_mono (doe1 doe2 : Z) :
  0 <= doe1 -> doe1 <= doe2 -> doe2 < 146097 ->
  (doe1 - doe1 / 1460 + doe1 / 36524 - doe1 / 146096) / 365
  <= (doe2 - doe2 / 1460 + doe2 / 36524 - doe2 / 146096) / 365.
Proof. intros. Z.div_mod_to_equations. lia. Qed.

Lemma month_of_year_mono (doy1 doy2 : Z) :
  0 <= doy1 -> doy1 <= doy2 -> doy2 <= 365 -> (5 * doy1 + 2) / 153 <= (5 * doy2 + 2) / 153.
Proof. intros. Z.div_mod_to_equations. lia. Qed.

(** The order of two dates: by year, then by month, then by day. *)
Lemma civil_from_days_lt (z1 z2 : Z) :
  z1 < z2 ->
  let c1 := civil_from_days z1 in
  let c2 := civil_from_days z2 in
  fst (fst c1) < fst (fst c2) \/
  (fst (fst c1) = fst (fst c2) /\
   (snd (fst c1) < snd (fst c2) \/ (snd (fst c1) = snd (fst c2) /\ snd c1 < snd c2))).
Proof.
  intros Hlt. cbv zeta.
  destruct (civil_from_days_steps z1)
    as (era1 & doe1 & yoe1 & doy1 & mp1 & A1 & B1 & C1 & D1 & E1 & F1 & G1 & H1 & I1 & ->).
  destruct (civil_from_days_steps z2)
    as (era2 & doe2 & yoe2 & doy2 & mp2 & A2 & B2 & C2 & D2 & E2 & F2 & G2 & H2 & I2 & ->).
  cbn [fst snd].
  assert (era1 < era2 \/ (era1 = era2 /\ doe1 < doe2)) as [Hera|[Hera Hdoe]] by lia.
  { destruct (mp1 <? 10), (mp2 <? 10); lia. }
  assert (yoe1 <= yoe2) as Hyoe
      by (rewrite C1, C2; apply year_of_era_mono; lia).
  assert (yoe1 < yoe2 \/ (yoe1 = yoe2 /\ doy1 < doy2)) as [Hy|[Hy Hdoy]].
  { destruct (Z.eq_dec yoe1 yoe2) as [E|E]; [right|left; lia].
    split; [exact E|]. rewrite E1, E2, E. lia. }
  { destruct (mp1 <? 10), (mp2 <? 10); lia. }
  assert (mp1 <= mp2) as Hmp by (rewrite G1, G2; apply month_of_year_mono; lia).
  assert (mp1 < mp2 \/ (mp1 = mp2 /\ doy1 - (153 * mp1 + 2) / 5 + 1 < doy2 - (153 * mp2 + 2) / 5 + 1))
    as [Hm|[Hm Hd]].
  { destruct (Z.eq_dec mp1 mp2) as [E|E]; [right|left; lia].
    split; [exact E|]. rewrite E. lia. }
  - destruct (Z.ltb_spec mp1 10), (Z.ltb_spec mp2 10); lia.
  - rewrite Hm. destruct (Z.ltb_spec mp2 10); lia.
Qed.

End IsoOrder.

Section IsoText.

Local Open Scope Z_scope.

Lemma digit_char_compare (n m : Z) :
  Ascii.compare (digit_char n) (digit_char m) = (n mod 10 ?= m mod 10).
Proof.
  unfold digit_char.
  pose proof (Z.mod_pos_bound n 10 ltac:(lia)) as Hn.
  pose proof (Z.mod_pos_bound m 10 ltac:(lia)) as Hm.
  generalize dependent (n mod 10). generalize dependent (m mod 10). intros b Hb a Ha.
  assert (a = 0 \/ a = 1 \/ a = 2 \/ a = 3 \/ a = 4 \/ a = 5 \/ a = 6 \/ a = 7 \/ a = 8 \/ a = 9)
    as Ca by lia.
  assert (b = 0 \/ b = 1 \/ b = 2 \/ b = 3 \/ b = 4 \/ b = 5 \/ b = 6 \/ b = 7 \/ b = 8 \/ b = 9)
    as Cb by lia.
  repeat (destruct Ca as [->|Ca]); [..|subst a];
    repeat (destruct Cb as [->|Cb]); try subst b; reflexivity.
Qed.

Lemma string_app_assoc (a b c : string) : (a +:+ b) +:+ c = a +:+ (b +:+ c).
Proof.
  induction a as [|x a IH]; [reflexivity|].
  change (String x ((a +:+ b) +:+ c) = String x (a +:+ (b +:+ c))). now rewrite IH.
Qed.

(** Two numbers written with the same number of digits compare as texts
    the way they compare as numbers. *)
Lemma pad_digits_compare (width : nat) (n m : Z) (s s' : string) :
  0 <= n < 10 ^ Z.of_nat width -> 0 <= m < 10 ^ Z.of_nat width ->
  String.compare (pad_digits width n +:+ s) (pad_digits width m +:+ s')
  = match n ?= m with
    | Eq => String.compare s s'
    | Lt => Lt
    | Gt => Gt
    end.
Proof.
  revert n m s s'. induction width as [|width IH]; intros n m s s' Hn Hm.
  - cbn in Hn, Hm. assert (n = 0) by lia. assert (m = 0) by lia. subst. reflexivity.
  - cbn [pad_digits]. rewrite !string_app_assoc.
    rewrite Nat2Z.inj_succ, Z.pow_succ_r in Hn, Hm by lia.
    rewrite IH by (Z.div_mod_to_equations; lia).
    change (String (digit_char n) "" +:+ s) with (String (digit_char n) s).
    change (String (digit_char m) "" +:+ s') with (String (digit_char m) s').
    cbn [String.compare]. rewrite digit_char_compare.
    destruct (Z.compare_spec (n / 10) (m / 10)) as [H1|H1|H1];
      destruct (Z.compare_spec (n mod 10) (m mod 10)) as [H2|H2|H2];
      destruct (Z.compare_spec n m) as [H3|H3|H3];
      try reflexivity; exfalso; Z.div_mod_to_equations; lia.
Qed.

Lemma lexicographic_lt (x y : Z) (k : comparison) :
  x < y \/ (x = y /\ k = Lt) ->
  match x ?= y with
  | Eq => k
  | Lt => Lt
  | Gt => Gt
  end = Lt.
Proof.
  intros [H|[-> ->]]; [|now rewrite Z.compare_refl].
  apply Z.compare_lt_iff in H. now rewrite H.
Qed.

(** The fields of a time of day. *)
Lemma time_fields (t : Z) :
  let ms := TimeWithinDay t in
  0 <= ms / 3600000 < 10 ^ Z.of_nat 2 /\ 0 <= ms / 60000 mod 60 < 10 ^ Z.of_nat 2 /\
  0 <= ms / 1000 mod 60 < 10 ^ Z.of_nat 2 /\ 0 <= ms mod 1000 < 10 ^ Z.of_nat 3.
Proof.
  cbv zeta. unfold TimeWithinDay, msPerDay.
  change (10 ^ Z.of_nat 2) with 100. change (10 ^ Z.of_nat 3) with 1000.
  repeat split; Z.div_mod_to_equations; lia.
Qed.

(** The fields of a date. *)
Lemma date_fields (t : Z) :
  0 <= MonthFromTime t + 1 < 10 ^ Z.of_nat 2 /\ 0 <= DateFromTime t < 10 ^ Z.of_nat 2.
Proof.
  unfold MonthFromTime, DateFromTime.
  destruct (civil_from_days_steps (Day t))
    as (era & doe & yoe & doy & mp & _ & _ & _ & _ & _ & _ & _ & Hmp & Hd & ->).
  cbn [fst snd]. change (10 ^ Z.of_nat 2) with 100. destruct (Z.ltb_spec mp 10); lia.
Qed.

(** [toISOString] within the years 0000 to 9999. *)
Lemma ISO_string_four_digits (t : Z) :
  four_digit_year t ->
  ISO_string t
  = pad_digits 4 (YearFromTime t) +:+ "-" +:+ pad_digits 2 (MonthFromTime t + 1) +:+ "-" +:+
    pad_digits 2 (DateFromTime t) +:+ "T" +:+ pad_digits 2 (TimeWithinDay t / 3600000) +:+ ":" +:+
    pad_digits 2 (TimeWithinDay t / 60000 mod 60) +:+ ":" +:+
    pad_digits 2 (TimeWithinDay t / 1000 mod 60) +:+ "." +:+
    pad_digits 3 (TimeWithinDay t mod 1000) +:+ "Z".
Proof.
  intros [H1 H2]. unfold ISO_string. cbv zeta.
  apply Z.leb_le in H1, H2. rewrite H1, H2. reflexivity.
Qed.

(** An earlier time has the smaller text. *)
Lemma ISO_string_lt (a b : Z) :
  four_digit_year a -> four_digit_year b -> a < b ->
  String.compare (ISO_string a) (ISO_string b) = Lt.
Proof.
  intros Ha Hb Hlt.
  rewrite (ISO_string_four_digits a Ha), (ISO_string_four_digits b Hb).
  destruct (time_fields a) as (Ta1 & Ta2 & Ta3 & Ta4).
  destruct (time_fields b) as (Tb1 & Tb2 & Tb3 & Tb4).
  destruct (date_fields a) as (Da1 & Da2). destruct (date_fields b) as (Db1 & Db2).
  assert (Day a < Day b \/ (Day a = Day b /\ TimeWithinDay a < TimeWithinDay b)) as Hcases
      by (unfold Day, TimeWithinDay, msPerDay; Z.div_mod_to_equations; lia).
  unfold four_digit_year in Ha, Hb.
  rewrite pad_digits_compare by (change (10 ^ Z.of_nat 4) with 10000; lia).
  repeat (match goal with
          | |- context [String.compare (String ?c "" +:+ ?x) (String ?c "" +:+ ?y)] =>
              change (String c "" +:+ x) with (String c x);
              change (String c "" +:+ y) with (String c y)
          end;
          cbn [String.compare]; rewrite ascii_compare_refl;
          rewrite pad_digits_compare by assumption).
  change (String.compare "Z" "Z") with Eq.
  destruct Hcases as [Hday|[Hday Htime]].
  - pose proof (civil_from_days_lt _ _ Hday) as L. cbv zeta in L.
    fold (YearFromTime a) (YearFromTime b) (DateFromTime a) (DateFromTime b) in L.
    assert (snd (fst (civil_from_days (Day a))) = MonthFromTime a + 1) as Ma
        by (unfold MonthFromTime; lia).
    assert (snd (fst (civil_from_days (Day b))) = MonthFromTime b + 1) as Mb
        by (unfold MonthFromTime; lia).
    rewrite Ma, Mb in L.
    apply lexicographic_lt. destruct L as [L|[L1 [L|[L2 L3]]]].
    + left. exact L.
    + right. split; [exact L1|]. apply lexicographic_lt. left. exact L.
    + right. split; [exact L1|]. apply lexicographic_lt. right. split; [exact L2|].
      apply lexicographic_lt. left. exact L3.
  - assert (YearFromTime a = YearFromTime b) as E1 by (unfold YearFromTime; now rewrite Hday).
    assert (MonthFromTime a + 1 = MonthFromTime b + 1) as E2
        by (unfold MonthFromTime; now rewrite Hday).
    assert (DateFromTime a = DateFromTime b) as E3 by (unfold DateFromTime; now rewrite Hday).
    do 3 (apply lexicographic_lt; right; split; [assumption|]).
    pose proof (Z.mod_pos_bound a msPerDay ltac:(unfold msPerDay; lia)) as Ra.
    pose proof (Z.mod_pos_bound b msPerDay ltac:(unfold msPerDay; lia)) as Rb.
    fold (TimeWithinDay a) in Ra. fold (TimeWithinDay b) in Rb. unfold msPerDay in Ra, Rb.
    generalize dependent (TimeWithinDay a). generalize dependent (TimeWithinDay b).
    intros tb _ _ _ _ Rb ta _ _ _ _ Htime Ra.
    assert (ta / 3600000 < tb / 3600000 \/
            (ta / 3600000 = tb / 3600000 /\
             (ta / 60000 mod 60 < tb / 60000 mod 60 \/
              (ta / 60000 mod 60 = tb / 60000 mod 60 /\
               (ta / 1000 mod 60 < tb / 1000 mod 60 \/
                (ta / 1000 mod 60 = tb / 1000 mod 60 /\ ta mod 1000 < tb mod 1000))))))
      as L by (Z.div_mod_to_equations; lia).
    apply lexicographic_lt. destruct L as [L|[L1 [L|[L2 [L|[L3 L4]]]]]].
    + left. exact L.
    + right. split; [exact L1|]. apply lexicographic_lt. left. exact L.
    + right. split; [exact L1|]. apply lexicographic_lt. right. split; [exact L2|].
      apply lexicographic_lt. left. exact L.
    + right. split; [exact L1|]. apply lexicographic_lt. right. split; [exact L2|].
      apply lexicographic_lt. right. split; [exact L3|].
      apply lexicographic_lt. left. exact L4.
Qed.

(** For two times within the years 0000 to 9999, the texts that
    [toISOString] writes compare, as texts, the way the times compare. *)
Lemma ISO_string_compare (a b : Z) :
  four_digit_year a -> four_digit_year b ->
  String.compare (ISO_string a) (ISO_string b) = (a ?= b).
Proof.
  intros Ha Hb. destruct (Z.compare_spec a b) as [->|H|H].
  - apply string_compare_refl.
  - now apply ISO_string_lt.
  - rewrite String.compare_antisym, (ISO_string_lt b a Hb Ha H). reflexivity.
Qed.

Lemma ISO_string_leb (a b : Z) :
  four_digit_year a -> four_digit_year b ->
  String.leb (ISO_string a) (ISO_string b) = true <-> a <= b.
Proof.
  intros Ha Hb. unfold String.leb. rewrite (ISO_string_compare a b Ha Hb).
  destruct (Z.compare_spec a b) as [->|H|H]; split; intros H'; try reflexivity; try lia;
    discriminate.
Qed.

End IsoText.

(** ** The query of the due tasks *)

Lemma insert_by_execute_time_In (r x : Row.t) (l : list Row.t) :
  In x (insert_by_execute_time r l) <-> x = r \/ In x l.
Proof.
  induction l as [|y l IH]; simpl.
  - intuition.
  - destruct (String.leb (Row.execute_time r) (Row.execute_time y)); simpl; [intuition|].
    rewrite IH. intuition.
Qed.

Lemma order_by_execute_time_In (x : Row.t) (l : list Row.t) :
  In x (order_by_execute_time l) <-> In x l.
Proof.
  induction l as [|y l IH]; simpl; [reflexivity|].
  rewrite insert_by_execute_time_In, IH. intuition.
Qed.

Lemma insert_by_execute_time_sorted (r : Row.t) (l : list Row.t) :
  StronglySorted row_le l -> StronglySorted row_le (insert_by_execute_time r l).
Proof.
  induction 1 as [|y l Hs IH Hy]; simpl.
  - repeat constructor.
  - destruct (String.leb (Row.execute_time r) (Row.execute_time y)) eqn:E.
    + constructor; [now constructor|].
      constructor; [exact E|].
      rewrite List.Forall_forall in Hy. apply List.Forall_forall. intros z Hz.
      unfold row_le in *. eapply string_leb_trans; [exact E|]. now apply Hy.
    + constructor; [exact IH|].
      apply List.Forall_forall. intros z Hz. apply insert_by_execute_time_In in Hz.
      destruct Hz as [->|Hz].
      * unfold row_le. destruct (String.leb_total (Row.execute_time y) (Row.execute_time r));
          congruence.
      * rewrite List.Forall_forall in Hy. now apply Hy.
Qed.

Lemma order_by_execute_time_sorted (l : list Row.t) :
  StronglySorted row_le (order_by_execute_time l).
Proof.
  induction l as [|y l IH]; simpl; [constructor|].
  now apply insert_by_execute_time_sorted.
Qed.

Lemma select_due_In (table : list Row.t) (now : string) (r : Row.t) :
  In r (select_due table now) <-> In r table /\ is_due now r = true.
Proof. unfold select_due. now rewrite order_by_execute_time_In, filter_In. Qed.

Lemma StronglySorted_map {A B : Type} (R : A -> A -> Prop) (R' : B -> B -> Prop)
    (g : A -> B) (l : list A) :
  (forall a b, R a b -> R' (g a) (g b)) ->
  StronglySorted R l -> StronglySorted R' (map g l).
Proof.
  intros Hg. induction 1 as [|y l Hs IH Hy]; simpl; constructor; [exact IH|].
  apply List.Forall_forall. intros z Hz. apply in_map_iff in Hz. destruct Hz as (a & <- & Ha).
  rewrite List.Forall_forall in Hy. auto.
Qed.

Lemma StronglySorted_weaken {A : Type} (R R' : A -> A -> Prop) (l : list A) :
  (forall a b, R a b -> R' a b) -> StronglySorted R l -> StronglySorted R' l.
Proof.
  intros H. induction 1 as [|y l Hs IH Hy]; constructor; [exact IH|].
  apply List.Forall_forall. intros z Hz. rewrite List.Forall_forall in Hy. auto.
Qed.

(** C8, amended. Whatever the time [now] and the table, [queryDueTasks]
    returns, and every task it returns is enabled and has an
    [execute_time] that is not after [now] as text, the comparison of the
    statement; the list is in ascending order of these texts.  The order
    of the texts is the order of time for the texts that [toISOString]
    writes within the years 0000 to 9999: when [now] is such a text, a
    returned task whose [execute_time] is one is not after [now] in time,
    and such tasks are returned in ascending order of time. *)
Theorem queryDueTasks_due_and_ascending (now : string) (w : world) :
  exists tasks,
    queryDueTasks now w = (Normal tasks, w) /\
    Forall (fun t => Task.status t = true /\ String.leb (Task.execute_time t) now = true) tasks /\
    StronglySorted
      (fun a b => String.leb (Task.execute_time a) (Task.execute_time b) = true) tasks /\
    (forall a b, four_digit_year a -> four_digit_year b ->
                 (String.leb (ISO_string a) (ISO_string b) = true <-> (a <= b)%Z)) /\
    (forall n, four_digit_year n -> now = ISO_string n ->
       Forall (fun t => forall a, four_digit_year a -> Task.execute_time t = ISO_string a ->
                                  (a <= n)%Z) tasks) /\
    StronglySorted
      (fun x y => forall a b, four_digit_year a -> four_digit_year b ->
                              Task.execute_time x = ISO_string a ->
                              Task.execute_time y = ISO_string b -> (a <= b)%Z) tasks.
Proof.
  assert (Forall (fun t => Task.status t = true /\ String.leb (Task.execute_time t) now = true)
                 (map task_of_row (select_due (db_task w) now))) as Hdue.
  { apply List.Forall_forall. intros t Ht. apply in_map_iff in Ht. destruct Ht as (r & <- & Hr).
    apply select_due_In in Hr. destruct Hr as [_ Hr]. unfold is_due in Hr.
    apply andb_true_iff in Hr. exact Hr. }
  assert (StronglySorted
            (fun a b => String.leb (Task.execute_time a) (Task.execute_time b) = true)
            (map task_of_row (select_due (db_task w) now))) as Hsorted.
  { apply (StronglySorted_map row_le); [intros a b Hab; exact Hab|].
    apply order_by_execute_time_sorted. }
  eexists. split; [reflexivity|]. split; [exact Hdue|]. split; [exact Hsorted|].
  split; [exact ISO_string_leb|]. split.
  - intros n Hn ->. eapply List.Forall_impl; [|exact Hdue].
    intros t [_ Ht] a Ha E. rewrite E in Ht. now apply ISO_string_leb in Ht.
  - eapply StronglySorted_weaken; [|exact Hsorted].
    intros x y Hxy a b' Ha Hb Ex Ey. cbv beta in Hxy. rewrite Ex, Ey in Hxy.
    now apply ISO_string_leb in Hxy.
Qed.

(** C8 as stated fails: at a tick of the year 2024 the query returns a row
    that is set for the year 10000, whose text begins with the sign [+];
    the tick then sends it. *)
Lemma year_10000_row_is_due_in_2024 :
  Row.execute_time far_row = ISO_string year_10000 /\
  ISO_string (clock world_far) = "2024-01-01T00:00:00.000Z" /\
  (clock world_far < year_10000)%Z /\
  ISO_parse (ISO_string (clock world_far)) = Some (clock world_far) /\
  fst (queryDueTasks (ISO_string (clock world_far)) world_far) = Normal [task_of_row far_row] /\
  count_events sender_call
    (new_events world_far (snd (handleScheduledTasks ISO_parse world_far))) = 1%nat.
Proof. vm_compute. repeat split; reflexivity. Qed.

(** ** The pattern [sctp(\d+)] *)

Lemma take_digits_split (s : string) :
  exists rest, s = take_digits s +:+ rest /\ starts_without_digit rest.
Proof.
  induction s as [|c s (rest & Hs & Hr)]; simpl.
  - exists "". split; [reflexivity|exact I].
  - destruct (is_digit c) eqn:E.
    + exists rest. split; [|exact Hr].
      change (String c s = String c (take_digits s +:+ rest)). now f_equal.
    + exists (String c s). split; [reflexivity|exact E].
Qed.

Lemma take_digits_digits (s : string) (c : ascii) :
  In c (list_ascii_of_string (take_digits s)) -> is_digit c = true.
Proof.
  induction s as [|a s IH]; simpl; [tauto|].
  destruct (is_digit a) eqn:E; simpl; [|tauto].
  intros [<-|H]; auto.
Qed.

Lemma take_digits_app (digits rest : string) :
  (forall c, In c (list_ascii_of_string digits) -> is_digit c = true) ->
  starts_without_digit rest ->
  take_digits (digits +:+ rest) = digits.
Proof.
  intros Hd Hr. induction digits as [|c d IH]; simpl.
  - destruct rest as [|a rest]; simpl in *; [reflexivity|now rewrite Hr].
  - rewrite (Hd c) by (simpl; auto). f_equal. apply IH. intros a Ha. apply Hd. simpl. auto.
Qed.

Lemma sctp_match_here_spec (s digits : string) :
  sctp_match_here s = Some digits <-> matches_here s digits.
Proof.
  split.
  - unfold sctp_match_here. intros H.
    destruct s as [|a s]; [discriminate|].
    destruct (ascii_dec a "s") as [->|Na]; [|destruct a as [[] [] [] [] [] [] [] []]; try discriminate; now elim Na].
    destruct s as [|a s]; [discriminate|].
    destruct (ascii_dec a "c") as [->|Na]; [|destruct a as [[] [] [] [] [] [] [] []]; try discriminate; now elim Na].
    destruct s as [|a s]; [discriminate|].
    destruct (ascii_dec a "t") as [->|Na]; [|destruct a as [[] [] [] [] [] [] [] []]; try discriminate; now elim Na].
    destruct s as [|a s]; [discriminate|].
    destruct (ascii_dec a "p") as [->|Na]; [|destruct a as [[] [] [] [] [] [] [] []]; try discriminate; now elim Na].
    destruct (take_digits_split s) as (rest & Hs & Hr).
    pose proof (take_digits_digits s) as Hd.
    destruct (take_digits s) as [|c d] eqn:E; [discriminate|].
    injection H as <-. exists rest. repeat split; [|discriminate|exact Hd|exact Hr].
    change ("sctp" +:+ s = "sctp" +:+ (String c d +:+ rest)). now f_equal.
  - intros (rest & -> & Hne & Hd & Hr).
    change (match take_digits (digits +:+ rest) with
            | "" => None
            | String a d => Some (String a d)
            end = Some digits).
    rewrite (take_digits_app digits rest Hd Hr).
    destruct digits; [now elim Hne|reflexivity].
Qed.

Lemma matches_here_unique (s d1 d2 : string) :
  matches_here s d1 -> matches_here s d2 -> d1 = d2.
Proof.
  intros H1 H2. apply sctp_match_here_spec in H1, H2. congruence.
Qed.

Lemma regex_sctp_exec_some (s digits : string) :
  regex_sctp_exec s = Some digits -> first_match s digits.
Proof.
  induction s as [|c s IH]; simpl.
  - discriminate.
  - fold (sctp_match_here (String c s)).
    destruct (sctp_match_here (String c s)) as [d|] eqn:E.
    + intros [= ->]. exists "", (String c s). split; [reflexivity|]. split.
      * now apply sctp_match_here_spec.
      * intros. simpl. lia.
    + intros H. destruct (IH H) as (before & here & -> & Hm & Hleft).
      exists (String c before), here. split; [reflexivity|]. split; [exact Hm|].
      intros [|a before'] here' d' Heq Hm'.
      * change (String c (before +:+ here) = here') in Heq. subst here'.
        apply sctp_match_here_spec in Hm'. congruence.
      * change (String c (before +:+ here) = String a (before' +:+ here')) in Heq.
        injection Heq as -> Heq. simpl. apply le_n_S. eapply Hleft; eassumption.
Qed.

Lemma regex_sctp_exec_none (s : string) :
  regex_sctp_exec s = None -> no_match s.
Proof.
  induction s as [|c s IH]; simpl.
  - intros _ [|a b] here d Heq Hm; [|discriminate].
    change ("" = here) in Heq. subst here.
    apply sctp_match_here_spec in Hm. discriminate.
  - fold (sctp_match_here (String c s)).
    destruct (sctp_match_here (String c s)) as [d|] eqn:E; [discriminate|].
    intros H [|a before] here d Heq Hm.
    + change (String c s = here) in Heq. subst here.
      apply sctp_match_here_spec in Hm. congruence.
    + change (String c s = String a (before +:+ here)) in Heq.
      injection Heq as -> Heq. exact (IH H before here d Heq Hm).
Qed.

Lemma append_same_length (a b a' b' : string) :
  a +:+ b = a' +:+ b' -> String.length a = String.length a' -> a = a' /\ b = b'.
Proof.
  revert a'. induction a as [|c a IH]; intros [|c' a']; try discriminate.
  - intros H _. now split.
  - intros H L. change (String c (a +:+ b) = String c' (a' +:+ b')) in H.
    injection H as -> H. injection L as L. destruct (IH a' H L) as [-> ->]. auto.
Qed.

Lemma first_match_unique (s d1 d2 : string) :
  first_match s d1 -> first_match s d2 -> d1 = d2.
Proof.
  intros (b1 & h1 & E1 & M1 & L1) (b2 & h2 & E2 & M2 & L2).
  assert (String.length b1 = String.length b2) as L
    by (apply Nat.le_antisymm; [eapply L1|eapply L2]; eassumption).
  rewrite E1 in E2. destruct (append_same_length _ _ _ _ E2 L) as [_ <-].
  eapply matches_here_unique; eassumption.
Qed.

Lemma regex_sctp_exec_first_match (s digits : string) :
  regex_sctp_exec s = Some digits <-> first_match s digits.
Proof.
  split; [apply regex_sctp_exec_some|].
  intros H. destruct (regex_sctp_exec s) as [d|] eqn:E.
  - f_equal. eapply first_match_unique; [|exact H]. now apply regex_sctp_exec_some.
  - destruct H as (b & h & Hs & Hm & _). now elim (regex_sctp_exec_none s E b h digits).
Qed.

Lemma regex_sctp_exec_no_match (s : string) :
  regex_sctp_exec s = None <-> no_match s.
Proof.
  split; [apply regex_sctp_exec_none|].
  intros H. destruct (regex_sctp_exec s) as [d|] eqn:E; [|reflexivity].
  apply regex_sctp_exec_some in E. destruct E as (b & h & Hs & Hm & _).
  now elim (H b h d).
Qed.

Lemma truthy_some (key : string) : key <> "" -> truthy (Some key) = true.
Proof. destruct key; [congruence|reflexivity]. Qed.

(** C9. [sendByServerChan] throws when [send_key] is absent (or empty),
    before any request.  With a key that starts with [sctp], the request
    goes to the host named by the digits that the first match of
    [sctp(\d+)] in the key captures, and the sender throws before any
    request when the pattern has no match.  With any other non-empty key the
    endpoint is [api_prefix] followed by the key and [.send]. *)
Theorem sendByServerChan_endpoint (content title : string) (cc : channelConfig) (w : world) :
  (truthy (send_key cc) = false ->
   sendByServerChan content cc title w
   = (Throw (Error "ServerChan 推送失败: 缺少 send_key"), emit Ev_sendByServerChan w)) /\
  (forall key, send_key cc = Some key -> key <> "" -> startsWith key "sctp" = true ->
     (forall digits, first_match key digits ->
        trace (snd (sendByServerChan content cc title w))
        = trace w ++ [Ev_sendByServerChan;
                      Ev_fetch ("https://" +:+ digits +:+ ".push.ft07.com/send/" +:+ key +:+ ".send")
                               (ServerChan_body title content)]) /\
     (no_match key ->
        sendByServerChan content cc title w
        = (Throw (Error "ServerChan 推送失败: 无效的 sctp 格式 send_key"),
           emit Ev_sendByServerChan w))) /\
  (forall key, send_key cc = Some key -> key <> "" -> startsWith key "sctp" = false ->
     trace (snd (sendByServerChan content cc title w))
     = trace w ++ [Ev_sendByServerChan;
                   Ev_fetch (template (api_prefix cc) +:+ key +:+ ".send")
                            (ServerChan_body title content)]).
Proof.
  unfold sendByServerChan, ServerChan_pushUrl, bind, modify, throw, ret.
  split; [|split].
  - intros ->. reflexivity.
  - intros key Hk Hne Hp. rewrite Hk, (truthy_some key Hne).
    cbn [negb template]. cbv zeta. rewrite Hp. split.
    + intros digits Hm. apply regex_sctp_exec_first_match in Hm. rewrite Hm.
      unfold fetch. destruct w as [dt dl gc [|[e|b] rest] ck uu tr]; simpl.
      * now rewrite <- app_assoc.
      * now rewrite <- app_assoc.
      * destruct (code b) as [[| |]|]; simpl; now rewrite <- app_assoc.
    + intros Hm. apply regex_sctp_exec_no_match in Hm. rewrite Hm. reflexivity.
  - intros key Hk Hne Hp. rewrite Hk, (truthy_some key Hne).
    cbn [negb template]. cbv zeta. rewrite Hp.
    unfold fetch. destruct w as [dt dl gc [|[e|b] rest] ck uu tr]; simpl.
    + now rewrite <- app_assoc.
    + now rewrite <- app_assoc.
    + destruct (code b) as [[| |]|]; simpl; now rewrite <- app_assoc.
Qed.

(** ** Rules *)

Lemma hoare_ret {S A : Type} (P : S -> Prop) (a : A) (Qn : A -> S -> Prop) Qt :
  (forall s, P s -> Qn a s) -> hoare P (ret a) Qn Qt.
Proof. intros H s Hs. now apply H. Qed.

Lemma hoare_throw {S A : Type} (P : S -> Prop) (e : exn) (Qn : A -> S -> Prop)
    (Qt : exn -> S -> Prop) :
  (forall s, P s -> Qt e s) -> hoare P (throw e) Qn Qt.
Proof. intros H s Hs. now apply H. Qed.

Lemma hoare_bind {S A B : Type} (P : S -> Prop) (m : M S A) (k : A -> M S B)
    (R : A -> S -> Prop) (Qn : B -> S -> Prop) (Qt : exn -> S -> Prop) :
  hoare P m R Qt -> (forall a, hoare (R a) (k a) Qn Qt) -> hoare P (bind m k) Qn Qt.
Proof.
  intros Hm Hk s Hs. unfold bind. specialize (Hm s Hs).
  destruct (m s) as [[a|e] s']; [now apply Hk|exact Hm].
Qed.

Lemma hoare_bind_inv {S A B : Type} (I : S -> Prop) (m : M S A) (k : A -> M S B)
    (Qn : B -> S -> Prop) (Qt : exn -> S -> Prop) :
  hoare I m (fun _ => I) Qt -> (forall a, hoare I (k a) Qn Qt) -> hoare I (bind m k) Qn Qt.
Proof. apply hoare_bind. Qed.

Lemma hoare_try_catch {S A : Type} (P : S -> Prop) (body : M S A) (handler : exn -> M S A)
    (R : exn -> S -> Prop) (Qn : A -> S -> Prop) (Qt : exn -> S -> Prop) :
  hoare P body Qn R -> (forall e, hoare (R e) (handler e) Qn Qt) ->
  hoare P (try_catch body handler) Qn Qt.
Proof.
  intros Hb Hh s Hs. unfold try_catch. specialize (Hb s Hs).
  destruct (body s) as [[a|e] s']; [exact Hb|now apply Hh].
Qed.

Lemma hoare_gets {S A : Type} (P : S -> Prop) (g : S -> A) (Qn : A -> S -> Prop) Qt :
  (forall s, P s -> Qn (g s) s) -> hoare P (gets g) Qn Qt.
Proof. intros H s Hs. now apply H. Qed.

Lemma hoare_modify {S : Type} (P : S -> Prop) (g : S -> S) (Qn : unit -> S -> Prop) Qt :
  (forall s, P s -> Qn tt (g s)) -> hoare P (modify g) Qn Qt.
Proof. intros H s Hs. now apply H. Qed.

Lemma hoare_weaken {S A : Type} (P P' : S -> Prop) (m : M S A)
    (Qn Qn' : A -> S -> Prop) (Qt Qt' : exn -> S -> Prop) :
  hoare P' m Qn' Qt' -> (forall s, P s -> P' s) ->
  (forall a s, Qn' a s -> Qn a s) -> (forall e s, Qt' e s -> Qt e s) ->
  hoare P m Qn Qt.
Proof.
  intros H HP HQn HQt s Hs. specialize (H s (HP s Hs)).
  destruct (m s) as [[a|e] s']; auto.
Qed.

(** ** Quiet computations *)

Lemma quiet_refl (w : world) : quiet w w.
Proof.
  repeat split. exists []. now rewrite app_nil_r.
Qed.

Lemma quiet_emit (w0 w : world) (e : event) :
  quiet_event e = true -> quiet w0 w -> quiet w0 (emit e w).
Proof.
  intros He (H1 & H2 & H3 & H4 & evs & H5 & H6). repeat split; try assumption.
  exists (evs ++ [e]). simpl. rewrite H5, <- app_assoc. split; [reflexivity|].
  rewrite forallb_app, H6. simpl. now rewrite He.
Qed.

Lemma quiet_set_net (w0 w : world) (n : list fetch_outcome) :
  quiet w0 w -> quiet w0 (set_net n w).
Proof. intros H. exact H. Qed.

Lemma quiet_set_clock (w0 w : world) (c : Z) :
  quiet w0 w -> quiet w0 (set_clock c w).
Proof. intros H. exact H. Qed.

Lemma fetch_quiet (w0 : world) (url : string) (body : payload) :
  hoare (quiet w0) (fetch url body) (fun _ => quiet w0) (fun _ => quiet w0).
Proof.
  intros w Hw. unfold fetch.
  destruct (net w) as [|[e|b] rest]; simpl;
    try apply quiet_set_net; now apply quiet_emit.
Qed.

Lemma sendByServerChan_quiet (w0 : world) (content title : string) (cc : channelConfig) :
  hoare (quiet w0) (sendByServerChan content cc title) (fun _ => quiet w0) (fun _ => quiet w0).
Proof.
  unfold sendByServerChan.
  apply hoare_bind_inv; [apply hoare_modify; intros w Hw; now apply quiet_emit|intros _].
  apply hoare_bind_inv.
  - unfold ServerChan_pushUrl.
    destruct (negb _); [now apply hoare_throw|].
    destruct (startsWith _ _); [|now apply hoare_ret].
    destruct (regex_sctp_exec _); [now apply hoare_ret|now apply hoare_throw].
  - intros url. apply hoare_bind_inv; [apply fetch_quiet|intros b].
    destruct (code b) as [[| |]|]; first [now apply hoare_ret|now apply hoare_throw].
Qed.

Lemma sendByWechatWork_quiet (w0 : world) (content : string) (cc : channelConfig)
    (overrides : js_column receiver) :
  hoare (quiet w0) (sendByWechatWork content cc overrides)
        (fun _ => quiet w0) (fun _ => quiet w0).
Proof.
  unfold sendByWechatWork.
  apply hoare_bind_inv; [apply hoare_modify; intros w Hw; now apply quiet_emit|intros _].
  destruct (_ || _); [now apply hoare_throw|].
  apply hoare_bind_inv; [apply fetch_quiet|intros b].
  destruct (errcode b) as [[| |]|]; try now apply hoare_throw.
  apply hoare_bind_inv; [apply fetch_quiet|intros b'].
  destruct (errcode b') as [[| |]|]; first [now apply hoare_ret|now apply hoare_throw].
Qed.

(** ** Counting the calls of the senders *)

Lemma sent_emit (k : nat) (w0 w : world) (e : event) :
  sender_call e = false -> sent k w0 w -> sent k w0 (emit e w).
Proof.
  intros He (evs & Ht & Hc). exists (evs ++ [e]). split.
  - simpl. now rewrite Ht, <- app_assoc.
  - unfold count_events in *. rewrite List.filter_app, length_app. simpl. rewrite He. simpl. lia.
Qed.

Lemma sent_first (w0 w : world) (e : event) :
  sent 0 w0 w -> sent 1 w0 (emit e w).
Proof.
  intros (evs & Ht & Hc). exists (evs ++ [e]). split.
  - simpl. now rewrite Ht, <- app_assoc.
  - unfold count_events in *. rewrite List.filter_app, length_app. simpl.
    destruct (sender_call e); simpl; lia.
Qed.

Lemma fetch_sent (k : nat) (w0 : world) (url : string) (body : payload) :
  hoare (sent k w0) (fetch url body) (fun _ => sent k w0) (fun _ => sent k w0).
Proof.
  intros w Hw. unfold fetch.
  destruct (net w) as [|[e|b] rest]; simpl; now apply sent_emit.
Qed.

Lemma sendByServerChan_sent (w0 : world) (content title : string) (cc : channelConfig) :
  hoare (sent 0 w0) (sendByServerChan content cc title) (fun _ => sent 1 w0) (fun _ => sent 1 w0).
Proof.
  unfold sendByServerChan.
  apply (hoare_bind _ _ _ (fun _ => sent 1 w0));
    [apply hoare_modify; intros w Hw; now apply sent_first|intros _].
  apply hoare_bind_inv.
  - unfold ServerChan_pushUrl.
    destruct (negb _); [now apply hoare_throw|].
    destruct (startsWith _ _); [|now apply hoare_ret].
    destruct (regex_sctp_exec _); [now apply hoare_ret|now apply hoare_throw].
  - intros url. apply hoare_bind_inv; [apply fetch_sent|intros b].
    destruct (code b) as [[| |]|]; first [now apply hoare_ret|now apply hoare_throw].
Qed.

Lemma sendByWechatWork_sent (w0 : world) (content : string) (cc : channelConfig)
    (overrides : js_column receiver) :
  hoare (sent 0 w0) (sendByWechatWork content cc overrides)
        (fun _ => sent 1 w0) (fun _ => sent 1 w0).
Proof.
  unfold sendByWechatWork.
  apply (hoare_bind _ _ _ (fun _ => sent 1 w0));
    [apply hoare_modify; intros w Hw; now apply sent_first|intros _].
  destruct (_ || _); [now apply hoare_throw|].
  apply hoare_bind_inv; [apply fetch_sent|intros b].
  destruct (errcode b) as [[| |]|]; try now apply hoare_throw.
  apply hoare_bind_inv; [apply fetch_sent|intros b'].
  destruct (errcode b') as [[| |]|]; first [now apply hoare_ret|now apply hoare_throw].
Qed.

(** ** The task repository *)

Lemma insert_by_execute_time_perm (r : Row.t) (l : list Row.t) :
  Permutation (insert_by_execute_time r l) (r :: l).
Proof.
  induction l as [|y l IH]; simpl; [reflexivity|].
  destruct (String.leb _ _); [reflexivity|].
  rewrite IH. apply perm_swap.
Qed.

Lemma order_by_execute_time_perm (l : list Row.t) :
  Permutation (order_by_execute_time l) l.
Proof.
  induction l as [|y l IH]; simpl; [reflexivity|].
  rewrite insert_by_execute_time_perm. now constructor.
Qed.

(** X1. [queryDueTasks] returns the rows that are due, each of them once:
    the rows behind the tasks it returns are a permutation of the rows of
    the table that are enabled and not after [now]. *)
Theorem queryDueTasks_returns_each_due_row_once (now : string) (w : world) :
  exists rows,
    queryDueTasks now w = (Normal (map task_of_row rows), w) /\
    Permutation rows (List.filter (is_due now) (db_task w)) /\
    forall r, In r (db_task w) -> Row.status r = true ->
              String.leb (Row.execute_time r) now = true -> In r rows.
Proof.
  exists (select_due (db_task w) now). split; [reflexivity|]. split.
  - apply order_by_execute_time_perm.
  - intros r Hin Hs Ht. apply select_due_In. split; [exact Hin|].
    unfold is_due. now rewrite Hs, Ht.
Qed.

Lemma find_none_iff (taskId : string) (rows : list Row.t) :
  List.find (fun r => String.eqb (Row.id r) taskId) rows = None <->
  forall r, In r rows -> Row.id r <> taskId.
Proof.
  split.
  - intros H r Hin Heq. apply (List.find_none _ _ H) in Hin.
    apply String.eqb_neq in Hin. contradiction.
  - intros H. induction rows as [|a rows IH]; simpl; [reflexivity|].
    destruct (String.eqb (Row.id a) taskId) eqn:E.
    + apply String.eqb_eq in E. elim (H a); simpl; auto.
    + apply IH. intros r Hr. apply H. simpl. auto.
Qed.

(** X2. [insertTask] stores nothing: its [bind] is handed one array, D1
    refuses it, the exception leaves [insertTask] and the table is as it
    was, so the id of the task is found, or not found, as before. *)
Theorem insertTask_is_rejected (t : Task.t) (w : world) :
  exists e,
    D1_type_error e /\ insertTask t w = (Throw e, w) /\
    getTaskById (Task.id t) (snd (insertTask t w)) = getTaskById (Task.id t) w.
Proof.
  exists (insert_error t). split; [eexists; reflexivity|]. split; reflexivity.
Qed.

Lemma find_filter_other (taskId other : string) (rows : list Row.t) :
  other <> taskId ->
  List.find (fun r => String.eqb (Row.id r) other)
            (List.filter (fun r => negb (String.eqb (Row.id r) taskId)) rows)
  = List.find (fun r => String.eqb (Row.id r) other) rows.
Proof.
  intros Hne. induction rows as [|a rows IH]; simpl; [reflexivity|].
  destruct (String.eqb (Row.id a) taskId) eqn:E; simpl.
  - apply String.eqb_eq in E. replace (String.eqb (Row.id a) other) with false; [exact IH|].
    symmetry. apply String.eqb_neq. congruence.
  - destruct (String.eqb (Row.id a) other); [reflexivity|exact IH].
Qed.

Lemma filter_all_kept {A : Type} (p : A -> bool) (l : list A) :
  (forall a, In a l -> p a = true) -> List.filter p l = l.
Proof.
  induction l as [|a l IH]; simpl; [reflexivity|]. intros H.
  rewrite (H a) by auto. f_equal. apply IH. intros b Hb. apply H. auto.
Qed.

(** X3. [handleDeleteTask] answers 200 whether or not the id exists.
    Afterwards no row has the id and [getTaskById] finds nothing for it;
    the rows of the other ids are kept, in their order, and are found as
    before; when the id did not exist the table is unchanged. *)
Theorem handleDeleteTask_removes_the_id (taskId : string) (w : world) :
  let w' := snd (handleDeleteTask taskId w) in
  fst (handleDeleteTask taskId w) = Normal (Response.mk 200 Body_success) /\
  (forall r, In r (db_task w') <-> In r (db_task w) /\ Row.id r <> taskId) /\
  fst (getTaskById taskId w') = Normal None /\
  (forall other, other <> taskId ->
     fst (getTaskById other w') = fst (getTaskById other w)) /\
  ((forall r, In r (db_task w) -> Row.id r <> taskId) -> w' = w) /\
  snd (handleDeleteTask taskId w') = w'.
Proof.
  cbn. split; [reflexivity|]. split; [|split; [|split; [|split]]].
  - intros r. rewrite filter_In, negb_true_iff, String.eqb_neq. tauto.
  - f_equal. replace (List.find _ _) with (@None Row.t); [reflexivity|].
    symmetry. apply find_none_iff. intros r Hr. apply filter_In in Hr. destruct Hr as [_ H'].
    now apply negb_true_iff, String.eqb_neq in H'.
  - intros other Hne. now rewrite find_filter_other.
  - intros H. destruct w as [dt dl gc nt ck uu tr]. unfold set_db_task. cbn in *. f_equal.
    apply filter_all_kept. intros r Hr. apply negb_true_iff, String.eqb_neq. now apply H.
  - unfold set_db_task. cbn. f_equal. apply filter_all_kept.
    intros r Hr. apply filter_In in Hr. tauto.
Qed.

(** X4. [updateTask] never adds or removes a row and never changes an id
    or a creation time; the rows of other ids are left as they are, and
    when no row has the id of the task the table is unchanged. *)
Theorem updateTask_keeps_the_rows (t : Task.t) (w : world) :
  let w' := snd (updateTask t w) in
  map Row.id (db_task w') = map Row.id (db_task w) /\
  map Row.create_time (db_task w') = map Row.create_time (db_task w) /\
  (forall n r, nth_error (db_task w) n = Some r -> Row.id r <> Task.id t ->
               nth_error (db_task w') n = Some r) /\
  ((forall r, In r (db_task w) -> Row.id r <> Task.id t) -> db_task w' = db_task w).
Proof.
  cbn. repeat split; auto.
Qed.

(** X5. [updateTask] and [insertTaskLog] write nothing: each hands one
    array to [bind], D1 refuses it before the statement is run, and the
    exception leaves the function; the tables are as they were. *)
Theorem updateTask_is_rejected (t : Task.t) (log : Log.t) (w : world) :
  (exists e, D1_type_error e /\ fst (updateTask t w) = Throw e) /\
  (exists e, D1_type_error e /\ fst (insertTaskLog log w) = Throw e) /\
  same_store w (snd (updateTask t w)) /\ same_store w (snd (insertTaskLog log w)) /\
  fst (getTaskById (Task.id t) (snd (updateTask t w))) = fst (getTaskById (Task.id t) w).
Proof.
  split; [exists (update_error t); split; [eexists|]; reflexivity|].
  split; [exists (log_error log); split; [eexists|]; reflexivity|].
  repeat split; reflexivity.
Qed.

(** ** The statements that write *)

(** [bind] is handed one value, an array that holds strings: D1 refuses
    it, and the statement is never run. *)
Lemma insertTask_throws (t : Task.t) (w : world) :
  insertTask t w = (Throw (insert_error t), w).
Proof. reflexivity. Qed.

Lemma updateTask_throws (t : Task.t) (w : world) :
  updateTask t w = (Throw (update_error t), emit (Ev_updateTask t) w).
Proof. reflexivity. Qed.

Lemma insertTaskLog_throws (log : Log.t) (w : world) :
  insertTaskLog log w = (Throw (log_error log), emit (Ev_insertTaskLog log) w).
Proof. reflexivity. Qed.

(** ** The loop body *)

Lemma skipn_app_exact {A : Type} (l l' : list A) : skipn (List.length l) (l ++ l') = l'.
Proof. induction l as [|a l IH]; simpl; auto. Qed.

Lemma quiet_no_update (evs : list event) :
  forallb quiet_event evs = true -> List.filter update_call evs = [].
Proof.
  induction evs as [|e evs IH]; simpl; [reflexivity|].
  intros H. apply andb_true_iff in H. destruct H as [He H].
  destruct e; simpl in *; try discriminate; auto.
Qed.

Lemma quiet_no_log (evs : list event) :
  forallb quiet_event evs = true -> List.filter log_call evs = [].
Proof.
  induction evs as [|e evs IH]; simpl; [reflexivity|].
  intros H. apply andb_true_iff in H. destruct H as [He H].
  destruct e; simpl in *; try discriminate; auto.
Qed.

Section Engine.

Variable Date_parse : string -> option Z.

(** [updateTaskAfterSuccess] changes the task object and throws: at
    [toISOString] when the next date is invalid, and otherwise in
    [updateTask]. *)
Lemma updateTaskAfterSuccess_advance (now : string) (f : frame) :
  updateTaskAfterSuccess Date_parse now f
  = match advance Date_parse now (task f) with
    | Normal (st, next) =>
        (Throw (update_error (advanced st next now (task f))),
         after_update (advanced st next now (task f)) f)
    | Throw e => (Throw e, f)
    end.
Proof.
  destruct f as [w t er]. destruct t as [i n c ch chc st ty et cc ct ut ec].
  unfold updateTaskAfterSuccess, advance, bind, gets, modify_task, modify, ret, in_world,
    toISOString, throw, new_Date, after_update, advanced; cbn.
  destruct (String.eqb ty "single"); [reflexivity|].
  destruct (String.eqb ty "cycle"); [|reflexivity].
  destruct (truthy (optional_chain end_time cc) && _); [reflexivity|].
  destruct (optional_chain period cc) as [p|]; [|reflexivity].
  destruct (String.eqb p "day").
  { destruct (setDate _ _); reflexivity. }
  destruct (String.eqb p "week").
  { destruct (setDate _ _); reflexivity. }
  destruct (String.eqb p "month").
  { destruct (setMonth _ _); reflexivity. }
  reflexivity.
Qed.

Section Pass.

Variables (w0 : world) (t0 : Task.t) (now : string).

Lemma in_pass_start :
  in_pass w0 t0 0 (mkFrame w0 t0 {| er_status := "fail"; er_message := "" |}).
Proof.
  split; [now repeat split|]. do 3 (split; [reflexivity|]).
  exists []. simpl. rewrite app_nil_r. repeat split; auto.
Qed.

Lemma in_pass_more (k k' : nat) (f : frame) :
  (k <= k')%nat -> in_pass w0 t0 k f -> in_pass w0 t0 k' f.
Proof.
  intros Hk (H1 & H2 & H3 & H4 & evs & H5 & H6 & H7 & H8).
  do 4 (split; [assumption|]). exists evs. repeat split; auto. lia.
Qed.

(** Sender calls, requests and sleeps keep the pass; they count. *)
Lemma in_pass_quiet (k k1 : nat) (f : frame) (w1 : world) :
  in_pass w0 t0 k f -> quiet (the_world f) w1 -> sent k1 (the_world f) w1 ->
  in_pass w0 t0 (k + k1) (mkFrame w1 (task f) (executeResult f)).
Proof.
  intros ((S1 & S2 & S3) & H2 & H3 & H4 & evs & H5 & H6 & H7 & H8)
         (Q1 & Q2 & Q3 & Q4 & evs1 & Q5 & Q6) (evs2 & T1 & T2).
  rewrite Q5 in T1. apply app_inv_head in T1. subst evs2.
  split; [|split; [|split; [|split]]]; cbn [the_world task executeResult].
  - repeat split; congruence.
  - congruence.
  - exact H3.
  - exact H4.
  - exists (evs ++ evs1). rewrite Q5, H5, <- app_assoc. split; [reflexivity|].
    rewrite !List.filter_app, H6, (quiet_no_log evs1 Q6). split; [reflexivity|].
    split.
    + unfold count_events in *. rewrite List.filter_app, length_app. lia.
    + intros Hf. rewrite (H8 Hf), (quiet_no_update evs1 Q6). reflexivity.
Qed.

Lemma in_pass_send {A : Type} (m : M world A) :
  (forall w, hoare (quiet w) m (fun _ => quiet w) (fun _ => quiet w)) ->
  (forall w, hoare (sent 0 w) m (fun _ => sent 1 w) (fun _ => sent 1 w)) ->
  hoare (in_pass w0 t0 0) (in_world m) (fun _ => in_pass w0 t0 1) (fun _ => in_pass w0 t0 1).
Proof.
  intros Hq Hs f Hf. unfold in_world.
  specialize (Hq (the_world f) (the_world f) (quiet_refl _)).
  specialize (Hs (the_world f) (the_world f)).
  assert (sent 0 (the_world f) (the_world f)) as H0
      by (exists []; rewrite app_nil_r; split; [reflexivity|apply Nat.le_refl]).
  specialize (Hs H0).
  destruct (m (the_world f)) as [[a|e] w1]; apply (in_pass_quiet 0 1 f w1 Hf Hq Hs).
Qed.

Lemma in_pass_sleep (k : nat) (ms : Z) (Qt : exn -> frame -> Prop) :
  hoare (in_pass w0 t0 k) (in_world (setTimeout ms)) (fun _ => in_pass w0 t0 k) Qt.
Proof.
  intros f Hf. unfold in_world, setTimeout, modify. cbn.
  replace k with (k + 0)%nat by lia. apply (in_pass_quiet k 0 f); [exact Hf| |].
  - apply quiet_emit; [reflexivity|]. apply quiet_set_clock, quiet_refl.
  - exists [Ev_setTimeout ms]. split; [reflexivity|apply Nat.le_refl].
Qed.

(** Recording the success and advancing the task: the task object is
    changed, and the call throws. *)
Lemma record_and_update (k : nat) (msg : string) :
  hoare (in_pass w0 t0 k)
        (bind (modify (set_executeResult {| er_status := "success"; er_message := msg |}))
              (fun _ => updateTaskAfterSuccess Date_parse now))
        (fun _ _ => False) (fun _ f => in_pass w0 t0 k f /\ says_success f).
Proof.
  intros f (H1 & H2 & H3 & H4 & evs & H5 & H6 & H7 & H8). unfold bind, modify.
  rewrite updateTaskAfterSuccess_advance. cbn [task set_executeResult].
  destruct (advance Date_parse now (task f)) as [[st next]|e] eqn:E.
  - split; [|reflexivity]. split; [exact H1|]. do 3 (split; [assumption|]).
    exists (evs ++ [Ev_updateTask (advanced st next now (task f))]).
    cbn. rewrite H5, <- app_assoc. split; [reflexivity|].
    unfold count_events in *. rewrite !List.filter_app, H6, length_app. cbn.
    repeat split; [lia|discriminate].
  - split; [|reflexivity]. split; [exact H1|]. do 3 (split; [assumption|]).
    exists evs. repeat split; auto. discriminate.
Qed.

Lemma first_attempt_spec (channels : gmap string channel_entry) :
  hoare (in_pass w0 t0 0) (first_attempt Date_parse channels now)
        (fun _ _ => False) (fun _ => in_pass w0 t0 1).
Proof.
  unfold first_attempt.
  apply hoare_bind_inv;
    [apply hoare_gets; intros f Hf; exact Hf|intros t].
  apply hoare_bind_inv.
  - destruct (channel_property channels (Task.channel t)); [now apply hoare_ret|].
    apply hoare_throw. intros f Hf. apply (in_pass_more 0 1); [lia|exact Hf].
  - intros cc.
    apply (hoare_bind _ _ _ (fun _ => in_pass w0 t0 1)).
    + destruct (String.eqb _ _).
      { apply (hoare_bind _ _ _ (fun _ => in_pass w0 t0 1)).
        - apply in_pass_send; intros w;
            [apply sendByServerChan_quiet|apply sendByServerChan_sent].
        - intros b. now apply hoare_ret. }
      destruct (String.eqb _ _).
      { apply (hoare_bind _ _ _ (fun _ => in_pass w0 t0 1)).
        - apply in_pass_send; intros w;
            [apply sendByWechatWork_quiet|apply sendByWechatWork_sent].
        - intros b. now apply hoare_ret. }
      apply hoare_ret. intros f Hf. apply (in_pass_more 0 1); [lia|exact Hf].
    + intros r. eapply hoare_weaken; [apply (record_and_update 1)|auto..].
      intros e f Hf. apply Hf.
Qed.

(** A retry never reaches a sender: on the two channels that have one the
    read of [channelConfig] throws first. *)
Lemma retry_attempt_spec (k : nat) (retryCount : nat) :
  hoare (in_pass w0 t0 k) (retry_attempt Date_parse now retryCount)
        (fun _ _ => False) (fun _ => in_pass w0 t0 k).
Proof.
  unfold retry_attempt.
  apply hoare_bind_inv; [apply hoare_gets; intros f Hf; exact Hf|intros t].
  apply hoare_bind_inv.
  - destruct (String.eqb _ _).
    { apply (hoare_bind _ _ _ (fun _ _ => False)); [now apply hoare_throw|].
      intros cc f []. }
    destruct (String.eqb _ _).
    { apply (hoare_bind _ _ _ (fun _ _ => False)); [now apply hoare_throw|].
      intros cc f []. }
    now apply hoare_ret.
  - intros r. eapply hoare_weaken; [apply (record_and_update k)|auto..].
    intros e f Hf. apply Hf.
Qed.

Lemma set_message_in_pass (k : nat) (m : string) (f : frame) :
  in_pass w0 t0 k f -> in_pass w0 t0 k (set_message m f).
Proof. intros H. exact H. Qed.

(** The loop of the retries returns: an exception of a retry is caught
    in the loop. *)
Lemma retry_loop_spec (k : nat) (rc : retry_config_t) (remaining retryCount : nat) :
  hoare (in_pass w0 t0 k) (retry_loop Date_parse rc now remaining retryCount)
        (fun _ => in_pass w0 t0 k) (fun _ _ => False).
Proof.
  revert retryCount. induction remaining as [|remaining IH]; intros retryCount; simpl.
  - now apply hoare_ret.
  - apply hoare_bind_inv; [apply in_pass_sleep|intros _].
    apply hoare_bind_inv; [|intros [|]; [now apply hoare_ret|apply IH]].
    eapply hoare_try_catch.
    + apply (hoare_bind _ _ _ (fun _ _ => False)); [apply retry_attempt_spec|].
      intros _ f [].
    + intros e. cbv beta. apply hoare_bind_inv.
      { destruct (_ <=? _)%nat; [|now apply hoare_ret].
        apply hoare_modify. intros f Hf. now apply set_message_in_pass. }
      intros _. now apply hoare_ret.
Qed.

(** The [catch] block throws only when [retry_config] is missing. *)
Lemma catch_block_spec (k : nat) (config : config_t) :
  hoare (in_pass w0 t0 k) (catch_block Date_parse config now)
        (fun _ => in_pass w0 t0 k)
        (fun _ f => in_pass w0 t0 k f /\ retry_config config = None).
Proof.
  unfold catch_block. destruct (retry_config config) as [rc|].
  - eapply hoare_weaken; [apply (retry_loop_spec k)|auto|auto|]. intros e f [].
  - now apply hoare_throw.
Qed.

Lemma attempts_spec (config : config_t) (channels : gmap string channel_entry) :
  hoare (in_pass w0 t0 0)
        (try_catch (first_attempt Date_parse channels now)
                   (fun _ => catch_block Date_parse config now))
        (fun _ => in_pass w0 t0 1)
        (fun _ f => in_pass w0 t0 1 f /\ retry_config config = None).
Proof.
  eapply hoare_try_catch.
  - eapply hoare_weaken; [apply first_attempt_spec|auto| |].
    + intros a f [].
    + intros e f Hf. exact Hf.
  - intros e. apply catch_block_spec.
Qed.

End Pass.

(** The [finally] block: the record is built and handed to
    [insertTaskLog], which throws. *)
Lemma finally_log_eq (now : string) (startTime : Z) (f : frame) :
  finally_log now startTime f
  = (Throw (log_error (log_record now startTime f)),
     mkFrame (logged now startTime f) (task f) (executeResult f)).
Proof. destruct f as [w t er]. reflexivity. Qed.

(** The loop body throws, whatever the task, the configuration and the
    senders do: what leaves it is the error of [insertTaskLog]. *)
Lemma dispatch_task_throws (config : config_t) (channels : gmap string channel_entry)
    (now : string) (t : Task.t) (w : world) :
  exists f,
    in_pass w t 1 f /\
    dispatch_task Date_parse config channels now t w
    = (Throw (log_error (log_record now (clock w) f)), logged now (clock w) f).
Proof.
  unfold dispatch_task, try_catch_finally.
  pose proof (attempts_spec w t now config channels
                (mkFrame w t {| er_status := "fail"; er_message := "" |})
                (in_pass_start w t)) as H.
  destruct (try_catch _ _ _) as [[[]|e] f]; rewrite finally_log_eq; exists f.
  - split; [exact H|reflexivity].
  - split; [apply H|reflexivity].
Qed.

End Engine.

(** ** One pass of the loop *)

Section Passes.

Variable Date_parse : string -> option Z.

(** What a pass leaves: the tables and the configuration as they were,
    and a trace that ends with the record handed to [insertTaskLog]. *)
Lemma dispatch_task_trace (config : config_t) (channels : gmap string channel_entry)
    (now : string) (t : Task.t) (w : world) :
  exists evs lg w',
    dispatch_task Date_parse config channels now t w = (Throw (log_error lg), w') /\
    same_store w w' /\
    new_events w w' = evs ++ [Ev_insertTaskLog lg] /\
    List.filter log_call evs = [] /\
    (count_events sender_call evs <= 1)%nat /\
    Log.task_id lg = Task.id t /\ Log.channel lg = Task.channel t /\
    Log.execute_time lg = now /\
    Log.id lg = "uuid-" +:+ string_of_nat (uuid w) /\
    (Log.status lg = "fail" -> List.filter update_call evs = []).
Proof.
  destruct (dispatch_task_throws Date_parse config channels now t w)
    as (f & (S1 & H2 & H3 & H4 & evs & H5 & H6 & H7 & H8) & ->).
  exists evs, (log_record now (clock w) f), (logged now (clock w) f).
  split; [reflexivity|]. split; [exact S1|]. split.
  - unfold new_events, logged. cbn. rewrite H5, <- app_assoc. apply skipn_app_exact.
  - cbn. rewrite H2. repeat split; auto.
Qed.

Lemma is_due_later (now now' : string) (r : Row.t) :
  String.leb now now' = true -> is_due now r = true -> is_due now' r = true.
Proof.
  unfold is_due. intros Hn H. apply andb_true_iff in H. destruct H as [-> H]. simpl.
  eapply string_leb_trans; eassumption.
Qed.

Lemma filter_app_last {A : Type} (p : A -> bool) (l : list A) (a : A) :
  List.filter p l = [] -> p a = false -> List.filter p (l ++ [a]) = [].
Proof. intros H Ha. rewrite List.filter_app, H. cbn. now rewrite Ha. Qed.

Lemma filter_nil_not_In {A : Type} (p : A -> bool) (l : list A) (a : A) :
  List.filter p l = [] -> p a = true -> ~ In a l.
Proof.
  intros H Ha Hin. assert (In a (List.filter p l)) as Hf by (apply filter_In; auto).
  rewrite H in Hf. exact Hf.
Qed.

(** The record of a pass is the last event of the pass and the only record. *)
Lemma record_of_pass (evs : list event) (lg lg' : Log.t) :
  List.filter log_call evs = [] -> In (Ev_insertTaskLog lg') (evs ++ [Ev_insertTaskLog lg]) ->
  lg' = lg.
Proof.
  intros H Hin. apply in_app_iff in Hin. destruct Hin as [Hin|[Hin|[]]].
  - exfalso. revert Hin. now apply (filter_nil_not_In log_call).
  - congruence.
Qed.

(** A pass whose record says [fail] has handed nothing to [updateTask]. *)
Lemma failed_pass_updates_nothing (config : config_t)
    (channels : gmap string channel_entry) (now : string) (t : Task.t) (w : world) (lg : Log.t) :
  let w' := snd (dispatch_task Date_parse config channels now t w) in
  In (Ev_insertTaskLog lg) (new_events w w') ->
  Log.status lg = "fail" ->
  db_task w' = db_task w /\ count_events update_call (new_events w w') = 0%nat.
Proof.
  destruct (dispatch_task_trace config channels now t w)
    as (evs & lg0 & w' & -> & (Hdb & _) & Hev & Hlog & _ & _ & _ & _ & _ & Hfail).
  cbn zeta. cbn [snd]. rewrite Hev. intros Hin Hst.
  apply (record_of_pass evs lg0 lg Hlog) in Hin. subst lg0.
  split; [exact Hdb|].
  unfold count_events. rewrite (filter_app_last update_call evs); auto.
Qed.

(** C3. When the record of a pass says [fail] (no attempt got past its
    send), the pass has left the table of tasks as it was and has handed
    nothing to [updateTask]; a row that was due stays due at any later
    time, so the next tick returns it again. *)
Theorem failed_dispatch_leaves_task_due (config : config_t)
    (channels : gmap string channel_entry) (now : string) (t : Task.t) (w : world) (lg : Log.t) :
  let w' := snd (dispatch_task Date_parse config channels now t w) in
  In (Ev_insertTaskLog lg) (new_events w w') ->
  Log.status lg = "fail" ->
  db_task w' = db_task w /\
  count_events update_call (new_events w w') = 0%nat /\
  forall r now', In r (select_due (db_task w) now) -> String.leb now now' = true ->
                 In r (select_due (db_task w') now').
Proof.
  cbv zeta. intros Hin Hst.
  destruct (failed_pass_updates_nothing config channels now t w lg Hin Hst) as (Hdb & Hup).
  split; [exact Hdb|]. split; [exact Hup|].
  intros r now' Hr Hn. rewrite Hdb. apply select_due_In in Hr. apply select_due_In.
  destruct Hr as [Hr Hd]. split; [exact Hr|]. eapply is_due_later; eassumption.
Qed.

(** X26. A task read from the table keeps its [execute_time] through
    any dispatch, whatever its type and period: a row with its id is
    either left as it was or rewritten with the [execute_time] the row
    had. *)
Lemma stored_task_keeps_execute_time (config : config_t) (channels : gmap string channel_entry)
    (now : string) (r : Row.t) (w : world) (r' : Row.t) :
  In r' (db_task (snd (dispatch_task Date_parse config channels now (task_of_row r) w))) ->
  Row.id r' = Row.id r ->
  In r' (db_task w) \/ Row.execute_time r' = Row.execute_time r.
Proof.
  destruct (dispatch_task_trace config channels now (task_of_row r) w)
    as (evs & lg0 & w' & -> & (Hdb & _) & _).
  cbn [snd]. rewrite Hdb. auto.
Qed.

(** ** The tick *)

Lemma filter_none {A : Type} (p : A -> bool) (l : list A) :
  (forall a, In a l -> p a = false) -> List.filter p l = [].
Proof.
  induction l as [|a l IH]; cbn; [reflexivity|]. intros H.
  rewrite (H a) by auto. apply IH. intros b Hb. apply H. auto.
Qed.

(** The ticks that get as far as the loop. *)
Lemma handleScheduledTasks_loop (w : world) (config : config_t)
    (channels : gmap string channel_entry) :
  GLOBAL_CONFIG w = Kv_config config ->
  notification_channels config = Some channels ->
  valid_clock w ->
  handleScheduledTasks Date_parse w
  = try_catch (for_of (map task_of_row (select_due (db_task w) (ISO_string (clock w))))
                      (dispatch_task Date_parse config channels (ISO_string (clock w))))
              (fun _ => ret tt) w.
Proof.
  intros Hc Hn Hclock. apply Z.leb_le in Hclock.
  cbv [handleScheduledTasks try_catch loadAppConfig bind gets Date_now queryDueTasks].
  rewrite Hc. cbv [ret]. rewrite Hn. cbv [bind gets TimeClip]. rewrite Hclock.
  cbv [toISOString ret]. reflexivity.
Qed.

Lemma handleScheduledTasks_stops (w : world) :
  (forall config channels,
     GLOBAL_CONFIG w = Kv_config config -> notification_channels config = Some channels ->
     valid_clock w -> False) ->
  handleScheduledTasks Date_parse w = (Normal tt, w).
Proof.
  intros H.
  cbv [handleScheduledTasks try_catch loadAppConfig bind gets Date_now queryDueTasks].
  destruct (GLOBAL_CONFIG w) as [| |config] eqn:Hc; try reflexivity.
  cbv [ret]. destruct (notification_channels config) as [channels|] eqn:Hn; [|reflexivity].
  cbv [bind gets TimeClip].
  destruct (Z.abs (clock w) <=? 8640000000000000)%Z eqn:Hclock; [|reflexivity].
  exfalso. apply (H config channels); [reflexivity|exact Hn|]. now apply Z.leb_le.
Qed.

(** The loop ends in its first pass: the exception that leaves the pass
    leaves the loop, and the [catch] of [handleScheduledTasks] swallows
    it.  The rows that are due after the first are not looked at. *)
Lemma tick_makes_one_pass (w : world) (config : config_t)
    (channels : gmap string channel_entry) :
  GLOBAL_CONFIG w = Kv_config config ->
  notification_channels config = Some channels ->
  valid_clock w ->
  handleScheduledTasks Date_parse w
  = match select_due (db_task w) (ISO_string (clock w)) with
    | [] => (Normal tt, w)
    | r :: _ =>
        (Normal tt,
         snd (dispatch_task Date_parse config channels (ISO_string (clock w)) (task_of_row r) w))
    end.
Proof.
  intros Hc Hn Hclock. rewrite (handleScheduledTasks_loop w config channels Hc Hn Hclock).
  destruct (select_due _ _) as [|r rest]; [reflexivity|].
  cbn [map for_of]. unfold try_catch, bind.
  destruct (dispatch_task_trace config channels (ISO_string (clock w)) (task_of_row r) w)
    as (evs & lg & w' & -> & _).
  reflexivity.
Qed.

(** The three ways a tick can go. *)
Lemma tick_cases (w : world) :
  handleScheduledTasks Date_parse w = (Normal tt, w) \/
  exists config channels r rest,
    GLOBAL_CONFIG w = Kv_config config /\
    select_due (db_task w) (ISO_string (clock w)) = r :: rest /\
    handleScheduledTasks Date_parse w
    = (Normal tt,
       snd (dispatch_task Date_parse config channels (ISO_string (clock w)) (task_of_row r) w)).
Proof.
  destruct (GLOBAL_CONFIG w) as [| |config] eqn:Hc;
    try (left; apply handleScheduledTasks_stops; intros c ch Hc'; congruence).
  destruct (notification_channels config) as [channels|] eqn:Hn;
    [|left; apply handleScheduledTasks_stops; intros c ch Hc' Hn'; congruence].
  destruct (Z.abs (clock w) <=? 8640000000000000)%Z eqn:Hclock.
  - apply Z.leb_le in Hclock.
    rewrite (tick_makes_one_pass w config channels Hc Hn Hclock).
    destruct (select_due _ _) as [|r rest] eqn:E; [now left|].
    right. exists config, channels, r, rest. auto.
  - left. apply handleScheduledTasks_stops. intros c ch _ _ Hv. apply Z.leb_le in Hv.
    congruence.
Qed.

(** X20. A tick changes nothing at all when the configuration key is
    missing, when its text is not JSON, when the configuration has no
    [notification_channels] object, or when no row is due: the error, if
    any, is swallowed and no record is written. *)
Theorem tick_without_work (w : world) :
  GLOBAL_CONFIG w = Kv_missing \/ GLOBAL_CONFIG w = Kv_not_json \/
  (exists config, GLOBAL_CONFIG w = Kv_config config /\ notification_channels config = None) \/
  (forall r, In r (db_task w) -> is_due (ISO_string (clock w)) r = false) ->
  handleScheduledTasks Date_parse w = (Normal tt, w).
Proof.
  intros H.
  destruct (GLOBAL_CONFIG w) as [| |config] eqn:Hc;
    try (apply handleScheduledTasks_stops; intros c ch Hc'; congruence).
  destruct (notification_channels config) as [channels|] eqn:Hn;
    [|apply handleScheduledTasks_stops; intros c ch Hc' Hn'; congruence].
  destruct (Z.abs (clock w) <=? 8640000000000000)%Z eqn:Hclock.
  - apply Z.leb_le in Hclock.
    rewrite (handleScheduledTasks_loop w config channels Hc Hn Hclock).
    destruct H as [H|[H|[(c & H & Hn')|H]]]; try congruence.
    unfold select_due. rewrite (filter_none _ _ H). reflexivity.
  - apply handleScheduledTasks_stops. intros c ch _ _ Hv. apply Z.leb_le in Hv. congruence.
Qed.

(** A tick leaves the tables and the configuration as they were. *)
Lemma tick_same_store (w : world) : same_store w (snd (handleScheduledTasks Date_parse w)).
Proof.
  destruct (tick_cases w) as [->|(config & channels & r & rest & _ & _ & ->)].
  - now repeat split.
  - cbn [snd].
    destruct (dispatch_task_trace config channels (ISO_string (clock w)) (task_of_row r) w)
      as (evs & lg & w' & -> & Hs & _).
    exact Hs.
Qed.

(** X21. A tick never adds or removes a task and never changes an id or
    a creation time; a row whose id is not the id of a due row is left
    exactly as it was; the configuration entry is not written. *)
Theorem tick_keeps_the_other_rows (w : world) :
  let w' := snd (handleScheduledTasks Date_parse w) in
  map Row.id (db_task w') = map Row.id (db_task w) /\
  map Row.create_time (db_task w') = map Row.create_time (db_task w) /\
  GLOBAL_CONFIG w' = GLOBAL_CONFIG w /\
  forall n r, nth_error (db_task w) n = Some r ->
    (forall d, In d (db_task w) -> is_due (ISO_string (clock w)) d = true ->
               Row.id d <> Row.id r) ->
    nth_error (db_task w') n = Some r.
Proof.
  cbv zeta. destruct (tick_same_store w) as (-> & _ & ->). auto.
Qed.

(** X22. A tick calls a sender at most once for each due row, whatever
    [max_retry] is and whatever the senders answer. *)
Theorem tick_sender_calls_bounded (w : world) :
  (count_events sender_call (new_events w (snd (handleScheduledTasks Date_parse w)))
   <= List.length (List.filter (is_due (ISO_string (clock w))) (db_task w)))%nat.
Proof.
  destruct (tick_cases w) as [->|(config & channels & r & rest & _ & Hdue & ->)]; cbn [snd].
  - unfold new_events. rewrite <- (app_nil_r (trace w)) at 2. rewrite skipn_app_exact.
    cbn. lia.
  - destruct (dispatch_task_trace config channels (ISO_string (clock w)) (task_of_row r) w)
      as (evs & lg & w' & E & _ & Hev & _ & Hs & _).
    rewrite E. cbn [snd]. rewrite Hev. unfold count_events in *. rewrite List.filter_app, length_app. cbn.
    unfold select_due in Hdue.
    rewrite <- (Permutation_length (order_by_execute_time_perm _)), Hdue. cbn. lia.
Qed.

Lemma records_handed_last (evs : list event) (lg : Log.t) :
  List.filter log_call evs = [] -> records_handed (evs ++ [Ev_insertTaskLog lg]) = [lg].
Proof.
  intros H. unfold records_handed. rewrite flat_map_app. cbn.
  replace (flat_map _ evs) with (@nil Log.t); [reflexivity|].
  symmetry. induction evs as [|e evs IH]; [reflexivity|].
  cbn in H. destruct e; cbn in *; try discriminate; auto.
Qed.

(** X31. A tick makes one pass at most.  When a row is due, the pass over
    the first row the query returns ends with the exception that D1
    throws in [insertTaskLog]; the exception leaves the loop and is
    swallowed by the [catch] of [handleScheduledTasks], which returns.
    One record, for that row, was handed to [insertTaskLog]; the rows that
    are due after the first are not looked at, and the tables are as they
    were. *)
Theorem tick_stops_after_the_first_pass (w : world) (config : config_t)
    (channels : gmap string channel_entry) (r : Row.t) (rest : list Row.t) :
  GLOBAL_CONFIG w = Kv_config config ->
  notification_channels config = Some channels ->
  valid_clock w ->
  select_due (db_task w) (ISO_string (clock w)) = r :: rest ->
  let pass :=
    dispatch_task Date_parse config channels (ISO_string (clock w)) (task_of_row r) w in
  (exists e, fst pass = Throw e /\ D1_type_error e) /\
  handleScheduledTasks Date_parse w = (Normal tt, snd pass) /\
  (exists lg, records_handed (new_events w (snd pass)) = [lg] /\ Log.task_id lg = Row.id r) /\
  same_store w (snd pass).
Proof.
  intros Hc Hn Hclock Hdue. cbv zeta.
  rewrite (tick_makes_one_pass w config channels Hc Hn Hclock), Hdue.
  destruct (dispatch_task_trace config channels (ISO_string (clock w)) (task_of_row r) w)
    as (evs & lg & w' & -> & Hs & Hev & Hlog & _ & Hid & _).
  cbn [fst snd]. split; [eexists; split; [reflexivity|eexists; reflexivity]|].
  split; [reflexivity|]. split; [|exact Hs].
  exists lg. rewrite Hev. split; [now apply records_handed_last|exact Hid].
Qed.

End Passes.

(** ** The outcomes of a pass *)

Section Outcomes.

Variable Date_parse : string -> option Z.

(** The recurrence on a task object whose [cycle_config] is no object:
    no period and no end are seen. *)
Lemma advance_undecoded (now : string) (t : Task.t) :
  undecoded t ->
  advance Date_parse now t
  = Normal (if String.eqb (Task.type t) "single" then false else Task.status t,
            Task.execute_time t).
Proof.
  unfold undecoded, advance. intros H.
  destruct (String.eqb (Task.type t) "single"); [reflexivity|].
  destruct (String.eqb (Task.type t) "cycle"); [|reflexivity].
  destruct (Task.cycle_config t); try contradiction; reflexivity.
Qed.

Lemma advanced_times_facts (n : nat) (now : string) (r : Row.t) :
  let t := advanced_times n now r in
  undecoded t /\ Task.type t = Row.type r /\ Task.id t = Row.id r /\
  Task.channel t = Row.channel r /\ Task.execute_time t = Row.execute_time r /\
  Task.execute_count t = (Row.execute_count r + Z.of_nat n)%Z.
Proof.
  induction n as [|n IH].
  - cbn. unfold undecoded. cbn. destruct (Row.cycle_config r); repeat split; auto; lia.
  - cbn zeta in *. destruct IH as (H1 & H2 & H3 & H4 & H5 & H6).
    cbn [advanced_times]. unfold advanced, undecoded in *. cbn.
    repeat split; auto. rewrite H6. lia.
Qed.

Lemma advance_row (now : string) (r : Row.t) :
  advance Date_parse now (task_of_row r)
  = Normal (if String.eqb (Row.type r) "single" then false else Row.status r,
            Row.execute_time r).
Proof. apply (advance_undecoded now), (advanced_times_facts 0 now r). Qed.

(** [updateTaskAfterSuccess] on a task read from the table that was
    advanced [n] times: it is advanced once more and handed to
    [updateTask], which throws. *)
Lemma updateTaskAfterSuccess_stored (now : string) (r : Row.t) (n : nat) (f : frame) :
  task f = advanced_times n now r ->
  updateTaskAfterSuccess Date_parse now f
  = (Throw (update_error (advanced_times (S n) now r)),
     after_update (advanced_times (S n) now r) f).
Proof.
  intros Ht. rewrite updateTaskAfterSuccess_advance, Ht.
  destruct (advanced_times_facts n now r) as (H1 & H2 & _).
  rewrite (advance_undecoded now _ H1), H2. reflexivity.
Qed.

(** In the [catch] block a task on [server_chan] or [wechat_work] never
    reaches its sender: the retry throws at the read of [channelConfig] and
    changes nothing. *)
Lemma retry_attempt_known_channel (now : string) (retryCount : nat) (f : frame) :
  Task.channel (task f) = "server_chan" \/ Task.channel (task f) = "wechat_work" ->
  retry_attempt Date_parse now retryCount f
  = (Throw (ReferenceError "channelConfig is not defined"), f).
Proof.
  intros H. cbv [retry_attempt bind gets channelConfig_in_catch throw].
  destruct H as [-> | ->]; reflexivity.
Qed.

(** For such a task the retry loop only sleeps, [remaining] times; the
    last retry leaves its message. *)
Lemma retry_loop_only_sleeps (rc : retry_config_t) (now : string)
    (remaining retryCount : nat) (f : frame) :
  Task.channel (task f) = "server_chan" \/ Task.channel (task f) = "wechat_work" ->
  (remaining + retryCount = max_retry rc)%nat ->
  exists f',
    retry_loop Date_parse rc now remaining retryCount f = (Normal tt, f') /\
    task f' = task f /\ er_status (executeResult f') = er_status (executeResult f) /\
    er_message (executeResult f')
    = match remaining with
      | O => er_message (executeResult f)
      | S _ => message_after_retries (max_retry rc)
      end /\
    db_task (the_world f') = db_task (the_world f) /\
    db_log (the_world f') = db_log (the_world f) /\
    uuid (the_world f') = uuid (the_world f) /\
    net (the_world f') = net (the_world f) /\
    trace (the_world f')
    = trace (the_world f) ++ repeat (Ev_setTimeout (retry_interval rc)) remaining.
Proof.
  revert retryCount f. induction remaining as [|remaining IH]; intros retryCount f Hch Hsum.
  - exists f. cbn. rewrite app_nil_r. repeat split; reflexivity.
  - cbn [retry_loop]. cbv [bind try_catch in_world setTimeout modify].
    cbn [the_world task executeResult].
    rewrite retry_attempt_known_channel by exact Hch.
    cbv [ret].
    destruct remaining as [|remaining].
    + assert (Hmax : max_retry rc = S retryCount) by lia.
      rewrite Hmax, Nat.leb_refl. cbn [retry_loop]. cbv [ret].
      eexists. split; [reflexivity|]. cbn. rewrite <- ?app_assoc. repeat split; reflexivity.
    + assert (Hlt : (max_retry rc <=? S retryCount)%nat = false)
        by (apply Nat.leb_gt; lia).
      rewrite Hlt.
      edestruct (IH (S retryCount)) as (f' & E & H1 & H2 & H3 & H4 & H5 & H6 & H7 & H8);
        [| |rewrite E; exists f'; split; [reflexivity|]].
      * exact Hch.
      * lia.
      * rewrite H1, H2, H3, H4, H5, H6, H7, H8. cbn. rewrite <- app_assoc.
        repeat split; reflexivity.
Qed.

(** The [catch] block for such a task. *)
Lemma catch_block_only_sleeps (config : config_t) (now : string) (f : frame) :
  Task.channel (task f) = "server_chan" \/ Task.channel (task f) = "wechat_work" ->
  exists c f',
    catch_block Date_parse config now f = (c, f') /\
    task f' = task f /\ er_status (executeResult f') = er_status (executeResult f) /\
    er_message (executeResult f')
    = match retries config with
      | O => er_message (executeResult f)
      | S _ => message_after_retries (retries config)
      end /\
    db_task (the_world f') = db_task (the_world f) /\
    db_log (the_world f') = db_log (the_world f) /\
    uuid (the_world f') = uuid (the_world f) /\
    net (the_world f') = net (the_world f) /\
    trace (the_world f')
    = trace (the_world f) ++ repeat (Ev_setTimeout (interval config)) (retries config).
Proof.
  intros Hch. unfold catch_block, retries, interval.
  destruct (retry_config config) as [rc|].
  - destruct (retry_loop_only_sleeps rc now (max_retry rc) 0 f Hch) as (f' & E & H);
      [lia|].
    exists (Normal tt), f'. split; [exact E|exact H].
  - eexists _, f. split; [reflexivity|]. cbn. rewrite app_nil_r. repeat split; reflexivity.
Qed.

Lemma first_attempt_known_channel (channels : gmap string channel_entry) (now : string)
    (r : Row.t) (cc : channelConfig) (w w1 : world) (c : completion json_body)
    (er : executeResult_t) :
  channel_property channels (Row.channel r) = Some cc ->
  first_send_ends r cc w c w1 ->
  first_attempt Date_parse channels now (mkFrame w (task_of_row r) er)
  = match c with
    | Normal b =>
        (Throw (update_error (advanced_row now r)),
         after_update (advanced_row now r)
           (mkFrame w1 (task_of_row r)
                    {| er_status := "success";
                       er_message := "推送成功，渠道响应: " +:+ json_text b |}))
    | Throw e => (Throw e, mkFrame w1 (task_of_row r) er)
    end.
Proof.
  intros Hcc Hsend. unfold first_attempt. cbv [bind gets]. cbn [task].
  replace (Task.channel (task_of_row r)) with (Row.channel r) by reflexivity.
  rewrite Hcc. cbv [ret].
  destruct Hsend as [[Hch Hs]|[Hch Hs]]; rewrite Hch;
    cbn [String.eqb Ascii.eqb Bool.eqb]; unfold in_world; cbn [the_world task executeResult];
    [replace (Task.content (task_of_row r)) with (Row.content r) by reflexivity;
     replace (Task.name (task_of_row r)) with (Row.name r) by reflexivity
    |replace (Task.content (task_of_row r)) with (Row.content r) by reflexivity;
     replace (Task.channel_config (task_of_row r))
       with (@column_value receiver (Row.channel_config r)) by reflexivity];
    rewrite Hs; destruct c as [b|e]; try reflexivity;
    cbv [modify]; rewrite updateTaskAfterSuccess_advance;
    cbn [task set_executeResult the_world executeResult]; rewrite advance_row; reflexivity.
Qed.

(** X23. When the sender called for a stored row on [server_chan] or
    [wechat_work] returns, the task object is advanced and handed to
    [updateTask] once, and the exception of that call is taken for a
    failed send: the [catch] block sleeps [max_retry] times, without a
    further request, and with [max_retry] above 0 the message of the
    provider's reply is replaced by the one of the last retry.  The record
    handed to [insertTaskLog] says [success]; nothing is stored, and the
    pass throws. *)
Theorem accepted_send_is_not_stored (config : config_t) (channels : gmap string channel_entry)
    (now : string) (r : Row.t) (cc : channelConfig) (w w1 : world) (b : json_body) :
  channel_property channels (Row.channel r) = Some cc ->
  first_send_ends r cc w (Normal b) w1 ->
  exists e w' lg,
    dispatch_task Date_parse config channels now (task_of_row r) w = (Throw e, w') /\
    D1_type_error e /\
    trace w' = trace w1 ++ [Ev_updateTask (advanced_row now r)] ++
               repeat (Ev_setTimeout (interval config)) (retries config) ++
               [Ev_insertTaskLog lg] /\
    net w' = net w1 /\ db_task w' = db_task w1 /\ db_log w' = db_log w1 /\
    Log.task_id lg = Row.id r /\ Log.channel lg = Row.channel r /\
    Log.execute_time lg = now /\ Log.status lg = "success" /\
    Log.message lg
    = match retries config with
      | O => "推送成功，渠道响应: " +:+ json_text b
      | S _ => message_after_retries (retries config)
      end.
Proof.
  intros Hcc Hsend. unfold dispatch_task, try_catch_finally, try_catch.
  rewrite (first_attempt_known_channel channels now r cc w w1 (Normal b) _ Hcc Hsend).
  match goal with
  | |- context [catch_block Date_parse config now ?f] =>
      destruct (catch_block_only_sleeps config now f)
        as (c & f' & E & H1 & H2 & H3 & H4 & H5 & H6 & H7 & H8)
  end.
  { cbn. destruct Hsend as [[Hch _]|[Hch _]]; auto. }
  rewrite E. cbn [the_world task executeResult after_update emit trace db_task db_log net uuid
                  er_status er_message] in *.
  assert (Hfin : exists lg,
             finally_log now (clock w) f'
             = (Throw (log_error lg), mkFrame (emit (Ev_insertTaskLog lg)
                                                    (set_uuid (S (uuid (the_world f')))
                                                              (the_world f')))
                                              (task f') (executeResult f')) /\
             lg = log_record now (clock w) f').
  { eexists. split; [apply finally_log_eq|reflexivity]. }
  destruct Hfin as (lg & Hfin & Hlg).
  exists (log_error lg), (emit (Ev_insertTaskLog lg)
                               (set_uuid (S (uuid (the_world f'))) (the_world f'))), lg.
  split.
  { destruct c as [[]|e]; rewrite Hfin; reflexivity. }
  split; [eexists; reflexivity|].
  cbn [emit set_uuid trace net db_task db_log]. rewrite H8, H7, H4, H5, <- !app_assoc.
  subst lg. cbn [log_record Log.task_id Log.channel Log.execute_time Log.status Log.message].
  rewrite H1, H2, H3. cbn. repeat split; reflexivity.
Qed.

(** X24. When the sender called for a stored row on [server_chan] or
    [wechat_work] throws, or when the channel of such a row has no entry,
    the send is never attempted again: the [catch] block sleeps
    [max_retry] times and makes no request, nothing is handed to
    [updateTask], and the record handed to [insertTaskLog] says [fail].
    Its message is not the error of the sender: it is empty when
    [max_retry] is 0 and names [channelConfig] otherwise.  Nothing is
    stored, and the pass throws. *)
Theorem failed_send_is_not_retried (config : config_t) (channels : gmap string channel_entry)
    (now : string) (r : Row.t) (w w1 : world) (e : exn) :
  (exists cc, channel_property channels (Row.channel r) = Some cc /\
              first_send_ends r cc w (Throw e) w1) \/
  (channel_property channels (Row.channel r) = None /\ w1 = w /\
   (Row.channel r = "server_chan" \/ Row.channel r = "wechat_work")) ->
  exists e' w' lg,
    dispatch_task Date_parse config channels now (task_of_row r) w = (Throw e', w') /\
    D1_type_error e' /\
    trace w' = trace w1 ++
               repeat (Ev_setTimeout (interval config)) (retries config) ++
               [Ev_insertTaskLog lg] /\
    net w' = net w1 /\ db_task w' = db_task w1 /\ db_log w' = db_log w1 /\
    Log.task_id lg = Row.id r /\ Log.status lg = "fail" /\
    Log.message lg = message_after_retries (retries config).
Proof.
  intros H.
  assert (Hfirst : exists e',
             first_attempt Date_parse channels now
               (mkFrame w (task_of_row r) {| er_status := "fail"; er_message := "" |})
             = (Throw e', mkFrame w1 (task_of_row r) {| er_status := "fail"; er_message := "" |})
             /\ (Row.channel r = "server_chan" \/ Row.channel r = "wechat_work")).
  { destruct H as [(cc & Hcc & Hsend)|(Hcc & -> & Hch)].
    - exists e. split.
      + apply (first_attempt_known_channel channels now r cc w w1 (Throw e) _ Hcc Hsend).
      + destruct Hsend as [[Hch _]|[Hch _]]; auto.
    - eexists. split; [|exact Hch]. unfold first_attempt. cbv [bind gets]. cbn [task].
      replace (Task.channel (task_of_row r)) with (Row.channel r) by reflexivity.
      rewrite Hcc. reflexivity. }
  destruct Hfirst as (e' & Hfirst & Hch).
  unfold dispatch_task, try_catch_finally, try_catch. rewrite Hfirst.
  destruct (catch_block_only_sleeps config now
              (mkFrame w1 (task_of_row r) {| er_status := "fail"; er_message := "" |}))
    as (c & f' & E & H1 & H2 & H3 & H4 & H5 & H6 & H7 & H8); [exact Hch|].
  rewrite E. cbn [the_world task executeResult er_status er_message] in *.
  exists (log_error (log_record now (clock w) f')), (logged now (clock w) f'),
    (log_record now (clock w) f').
  split.
  { destruct c as [[]|e0]; rewrite finally_log_eq; reflexivity. }
  split; [eexists; reflexivity|].
  cbn [logged emit set_uuid trace net db_task db_log].
  rewrite H8, H7, H4, H5, <- !app_assoc.
  cbn [log_record Log.task_id Log.channel Log.execute_time Log.status Log.message].
  rewrite H1, H2, H3. cbn. repeat split; try reflexivity.
  unfold message_after_retries. now destruct (retries config).
Qed.

(** The retries of a task read from the table on a channel without a
    sender: each sleeps, advances the task object once more and hands it
    to [updateTask]; the exception of the last one makes the message. *)
Lemma retry_loop_unhandled (rc : retry_config_t) (now : string) (r : Row.t)
    (remaining retryCount done : nat) (f : frame) :
  Row.channel r <> "server_chan" -> Row.channel r <> "wechat_work" ->
  task f = advanced_times done now r ->
  (remaining + retryCount = max_retry rc)%nat ->
  exists f',
    retry_loop Date_parse rc now remaining retryCount f = (Normal tt, f') /\
    task f' = advanced_times (done + remaining) now r /\
    executeResult f'
    = match remaining with
      | O => executeResult f
      | S _ =>
          {| er_status := "success";
             er_message :=
               retry_message (max_retry rc)
                             (update_error (advanced_times (done + remaining) now r)) |}
      end /\
    db_task (the_world f') = db_task (the_world f) /\
    db_log (the_world f') = db_log (the_world f) /\
    uuid (the_world f') = uuid (the_world f) /\
    net (the_world f') = net (the_world f) /\
    trace (the_world f')
    = trace (the_world f) ++ retry_events (retry_interval rc) now r done remaining.
Proof.
  intros N1 N2. apply String.eqb_neq in N1, N2.
  revert retryCount done f.
  induction remaining as [|remaining IH]; intros retryCount done f Ht Hsum.
  - exists f. cbn. rewrite app_nil_r, Nat.add_0_r. repeat split; auto.
  - cbn [retry_loop]. cbv [bind try_catch in_world setTimeout modify].
    cbn [the_world task executeResult].
    unfold retry_attempt at 1. cbv [bind gets]. cbn [task].
    destruct (advanced_times_facts done now r) as (_ & _ & _ & Hch & _).
    rewrite Ht, Hch, N1, N2. cbv [ret modify].
    rewrite (updateTaskAfterSuccess_stored now r done) by reflexivity.
    destruct remaining as [|remaining].
    + assert (Hmax : max_retry rc = S retryCount) by lia.
      rewrite Hmax, Nat.leb_refl. cbn [retry_loop]. cbv [ret modify bind].
      eexists. split; [reflexivity|]. cbn. rewrite <- ?app_assoc.
      replace (done + 1)%nat with (S done) by lia. repeat split; reflexivity.
    + assert (Hlt : (max_retry rc <=? S retryCount)%nat = false)
        by (apply Nat.leb_gt; lia).
      rewrite Hlt. cbv [ret bind].
      edestruct (IH (S retryCount) (S done)) as (f' & E & H1 & H2 & H3 & H4 & H5 & H6 & H7);
        [| |rewrite E; exists f'; split; [reflexivity|]].
      * reflexivity.
      * lia.
      * rewrite H1, H2, H3, H4, H5, H6, H7.
        replace (done + S (S remaining))%nat with (S done + S remaining)%nat by lia.
        cbn [the_world after_update set_executeResult emit set_clock trace db_task db_log
             uuid net task executeResult retry_events].
        rewrite <- !app_assoc. repeat split; reflexivity.
Qed.

Lemma catch_block_unhandled (config : config_t) (now : string) (r : Row.t) (done : nat)
    (f : frame) :
  Row.channel r <> "server_chan" -> Row.channel r <> "wechat_work" ->
  task f = advanced_times done now r ->
  exists c f',
    catch_block Date_parse config now f = (c, f') /\
    task f' = advanced_times (done + retries config) now r /\
    executeResult f'
    = match retries config with
      | O => executeResult f
      | S _ =>
          {| er_status := "success";
             er_message :=
               retry_message (retries config)
                             (update_error (advanced_times (done + retries config) now r)) |}
      end /\
    db_task (the_world f') = db_task (the_world f) /\
    db_log (the_world f') = db_log (the_world f) /\
    uuid (the_world f') = uuid (the_world f) /\
    net (the_world f') = net (the_world f) /\
    trace (the_world f')
    = trace (the_world f) ++ retry_events (interval config) now r done (retries config).
Proof.
  intros N1 N2 Ht. unfold catch_block, retries, interval.
  destruct (retry_config config) as [rc|].
  - destruct (retry_loop_unhandled rc now r (max_retry rc) 0 done f N1 N2 Ht) as (f' & E & H);
      [lia|].
    exists (Normal tt), f'. split; [exact E|exact H].
  - eexists _, f. split; [reflexivity|]. cbn. rewrite app_nil_r, Nat.add_0_r.
    repeat split; auto.
Qed.

(** X25. A stored row whose channel reads no entry in the configuration
    and is not the name of a sender: no sender is called and no request is
    made.  With [max_retry] 0 the record handed to [insertTaskLog] says
    [fail] with an empty message and nothing is handed to [updateTask].
    With any other [max_retry] every retry, after its sleep, takes the
    send for done, advances the task object once more and hands it to
    [updateTask], whose exception is taken for a failed send; the record
    says [success] and carries the message of the last of these
    exceptions.  Nothing is stored, and the pass throws. *)
Theorem missing_entry_outcome (config : config_t) (channels : gmap string channel_entry)
    (now : string) (r : Row.t) (w : world) :
  channel_property channels (Row.channel r) = None ->
  Row.channel r <> "server_chan" -> Row.channel r <> "wechat_work" ->
  exists e w' lg,
    dispatch_task Date_parse config channels now (task_of_row r) w = (Throw e, w') /\
    D1_type_error e /\
    trace w' = trace w ++ retry_events (interval config) now r 0 (retries config) ++
               [Ev_insertTaskLog lg] /\
    net w' = net w /\ db_task w' = db_task w /\ db_log w' = db_log w /\
    Log.task_id lg = Row.id r /\
    match retries config with
    | O => Log.status lg = "fail" /\ Log.message lg = ""
    | S _ =>
        Log.status lg = "success" /\
        exists e', D1_type_error e' /\ Log.message lg = retry_message (retries config) e'
    end.
Proof.
  intros Hcc N1 N2.
  unfold dispatch_task, try_catch_finally, try_catch, first_attempt.
  cbv [bind gets throw]. cbn [task].
  replace (Task.channel (task_of_row r)) with (Row.channel r) by reflexivity.
  rewrite Hcc.
  destruct (catch_block_unhandled config now r 0
              (mkFrame w (task_of_row r) {| er_status := "fail"; er_message := "" |}) N1 N2)
    as (c & f' & E & H1 & H2 & H3 & H4 & H5 & H6 & H7); [reflexivity|].
  rewrite E. cbn [the_world task executeResult] in *.
  exists (log_error (log_record now (clock w) f')), (logged now (clock w) f'),
    (log_record now (clock w) f').
  split.
  { destruct c as [[]|e0]; rewrite finally_log_eq; reflexivity. }
  split; [eexists; reflexivity|].
  cbn [logged emit set_uuid trace net db_task db_log].
  rewrite H7, H6, H3, H4, <- !app_assoc.
  cbn [log_record Log.task_id Log.status Log.message]. rewrite H1, H2.
  destruct (advanced_times_facts (0 + retries config) now r) as (_ & _ & Hid & _).
  rewrite Hid. do 5 (split; [reflexivity|]).
  destruct (retries config); cbn; [split; reflexivity|].
  split; [reflexivity|]. eexists. split; [|reflexivity]. eexists. reflexivity.
Qed.

(** X32. A stored row whose channel reads an entry in the configuration,
    an own member or a name every object inherits, and is not the name of
    a sender: no sender is called and no request is made,
    the send is taken for done, and the task object is advanced and handed
    to [updateTask] once in the [try] block and once more in every retry.
    The record handed to [insertTaskLog] says [success]; its message tells
    of a reply [undefined] when [max_retry] is 0 and is the message of the
    last exception of [updateTask] otherwise.  Nothing is stored, and the
    pass throws. *)
Theorem unhandled_entry_outcome (config : config_t) (channels : gmap string channel_entry)
    (now : string) (r : Row.t) (cc : channelConfig) (w : world) :
  channel_property channels (Row.channel r) = Some cc ->
  Row.channel r <> "server_chan" -> Row.channel r <> "wechat_work" ->
  exists e w' lg,
    dispatch_task Date_parse config channels now (task_of_row r) w = (Throw e, w') /\
    D1_type_error e /\
    trace w' = trace w ++ [Ev_updateTask (advanced_row now r)] ++
               retry_events (interval config) now r 1 (retries config) ++
               [Ev_insertTaskLog lg] /\
    net w' = net w /\ db_task w' = db_task w /\ db_log w' = db_log w /\
    Log.task_id lg = Row.id r /\ Log.status lg = "success" /\
    match retries config with
    | O => Log.message lg = "推送成功，渠道响应: undefined"
    | S _ => exists e', D1_type_error e' /\ Log.message lg = retry_message (retries config) e'
    end.
Proof.
  intros Hcc N1 N2.
  unfold dispatch_task, try_catch_finally, try_catch, first_attempt.
  cbv [bind gets throw]. cbn [task].
  replace (Task.channel (task_of_row r)) with (Row.channel r) by reflexivity.
  rewrite Hcc. pose proof N1 as N1'. pose proof N2 as N2'.
  apply String.eqb_neq in N1', N2'. rewrite N1', N2'. cbv [ret modify].
  rewrite (updateTaskAfterSuccess_stored now r 0) by reflexivity.
  match goal with
  | |- context [catch_block Date_parse config now ?f] =>
      destruct (catch_block_unhandled config now r 1 f N1 N2)
        as (c & f' & E & H1 & H2 & H3 & H4 & H5 & H6 & H7); [reflexivity|]
  end.
  rewrite E. cbn [the_world task executeResult after_update set_executeResult emit trace
                  db_task db_log net uuid] in *.
  exists (log_error (log_record now (clock w) f')), (logged now (clock w) f'),
    (log_record now (clock w) f').
  split.
  { destruct c as [[]|e0]; rewrite finally_log_eq; reflexivity. }
  split; [eexists; reflexivity|].
  cbn [logged emit set_uuid trace net db_task db_log].
  rewrite H7, H6, H3, H4, <- !app_assoc.
  cbn [log_record Log.task_id Log.status Log.message]. rewrite H1, H2.
  destruct (advanced_times_facts (1 + retries config) now r) as (_ & _ & Hid & _).
  rewrite Hid. do 5 (split; [reflexivity|]).
  destruct (retries config); cbn; [split; reflexivity|].
  split; [reflexivity|]. eexists. split; [|reflexivity]. eexists. reflexivity.
Qed.

End Outcomes.

(** ** The engine on the example inputs *)

(** C1. With [max_retry = 2] and a provider that refuses every request,
    the tick calls the sender once and makes one request: each of the two
    retries sleeps and then stops at the read of [channelConfig], before
    the call of the sender.  One record, with status [fail], is handed to
    [insertTaskLog]; the log table stays empty. *)
Theorem retries_stop_before_the_sender :
  let w' := snd (handleScheduledTasks ISO_parse world_refused) in
  retries (demo_config 2) = 2%nat /\
  count_events sender_call (new_events world_refused w') = 1%nat /\
  count_events fetch_call (new_events world_refused w') = 1%nat /\
  count_events sleep_call (new_events world_refused w') = 2%nat /\
  List.length (net world_refused) = 3%nat /\ List.length (net w') = 2%nat /\
  map Log.status (records_handed (new_events world_refused w')) = ["fail"] /\
  map Log.message (records_handed (new_events world_refused w'))
  = ["推送失败（重试 2 次）: channelConfig is not defined"] /\
  db_log w' = [].
Proof. vm_compute. repeat split; reflexivity. Qed.

(** C4. A weekly task in the table, sent with success at the time of the
    tick, keeps its [execute_time]: the row gives [cycle_config] as text,
    in which [updateTaskAfterSuccess] finds no period, so the task object
    it hands to [updateTask] has the [execute_time] it had, with the count
    incremented and the status true; and the row is not written.  On the
    task object with its [cycle_config] still an object the same function
    moves [execute_time] seven days on. *)
Theorem stored_weekly_task_is_not_rescheduled :
  let w' := snd (handleScheduledTasks ISO_parse world_weekly) in
  let success := {| er_status := "success"; er_message := "" |} in
  map Row.cycle_config (db_task world_weekly) = [Some (object_json [("period", "week")])] /\
  map Row.execute_time (db_task world_weekly) = ["2024-01-01T00:00:00.000Z"] /\
  ISO_string (clock world_weekly) = "2024-01-01T00:00:00.000Z" /\
  map Log.status (records_handed (new_events world_weekly w')) = ["success"] /\
  map Task.execute_time (tasks_handed (new_events world_weekly w'))
  = ["2024-01-01T00:00:00.000Z"] /\
  map Task.execute_count (tasks_handed (new_events world_weekly w')) = [1%Z] /\
  map Task.status (tasks_handed (new_events world_weekly w')) = [true] /\
  db_task w' = db_task world_weekly /\
  Task.execute_time
    (task (snd (updateTaskAfterSuccess ISO_parse demo_now
                  (mkFrame world_weekly weekly_task success))))
  = "2024-01-08T00:00:00.000Z".
Proof. vm_compute. repeat split; reflexivity. Qed.

(** C5. A one-shot task in the table, sent with success: the task object
    handed to [updateTask] has [status] false and the [execute_time] it
    had, but the row is not written.  It keeps [status] true, is due
    again a minute later, and the next tick sends it again. *)
Theorem single_task_stays_enabled_after_success :
  let w' := snd (handleScheduledTasks ISO_parse world_once) in
  let w'' := snd (handleScheduledTasks ISO_parse (a_minute_later w')) in
  map Row.type (db_task world_once) = ["single"] /\
  count_events sender_call (new_events world_once w') = 1%nat /\
  map Log.status (records_handed (new_events world_once w')) = ["success"] /\
  map Task.status (tasks_handed (new_events world_once w')) = [false] /\
  map Task.execute_time (tasks_handed (new_events world_once w'))
  = map Row.execute_time (db_task world_once) /\
  map Row.status (db_task w') = [true] /\
  db_task w' = db_task world_once /\
  map Row.id (select_due (db_task w') (ISO_string (clock (a_minute_later w')))) = ["once"] /\
  count_events sender_call (new_events (a_minute_later w') w'') = 1%nat /\
  map Row.status (db_task w'') = [true].
Proof. vm_compute. repeat split; reflexivity. Qed.

(** C6. A task whose channel has no entry in the configuration, with
    [max_retry = 3]: the tick enters the retry loop and sleeps three
    times; every retry, which calls no sender for this channel, takes the
    send for done and hands the task object to [updateTask].  The record
    handed to [insertTaskLog] says [success]. *)
Theorem channel_without_entry_is_retried :
  let w' := snd (handleScheduledTasks ISO_parse world_sms) in
  channel_property demo_channels "sms" = None /\
  count_events sleep_call (new_events world_sms w') = 3%nat /\
  count_events update_call (new_events world_sms w') = 3%nat /\
  count_events sender_call (new_events world_sms w') = 0%nat /\
  map Log.status (records_handed (new_events world_sms w')) = ["success"] /\
  map (fun lg => String.prefix "推送失败（重试 3 次）: D1_TYPE_ERROR" (Log.message lg))
      (records_handed (new_events world_sms w')) = [true] /\
  map Task.status (tasks_handed (new_events world_sms w')) = [false; false; false] /\
  map Task.execute_count (tasks_handed (new_events world_sms w')) = [1%Z; 2%Z; 3%Z] /\
  db_task w' = db_task world_sms /\ db_log w' = [].
Proof. vm_compute. repeat split; reflexivity. Qed.

(** C7. Two tasks are due and the provider accepts every request.  The
    pass over the first task ends with the exception of [insertTaskLog],
    thrown in the [finally] block; it leaves the loop, and the [catch] of
    [handleScheduledTasks] swallows it.  The second task is not
    dispatched: no sender call, no update and no record for it. *)
Theorem second_due_task_is_not_dispatched :
  let w' := snd (handleScheduledTasks ISO_parse world_two_tasks) in
  let first_pass :=
    dispatch_task ISO_parse (demo_config 2) demo_channels demo_now
                  (task_of_row (row_of_task single_task)) world_two_tasks in
  map Row.id (select_due (db_task world_two_tasks) (ISO_string (clock world_two_tasks)))
  = ["once"; "mail"] /\
  (exists e, fst first_pass = Throw e /\ D1_type_error e) /\
  handleScheduledTasks ISO_parse world_two_tasks = (Normal tt, snd first_pass) /\
  map Log.task_id (records_handed (new_events world_two_tasks w')) = ["once"] /\
  map Task.id (tasks_handed (new_events world_two_tasks w')) = ["once"] /\
  count_events sender_call (new_events world_two_tasks w') = 1%nat /\
  map Row.id (select_due (db_task w') (ISO_string (clock w'))) = ["once"; "mail"].
Proof.
  cbv zeta. split; [vm_compute; reflexivity|]. split.
  - destruct (dispatch_task_throws ISO_parse (demo_config 2) demo_channels demo_now
                (task_of_row (row_of_task single_task)) world_two_tasks) as (f & _ & E).
    rewrite E. eexists. split; [reflexivity|]. eexists. reflexivity.
  - vm_compute. repeat split; reflexivity.
Qed.

(** C10. A task on the channel [email], which has an entry and no
    sender: no sender is called and no request is made, and the record
    handed to [insertTaskLog] says [success]; with [max_retry = 0] its
    message tells of a reply [undefined].  The task object is advanced
    and handed to [updateTask], once, and once more in the retry when
    [max_retry = 1].  Nothing is written: the log table stays empty and
    the row stays enabled and due. *)
Theorem unhandled_channel_is_not_recorded :
  let w0 := snd (handleScheduledTasks ISO_parse world_mail_no_retry) in
  let w1 := snd (handleScheduledTasks ISO_parse world_mail) in
  channel_property demo_channels "email" = Some demo_email /\
  (count_events sender_call (new_events world_mail_no_retry w0) = 0%nat /\
   count_events fetch_call (new_events world_mail_no_retry w0) = 0%nat /\
   map Log.status (records_handed (new_events world_mail_no_retry w0)) = ["success"] /\
   map Log.message (records_handed (new_events world_mail_no_retry w0))
   = ["推送成功，渠道响应: undefined"] /\
   map Task.status (tasks_handed (new_events world_mail_no_retry w0)) = [false] /\
   map Task.execute_count (tasks_handed (new_events world_mail_no_retry w0)) = [1%Z] /\
   db_log w0 = [] /\ db_task w0 = db_task world_mail_no_retry /\
   map Row.status (db_task w0) = [true] /\ map Row.execute_count (db_task w0) = [0%Z]) /\
  (count_events sender_call (new_events world_mail w1) = 0%nat /\
   map Log.status (records_handed (new_events world_mail w1)) = ["success"] /\
   map (fun lg => String.prefix "推送失败（重试 1 次）: D1_TYPE_ERROR" (Log.message lg))
       (records_handed (new_events world_mail w1)) = [true] /\
   map Task.execute_count (tasks_handed (new_events world_mail w1)) = [1%Z; 2%Z] /\
   db_log w1 = [] /\ db_task w1 = db_task world_mail).
Proof. vm_compute. repeat split; reflexivity. Qed.

(** C2 as stated fails: a [cycle] task in the table whose [end_time] is
    before the time of the tick, dispatched while the provider refuses the
    request, keeps [status] true. *)
Lemma expired_cycle_stays_enabled_when_sends_fail :
  let w' := snd (handleScheduledTasks ISO_parse world_expired_refused) in
  map Row.type (db_task world_expired_refused) = ["cycle"] /\
  map Row.cycle_config (db_task world_expired_refused) = [Some (object_json expired_cycle)] /\
  end_time expired_cycle = Some "2023-12-31T00:00:00.000Z" /\
  Date_le (ISO_parse "2023-12-31T00:00:00.000Z")
          (ISO_parse (ISO_string (clock world_expired_refused))) = true /\
  map Log.task_id (records_handed (new_events world_expired_refused w')) = ["expired"] /\
  map Log.status (records_handed (new_events world_expired_refused w')) = ["fail"] /\
  map Row.id (db_task w') = ["expired"] /\
  map Row.status (db_task w') = [true].
Proof. vm_compute. repeat split; reflexivity. Qed.

(** The same task with a provider that accepts the request: the task
    object handed to [updateTask] has [status] true, since the
    [end_time] in the text of the row is not seen, and the row is not
    written. *)
Lemma expired_cycle_stays_enabled_after_success :
  let w' := snd (handleScheduledTasks ISO_parse world_expired_accepted) in
  map Log.status (records_handed (new_events world_expired_accepted w')) = ["success"] /\
  map Task.status (tasks_handed (new_events world_expired_accepted w')) = [true] /\
  map Row.status (db_task w') = [true].
Proof. vm_compute. repeat split; reflexivity. Qed.

Section Ended.

Variable Date_parse : string -> option Z.

(** C2, amended. A [cycle] task in the table whose [cycle_config] holds an
    [end_time] that is not after the time of the tick: when the record of
    its pass says [fail] (no attempt got past its send), nothing was
    handed to [updateTask] and the table is as it was; the row keeps the
    status it had and is not disabled. *)
Theorem ended_cycle_keeps_status_when_sends_fail (config : config_t)
    (channels : gmap string channel_entry) (now : string) (r : Row.t) (c : cycle) (e : string)
    (w : world) (lg : Log.t) :
  let w' := snd (dispatch_task Date_parse config channels now (task_of_row r) w) in
  Row.type r = "cycle" ->
  Row.cycle_config r = Some (object_json c) ->
  end_time c = Some e ->
  Date_le (Date_parse e) (Date_parse now) = true ->
  In r (select_due (db_task w) now) ->
  In (Ev_insertTaskLog lg) (new_events w w') ->
  Log.status lg = "fail" ->
  count_events update_call (new_events w w') = 0%nat /\
  db_task w' = db_task w /\
  In r (db_task w') /\ Row.status r = true.
Proof.
  cbv zeta. intros _ _ _ _ Hdue Hin Hfail.
  destruct (failed_pass_updates_nothing Date_parse config channels now (task_of_row r) w lg
              Hin Hfail) as (Hdb & Hup).
  apply select_due_In in Hdue. destruct Hdue as [Hr Hd].
  split; [exact Hup|]. split; [exact Hdb|]. split; [now rewrite Hdb|].
  unfold is_due in Hd. now apply andb_true_iff in Hd.
Qed.

End Ended.

(** ** The HTTP API *)

Lemma current_ISO_time_eq (w : world) :
  valid_clock w -> current_ISO_time w = (Normal (ISO_string (clock w)), w).
Proof.
  intros H. unfold current_ISO_time, bind, Date_now, gets, TimeClip.
  apply Z.leb_le in H. rewrite H. reflexivity.
Qed.

Lemma request_body_eq (request : Request.t) (d : taskData_t) (w : world) :
  Request.json request = Json_object d -> request_body request w = (Normal d, w).
Proof. intros H. unfold request_body. now rewrite H. Qed.

Lemma request_body_rejects (request : Request.t) (e : exn) (w : world) :
  Request.json request = Json_rejects e -> request_body request w = (Throw e, w).
Proof. intros H. unfold request_body. now rewrite H. Qed.

Lemma missingFields_nil (d : taskData_t) :
  missingFields d = [] <->
  forall field, In field requiredFields -> truthy (required_field d field) = true.
Proof.
  unfold missingFields. split.
  - intros H field Hin. destruct (truthy (required_field d field)) eqn:E; [reflexivity|].
    assert (Hf : In field (List.filter (fun field => negb (truthy (required_field d field)))
                                       requiredFields)).
    { apply filter_In. split; [exact Hin|]. now rewrite E. }
    rewrite H in Hf. destruct Hf.
  - intros H. destruct (List.filter _ _) as [|x l] eqn:E; [reflexivity|].
    assert (Hx : In x (x :: l)) by (left; reflexivity).
    rewrite <- E in Hx. apply filter_In in Hx. destruct Hx as [Hin Hx].
    rewrite (H x Hin) in Hx. discriminate.
Qed.

(** X6. [handleCreateTask] answers 400 exactly when one of the five
    required properties is absent from the body or is the empty string;
    the text names these properties, in the order of [requiredFields]; no
    identifier is drawn and nothing is stored. *)
Theorem handleCreateTask_missing_field (request : Request.t) (d : taskData_t) (w : world) :
  Request.json request = Json_object d ->
  (exists field, In field requiredFields /\ truthy (required_field d field) = false) ->
  exists missing,
    handleCreateTask request w =
      (Normal (Response.mk 400 (Body_text ("缺少必填字段: " +:+ String.concat ",  " missing))), w) /\
    missing <> [] /\
    (forall field, In field missing <->
                   In field requiredFields /\
                   (required_field d field = None \/ required_field d field = Some "")) /\
    sublist missing requiredFields.
Proof.
  intros Hjson [field [Hin Hfalse]]. exists (missingFields d).
  assert (Hne : missingFields d <> []).
  { intros Hnil. rewrite missingFields_nil in Hnil. rewrite (Hnil field Hin) in Hfalse.
    discriminate. }
  split; [|split; [exact Hne|split]].
  - unfold handleCreateTask, try_catch, bind. rewrite (request_body_eq _ _ _ Hjson).
    destruct (missingFields d); [congruence|reflexivity].
  - intros f. unfold missingFields. rewrite filter_In, negb_true_iff.
    split; intros [H1 H2]; (split; [exact H1|]).
    + destruct (required_field d f) as [[|c s]|]; [right; reflexivity|discriminate|left; reflexivity].
    + destruct H2 as [H2|H2]; rewrite H2; reflexivity.
  - unfold missingFields, requiredFields.
    destruct d as [i n c ch cc st ty et cy ct ut ec]. cbn.
    destruct (truthy n), (truthy c), (truthy ch), (truthy et), (truthy ty); cbn;
      repeat first [apply sublist_nil | apply sublist_skip | apply sublist_cons].
Qed.

(** X7. With the five required properties present and not empty,
    [handleCreateTask] draws an identifier, reads the clock, and calls
    [insertTask], which throws; the handler answers 500 with the message
    of D1.  No row is stored, and no answer 201 is given. *)
Theorem handleCreateTask_stores_nothing (request : Request.t) (d : taskData_t) (w : world) :
  Request.json request = Json_object d ->
  (forall field, In field requiredFields -> truthy (required_field d field) = true) ->
  valid_clock w ->
  exists e,
    D1_type_error e /\
    handleCreateTask request w
    = (Normal (Response.mk 500 (Body_failure (exn_message e))), set_uuid (S (uuid w)) w).
Proof.
  intros Hjson Hreq Hclock. apply missingFields_nil in Hreq.
  set (id := "uuid-" +:+ string_of_nat (uuid w)).
  set (now := ISO_string (clock w)).
  exists (insert_error (created_task id now now d)). split; [eexists; reflexivity|].
  unfold handleCreateTask, try_catch, bind. rewrite (request_body_eq _ _ _ Hjson), Hreq.
  unfold randomUUID. rewrite (current_ISO_time_eq (set_uuid (S (uuid w)) w) Hclock).
  rewrite (current_ISO_time_eq (set_uuid (S (uuid w)) w) Hclock).
  rewrite insertTask_throws. reflexivity.
Qed.

(** X8. When the body of the request is not JSON, [handleCreateTask] and
    [handleUpdateTask] answer 500 with the message of the error, or with
    their fixed text when that message is empty, and change nothing; the
    table is not read. *)
Theorem body_that_is_not_JSON (request : Request.t) (e : exn) (taskId : string) (w : world) :
  Request.json request = Json_rejects e ->
  handleCreateTask request w =
    (Normal (Response.mk 500 (Body_failure (if String.eqb (exn_message e) "" then "Failed to create task"
                                            else exn_message e))), w) /\
  handleUpdateTask request taskId w =
    (Normal (Response.mk 500 (Body_failure (if String.eqb (exn_message e) "" then "Failed to update task"
                                            else exn_message e))), w).
Proof.
  intros Hjson. unfold handleCreateTask, handleUpdateTask, try_catch, bind.
  rewrite (request_body_rejects _ _ _ Hjson). unfold ret, or_else, truthy, template.
  destruct (exn_message e); split; reflexivity.
Qed.

Lemma getTaskById_found (taskId : string) (w : world) (r : Row.t) :
  List.find (fun r => String.eqb (Row.id r) taskId) (db_task w) = Some r ->
  getTaskById taskId w = (Normal (Some (task_of_row r)), w).
Proof. intros H. unfold getTaskById, gets. now rewrite H. Qed.

Lemma getTaskById_missing (taskId : string) (w : world) :
  (forall r, In r (db_task w) -> Row.id r <> taskId) ->
  getTaskById taskId w = (Normal None, w).
Proof. intros H. apply find_none_iff in H. unfold getTaskById, gets. now rewrite H. Qed.

(** X9. [handleUpdateTask] on an id that no row has answers 404 and
    changes nothing, whatever the body carries. *)
Theorem handleUpdateTask_unknown_id (request : Request.t) (d : taskData_t) (taskId : string)
    (w : world) :
  Request.json request = Json_object d ->
  (forall r, In r (db_task w) -> Row.id r <> taskId) ->
  handleUpdateTask request taskId w = (Normal (Response.mk 404 (Body_text "任务不存在")), w).
Proof.
  intros Hjson Hmiss. unfold handleUpdateTask, try_catch, bind.
  now rewrite (request_body_eq _ _ _ Hjson), (getTaskById_missing _ _ Hmiss).
Qed.

(** X10. A [PUT] on the id of a row, with a body that is JSON: the row is
    read, merged with the body, and handed to [updateTask], which throws;
    the handler answers 500 with the message of D1, and no row is changed. *)
Theorem handleUpdateTask_stores_nothing (request : Request.t) (d : taskData_t)
    (taskId : string) (w : world) (r : Row.t) :
  Request.json request = Json_object d ->
  List.find (fun r => String.eqb (Row.id r) taskId) (db_task w) = Some r ->
  valid_clock w ->
  exists e,
    D1_type_error e /\
    handleUpdateTask request taskId w
    = (Normal (Response.mk 500 (Body_failure (exn_message e))),
       emit (Ev_updateTask (merged_task (task_of_row r) d (ISO_string (clock w)))) w) /\
    db_task (snd (handleUpdateTask request taskId w)) = db_task w.
Proof.
  intros Hjson Hfind Hclock.
  exists (update_error (merged_task (task_of_row r) d (ISO_string (clock w)))).
  split; [eexists; reflexivity|].
  unfold handleUpdateTask, try_catch, bind.
  rewrite (request_body_eq _ _ _ Hjson), (getTaskById_found _ _ _ Hfind).
  rewrite (current_ISO_time_eq _ Hclock), updateTask_throws. split; reflexivity.
Qed.

(** ** Routes *)

Lemma split_on_cons (sep : ascii) (s : string) :
  exists first others, split_on sep s = first :: others.
Proof.
  induction s as [|c s IH]; cbn; [now eexists _, _|].
  destruct (Ascii.eqb c sep); [now eexists _, _|].
  destruct IH as [first [others ->]]. now eexists _, _.
Qed.

Lemma split_on_segment (sep : ascii) (segment tail : string) :
  without_char sep segment ->
  tail = "" \/ (exists t, tail = String sep t) ->
  exists others, split_on sep (segment +:+ tail) = segment :: others.
Proof.
  intros Hseg Htail. induction segment as [|c s IH].
  - change ("" +:+ tail) with tail.
    destruct Htail as [->|[t ->]]; cbn [split_on]; [now eexists|].
    rewrite Ascii.eqb_refl. now eexists.
  - change (String c s +:+ tail) with (String c (s +:+ tail)). cbn [split_on].
    destruct Hseg as [Hc Hs]. apply Ascii.eqb_neq in Hc. rewrite Hc.
    destruct (IH Hs) as [others ->]. now eexists.
Qed.

Lemma prefix_append (p s : string) : String.prefix p (p +:+ s) = true.
Proof.
  induction p as [|c p IH]; [now destruct s|].
  change (String c p +:+ s) with (String c (p +:+ s)). cbn [String.prefix].
  destruct (ascii_dec c c); [exact IH|contradiction].
Qed.

Lemma item_path_not_collection (rest : string) :
  String.eqb ("/api/tasks/" +:+ rest) "/api/tasks" = false.
Proof. cbn. now destruct rest. Qed.

Lemma item_taskId (id tail : string) :
  without_char "/" id ->
  tail = "" \/ (exists t, tail = String "/" t) ->
  nth_error (split_on "/" ("/api/tasks/" +:+ id +:+ tail)) 3 = Some id.
Proof.
  intros Hid Htail. destruct (split_on_segment "/" id tail Hid Htail) as [others H].
  change ("/api/tasks/" +:+ id +:+ tail) with
    (String "/" (String "a" (String "p" (String "i" (String "/" (String "t" (String "a"
       (String "s" (String "k" (String "s" (String "/" (id +:+ tail)))))))))))).
  cbn. rewrite H. destruct (split_on_cons "/" "") as [? [? ?]]. reflexivity.
Qed.

(** X12. Under [/api/tasks/] the id is the segment that follows, up to
    the next [/] or the end of the path; what follows that segment is
    ignored.  With a non-empty id, [PUT] is [handleUpdateTask] and
    [DELETE] is [handleDeleteTask] on that id, and every other method is
    answered 404; with an empty id every method is answered 404. *)
Theorem handleTaskApi_item_routes (request : Request.t) (id tail : string) :
  Request.pathname request = "/api/tasks/" +:+ id +:+ tail ->
  without_char "/" id ->
  tail = "" \/ (exists t, tail = String "/" t) ->
  (id <> "" -> Request.method request = "PUT" ->
     handleTaskApi request = handleUpdateTask request id) /\
  (id <> "" -> Request.method request = "DELETE" ->
     handleTaskApi request = handleDeleteTask id) /\
  (Request.method request <> "PUT" -> Request.method request <> "DELETE" ->
     handleTaskApi request = Not_Found) /\
  (id = "" -> handleTaskApi request = Not_Found).
Proof.
  intros Hpath Hid Htail. unfold handleTaskApi. rewrite Hpath.
  rewrite (item_taskId id tail Hid Htail).
  change ("/api/tasks/" +:+ id +:+ tail) with ("/api/tasks/" +:+ (id +:+ tail)).
  rewrite item_path_not_collection. unfold startsWith. rewrite prefix_append.
  rewrite !andb_false_r. cbn [andb template].
  split; [|split; [|split]].
  - intros Hne ->. cbn. destruct id; [congruence|reflexivity].
  - intros Hne ->. cbn. destruct id; [congruence|reflexivity].
  - intros H1 H2. apply String.eqb_neq in H1, H2. now rewrite H1, H2.
  - intros ->. cbn [truthy]. rewrite !andb_false_r. reflexivity.
Qed.

(** X13. On the path [/api/tasks] itself, [POST] is [handleCreateTask],
    [GET] is [handleGetTasks], and every other method, [PUT] and [DELETE]
    included, is answered 404. *)
Theorem handleTaskApi_collection_routes (request : Request.t) :
  Request.pathname request = "/api/tasks" ->
  (Request.method request = "POST" -> handleTaskApi request = handleCreateTask request) /\
  (Request.method request = "GET" -> handleTaskApi request = handleGetTasks) /\
  (Request.method request <> "POST" -> Request.method request <> "GET" ->
     handleTaskApi request = Not_Found).
Proof.
  intros Hpath. unfold handleTaskApi. rewrite Hpath.
  change (startsWith "/api/tasks" "/api/tasks/") with false.
  rewrite !andb_false_r. cbn [andb]. rewrite String.eqb_refl, !andb_true_r.
  split; [|split].
  - intros ->. reflexivity.
  - intros ->. reflexivity.
  - intros H1 H2. apply String.eqb_neq in H1, H2. now rewrite H1, H2.
Qed.

(** ** The router of [src/functions/_worker.js] *)

Section PagesRouter.

Variable handleCreateTask : Request.t -> M world Response.t.
Variable next : M world Response.t.

Lemma Pages_item_taskId (id tail : string) :
  without_char "/" id ->
  tail = "" \/ (exists t, tail = String "/" t) ->
  nth_error (split_on "/" ("/api/task/" +:+ id +:+ tail)) 3 = Some id.
Proof.
  intros Hid Htail. destruct (split_on_segment "/" id tail Hid Htail) as [others H].
  change ("/api/task/" +:+ id +:+ tail) with
    (String "/" (String "a" (String "p" (String "i" (String "/" (String "t" (String "a"
       (String "s" (String "k" (String "/" (id +:+ tail))))))))))).
  cbn. rewrite H. destruct (split_on_cons "/" "") as [? [? ?]]. reflexivity.
Qed.

Lemma Pages_item_path (rest : string) :
  String.eqb ("/api/task/" +:+ rest) "/api/task" = false /\
  String.eqb ("/api/task/" +:+ rest) "/api/tasks" = false.
Proof. cbn. now destruct rest. Qed.

(** X29. In the Pages variant the item routes are under [/api/task/]
    and the id, the segment that follows, is not tested: [PUT] is
    [handleUpdateTask] and [DELETE] is [handleDeleteTask] on that id even
    when it is empty, so that [DELETE /api/task/] answers 200; every other
    method is answered 404.  The item paths of [src/worker.js], under
    [/api/tasks/], are answered 404 for every method. *)
Theorem Pages_item_routes (request : Request.t) (id tail : string) :
  without_char "/" id ->
  tail = "" \/ (exists t, tail = String "/" t) ->
  (Request.pathname request = "/api/task/" +:+ id +:+ tail ->
   (Request.method request = "PUT" ->
    Pages.handleTaskApi handleCreateTask request = Pages.handleUpdateTask request id) /\
   (Request.method request = "DELETE" ->
    Pages.handleTaskApi handleCreateTask request = Pages.handleDeleteTask id /\
    forall w, fst (Pages.handleTaskApi handleCreateTask request w)
              = Normal (Response.mk 200 Body_success)) /\
   (Request.method request <> "PUT" -> Request.method request <> "DELETE" ->
    Pages.handleTaskApi handleCreateTask request = Not_Found)) /\
  (Request.pathname request = "/api/tasks/" +:+ id +:+ tail ->
   Pages.handleTaskApi handleCreateTask request = Not_Found).
Proof.
  intros Hid Htail. split.
  - intros Hpath. unfold Pages.handleTaskApi. rewrite Hpath.
    rewrite (Pages_item_taskId id tail Hid Htail).
    change ("/api/task/" +:+ id +:+ tail) with ("/api/task/" +:+ (id +:+ tail)).
    destruct (Pages_item_path (id +:+ tail)) as [-> ->].
    unfold startsWith. rewrite prefix_append. rewrite !andb_false_r, !andb_true_r.
    cbn [template]. split; [|split].
    + intros ->. reflexivity.
    + intros ->. split; [reflexivity|]. intros w. reflexivity.
    + intros H1 H2. apply String.eqb_neq in H1, H2. now rewrite H1, H2.
  - intros Hpath. unfold Pages.handleTaskApi. rewrite Hpath.
    change ("/api/tasks/" +:+ id +:+ tail) with ("/api/tasks/" +:+ (id +:+ tail)).
    replace (String.eqb ("/api/tasks/" +:+ (id +:+ tail)) "/api/task") with false
      by (cbn; reflexivity).
    replace (String.eqb ("/api/tasks/" +:+ (id +:+ tail)) "/api/tasks") with false
      by (cbn; now destruct (id +:+ tail)).
    replace (startsWith ("/api/tasks/" +:+ (id +:+ tail)) "/api/task/") with false
      by reflexivity.
    rewrite !andb_false_r. reflexivity.
Qed.

(** X30. No handler of the Pages variant catches: on an API path
    [onRequest] is [handleTaskApi], and when the body of a [PUT] on an
    item route is not JSON the error of [request.json()] is thrown out of
    [onRequest], with nothing changed; a path that does not start with
    [/api/task] is handed to [next()]. *)
Theorem Pages_onRequest_throws (request : Request.t) (id tail : string) (e : exn) (w : world) :
  without_char "/" id ->
  tail = "" \/ (exists t, tail = String "/" t) ->
  Request.pathname request = "/api/task/" +:+ id +:+ tail ->
  Request.method request = "PUT" ->
  Request.json request = Json_rejects e ->
  Pages.onRequest handleCreateTask next request w = (Throw e, w) /\
  forall other,
    startsWith (Request.pathname other) "/api/task" = false ->
    Pages.onRequest handleCreateTask next other = next.
Proof.
  intros Hid Htail Hpath Hm Hjson. split.
  - unfold Pages.onRequest. rewrite Hpath.
    replace (startsWith ("/api/task/" +:+ id +:+ tail) "/api/task") with true by reflexivity.
    unfold Pages.handleTaskApi. rewrite Hpath, Hm.
    rewrite (Pages_item_taskId id tail Hid Htail).
    change ("/api/task/" +:+ id +:+ tail) with ("/api/task/" +:+ (id +:+ tail)).
    destruct (Pages_item_path (id +:+ tail)) as [-> ->].
    unfold startsWith. rewrite prefix_append. cbn [String.eqb Ascii.eqb Bool.eqb andb template].
    unfold Pages.handleUpdateTask, bind. now rewrite (request_body_rejects _ _ _ Hjson).
  - intros other H. unfold Pages.onRequest. now rewrite H.
Qed.

End PagesRouter.

(** ** What the API leaves alone *)

Lemma current_ISO_time_cases (w : world) :
  current_ISO_time w = (Normal (ISO_string (clock w)), w) \/
  exists e, current_ISO_time w = (Throw e, w).
Proof.
  unfold current_ISO_time, bind, Date_now, gets, TimeClip.
  destruct (Z.abs (clock w) <=? 8640000000000000)%Z; [left|right; eexists]; reflexivity.
Qed.

Ltac contained_by_computation :=
  eexists _, _; split; [reflexivity|]; cbn;
  repeat match goal with |- _ /\ _ => split end;
  try reflexivity; try tauto; try (intros; discriminate); try (intros; congruence).

Lemma handleCreateTask_contained (request : Request.t) (w : world) :
  contained w (handleCreateTask request w).
Proof.
  unfold handleCreateTask, try_catch, bind, request_body.
  destruct (Request.json request) as [e|d]; [contained_by_computation|].
  unfold ret at 1. destruct (missingFields d) eqn:Hm; [|contained_by_computation].
  unfold randomUUID.
  destruct (current_ISO_time_cases (set_uuid (S (uuid w)) w)) as [H|[e H]]; rewrite H;
    [|contained_by_computation].
  rewrite H, insertTask_throws. contained_by_computation.
Qed.

Lemma handleGetTasks_contained (w : world) : contained w (handleGetTasks w).
Proof. unfold handleGetTasks, try_catch, bind, queryAllTasks, gets, ret. contained_by_computation. Qed.

Lemma handleUpdateTask_contained (request : Request.t) (taskId : string) (w : world) :
  contained w (handleUpdateTask request taskId w).
Proof.
  unfold handleUpdateTask, try_catch, bind, request_body.
  destruct (Request.json request) as [e|d]; [contained_by_computation|].
  unfold ret at 1, getTaskById, gets.
  destruct (List.find _ (db_task w)) as [r|]; cbn [option_map]; [|contained_by_computation].
  destruct (current_ISO_time_cases w) as [H|[e H]]; rewrite H; [|contained_by_computation].
  rewrite updateTask_throws. contained_by_computation.
Qed.

Lemma handleDeleteTask_contained (taskId : string) (w : world) :
  contained w (handleDeleteTask taskId w).
Proof.
  unfold handleDeleteTask, try_catch, bind, deleteTask, modify, ret.
  eexists _, _; split; [reflexivity|]. cbn [Response.status db_log db_task net GLOBAL_CONFIG clock
                                           set_db_task].
  repeat match goal with |- _ /\ _ => split end; try reflexivity; try (intros; congruence).
  - cbn; tauto.
  - intros _. apply List.filter_length_le.
Qed.

(** X14. [handleTaskApi] never throws: every request is answered, with
    status 200, 201, 400, 404 or 500.  It leaves the log table, the
    configuration, the network and the clock alone; under 400, 404 and 500
    the task table is unchanged, under 201 exactly one row was appended,
    and under 200 no row was added. *)
Theorem handleTaskApi_contained (request : Request.t) (w : world) :
  contained w (handleTaskApi request w).
Proof.
  unfold handleTaskApi.
  destruct (_ && _); [apply handleCreateTask_contained|].
  destruct (_ && _); [apply handleGetTasks_contained|].
  destruct (_ && _); [apply handleUpdateTask_contained|].
  destruct (_ && _); [apply handleDeleteTask_contained|].
  unfold ret. contained_by_computation.
Qed.

(** ** The senders *)

Lemma credentials_test (cc : channelConfig) :
  negb (truthy (corp_id cc)) || negb (truthy (app_secret cc)) || negb (truthy (agent_id cc))
  = negb (has_credentials cc).
Proof.
  unfold has_credentials.
  destruct (truthy (corp_id cc)), (truthy (app_secret cc)), (truthy (agent_id cc)); reflexivity.
Qed.

(** X15. [sendByWechatWork] with one of [corp_id], [app_secret],
    [agent_id] absent or empty throws its fixed error before any request:
    the network is not used and no reply is consumed. *)
Theorem sendByWechatWork_missing_credentials (content : string) (cc : channelConfig)
    (overrides : js_column receiver) (w : world) :
  has_credentials cc = false ->
  sendByWechatWork content cc overrides w
  = (Throw (Error "WeChatWork 推送失败: 缺少 corp_id/app_secret/agent_id"),
     emit Ev_sendByWechatWork w).
Proof.
  intros H. unfold sendByWechatWork, bind, modify. rewrite credentials_test, H. reflexivity.
Qed.

(** X16. When the reply to the token request does not carry [errcode] 0,
    [sendByWechatWork] throws with the [errmsg] of that reply and the
    message is never posted: the token request is the only request and
    the only reply consumed. *)
Theorem sendByWechatWork_token_refused (content : string) (cc : channelConfig)
    (overrides : js_column receiver) (w : world) (b : json_body) (rest : list fetch_outcome) :
  has_credentials cc = true ->
  net w = Reply b :: rest ->
  accepted (errcode b) = false ->
  exists w',
    sendByWechatWork content cc overrides w
    = (Throw (Error ("WeChatWork 获取 token 失败: " +:+ template (errmsg b))), w') /\
    trace w' = trace w ++ [Ev_sendByWechatWork; Ev_fetch (tokenUrl_of cc) No_body] /\
    net w' = rest /\ db_task w' = db_task w /\ db_log w' = db_log w.
Proof.
  intros Hc Hnet Hb. unfold sendByWechatWork, bind, modify. rewrite credentials_test, Hc.
  cbn [negb]. cbv zeta. unfold fetch at 1. cbn [net emit]. rewrite Hnet.
  destruct (errcode b) as [[| |]|]; try discriminate;
    (eexists; split; [reflexivity|]; cbn; rewrite <- app_assoc; repeat split).
Qed.

Lemma or_else_merged (field : receiver -> option string) (cc : channelConfig)
    (overrides : js_column receiver) (fallback : string) :
  or_else (merged field (default_receiver cc) overrides) fallback
  = receiver_sent field cc overrides fallback.
Proof.
  unfold or_else, merged, receiver_sent, truthy, template.
  destruct overrides as [o| | |]; [destruct (field o) as [[|]|]|..];
    try reflexivity;
    destruct (default_receiver cc) as [d|]; try reflexivity; destruct (field d) as [[|]|];
    reflexivity.
Qed.

(** X17. With the credentials present and a token reply with [errcode] 0,
    [sendByWechatWork] makes exactly two requests, the second to the
    message endpoint with the [access_token] of the first reply.  An empty
    receiver in the task's own object hides the default receiver and gives
    the fallback.  The sender returns the second reply when its [errcode]
    is 0 and throws with its [errmsg] otherwise; a rejected request is
    thrown on. *)
Theorem sendByWechatWork_posts_with_token (content : string) (cc : channelConfig)
    (overrides : js_column receiver) (w : world) (b : json_body) (o : fetch_outcome)
    (rest : list fetch_outcome) :
  has_credentials cc = true ->
  net w = Reply b :: o :: rest ->
  accepted (errcode b) = true ->
  let '(r, w') := sendByWechatWork content cc overrides w in
  trace w' = trace w ++
    [Ev_sendByWechatWork; Ev_fetch (tokenUrl_of cc) No_body;
     Ev_fetch ("https://qyapi.weixin.qq.com/cgi-bin/message/send?access_token=" +:+
               template (access_token b))
              (WechatWork_body (receiver_sent touser cc overrides "@all")
                               (receiver_sent toparty cc overrides "")
                               (receiver_sent totag cc overrides "") content)] /\
  net w' = rest /\ db_task w' = db_task w /\ db_log w' = db_log w /\
  r = match o with
      | Reject e => Throw e
      | Reply b' =>
          if accepted (errcode b') then Normal b'
          else Throw (Error ("WeChatWork 推送失败: " +:+ template (errmsg b')))
      end.
Proof.
  intros Hc Hnet Hb. unfold sendByWechatWork, bind, modify. rewrite credentials_test, Hc.
  cbn [negb]. cbv zeta. unfold fetch at 1. cbn [net emit]. rewrite Hnet.
  rewrite !or_else_merged.
  destruct (errcode b) as [[| |]|]; try discriminate.
  unfold fetch. cbn [net set_net emit trace db_task db_log].
  destruct o as [e|b'].
  - cbn. rewrite <- !app_assoc. repeat split.
  - destruct (errcode b') as [[| |]|]; cbn; rewrite <- !app_assoc; repeat split.
Qed.

(** X18. The receivers stored with a task are never used: what the
    scheduler reads back from the table for [channel_config] is text, and
    for every text (and for [NULL]) [sendByWechatWork] behaves as it does
    without any receiver of the task. *)
Theorem stored_receivers_are_ignored (content : string) (cc : channelConfig) (r : Row.t)
    (w : world) :
  sendByWechatWork content cc (Task.channel_config (task_of_row r)) w
  = sendByWechatWork content cc Undefined w.
Proof.
  unfold task_of_row, column_value. cbn [Task.channel_config].
  destruct (Row.channel_config r); reflexivity.
Qed.

Lemma ServerChan_pushUrl_pure {S : Type} (cc : channelConfig) (s : S) :
  ServerChan_pushUrl cc s = (fst (ServerChan_pushUrl cc tt), s).
Proof.
  unfold ServerChan_pushUrl. destruct (negb _); [reflexivity|].
  destruct (startsWith _ _); [|reflexivity]. destruct (regex_sctp_exec _); reflexivity.
Qed.

(** X19. Once the endpoint is determined, [sendByServerChan] makes one
    request and consumes one reply; it returns the reply when its [code]
    is 0, throws with the [message] of the reply (or the fixed text when
    there is none) for any other reply, and throws the error on when the
    request is rejected.  The tables are not touched. *)
Theorem sendByServerChan_outcome (content title url : string) (cc : channelConfig) (w : world)
    (o : fetch_outcome) (rest : list fetch_outcome) :
  fst (ServerChan_pushUrl cc tt) = Normal url ->
  net w = o :: rest ->
  let '(r, w') := sendByServerChan content cc title w in
  trace w' = trace w ++ [Ev_sendByServerChan; Ev_fetch url (ServerChan_body title content)] /\
  net w' = rest /\ db_task w' = db_task w /\ db_log w' = db_log w /\
  r = match o with
      | Reject e => Throw e
      | Reply b =>
          if accepted (code b) then Normal b
          else Throw (Error ("ServerChan 推送失败: " +:+
                             match message b with
                             | Some "" | None => "未知错误"
                             | Some m => m
                             end))
      end.
Proof.
  intros Hurl Hnet. unfold sendByServerChan, bind, modify.
  rewrite ServerChan_pushUrl_pure, Hurl.
  unfold fetch. cbn [net set_net emit trace db_task db_log]. rewrite Hnet.
  destruct o as [e|b].
  - cbn. rewrite <- !app_assoc. repeat split.
  - destruct (code b) as [[| |]|]; cbn; rewrite <- !app_assoc; repeat split;
      destruct (message b) as [[|]|]; reflexivity.
Qed.

(** ** The month rule *)

Section Calendar2.

Local Open Scope Z_scope.

Ltac evaluate_month_terms :=
  repeat match goal with
         | |- context [?c / 12] =>
             let v := eval vm_compute in (c / 12) in change (c / 12) with v
         | |- context [?c mod 12 + 1] =>
             let v := eval vm_compute in (c mod 12 + 1) in change (c mod 12 + 1) with v
         end;
  repeat match goal with
         | |- context [?a <=? ?b] =>
             let v := eval vm_compute in (a <=? b) in change (a <=? b) with v
         | |- context [?a <? ?b] =>
             let v := eval vm_compute in (a <? b) in change (a <? b) with v
         | |- context [?a =? ?b] =>
             let v := eval vm_compute in (a =? b) in change (a =? b) with v
         end;
  cbv iota; cbn [orb];
  repeat match goal with
         | |- context [(153 * ?mp + 2) / 5] =>
             let v := eval vm_compute in ((153 * mp + 2) / 5) in
             change ((153 * mp + 2) / 5) with v
         end.

Lemma is_leap_year_spec (y : Z) :
  (is_leap_year y = true /\ (y mod 4 = 0 /\ y mod 100 <> 0 \/ y mod 400 = 0)) \/
  (is_leap_year y = false /\ (y mod 4 <> 0 \/ y mod 100 = 0) /\ y mod 400 <> 0).
Proof.
  unfold is_leap_year.
  destruct (Z.eqb_spec (y mod 4) 0), (Z.eqb_spec (y mod 100) 0), (Z.eqb_spec (y mod 400) 0);
    cbn; tauto.
Qed.

(** The first day of the month after the month [m] of the year [y] comes
    as many days after the first day of that month as the month has. *)
Lemma month_length (y m : Z) :
  1 <= m <= 12 ->
  days_from_civil (y + m / 12) (m mod 12 + 1) 1 - days_from_civil y m 1 = days_in_month y m.
Proof.
  intros Hm.
  assert (m = 1 \/ m = 2 \/ m = 3 \/ m = 4 \/ m = 5 \/ m = 6 \/ m = 7 \/ m = 8 \/ m = 9 \/
          m = 10 \/ m = 11 \/ m = 12) as Hcases by lia.
  unfold days_from_civil, days_in_month. cbv zeta.
  destruct (is_leap_year_spec y) as [[-> Hl]|[-> Hl]];
    repeat (destruct Hcases as [->|Hcases]); try subst m;
    evaluate_month_terms; Z.div_mod_to_equations; lia.
Qed.

Lemma days_in_month_range (y m : Z) : 28 <= days_in_month y m <= 31.
Proof.
  unfold days_in_month.
  destruct (m =? 2); [destruct (is_leap_year y); lia|]. destruct (_ || _); lia.
Qed.

Lemma year_of_era_inverse (yoe doy : Z) :
  0 <= yoe <= 399 ->
  0 <= doy < 365 + ((yoe + 1) / 4 - yoe / 4) - ((yoe + 1) / 100 - yoe / 100)
                 + ((yoe + 1) / 400 - yoe / 400) ->
  let doe := yoe * 365 + yoe / 4 - yoe / 100 + doy in
  (doe - doe / 1460 + doe / 36524 - doe / 146096) / 365 = yoe /\ 0 <= doe < 146097.
Proof. intros H1 H2. cbv zeta. Z.div_mod_to_equations. lia. Qed.

Lemma month_of_year_inverse (mp d : Z) :
  0 <= mp <= 11 ->
  1 <= d <= (153 * (mp + 1) + 2) / 5 - (153 * mp + 2) / 5 ->
  (5 * ((153 * mp + 2) / 5 + d - 1) + 2) / 153 = mp.
Proof. intros H1 H2. Z.div_mod_to_equations. lia. Qed.

(** [civil_from_days] takes the day number of a date back to the date. *)
Lemma civil_from_days_of_date (y m d : Z) :
  1 <= m <= 12 -> 1 <= d <= days_in_month y m ->
  civil_from_days (days_from_civil y m d) = (y, m, d).
Proof.
  intros Hm Hd. unfold days_from_civil. cbv zeta.
  set (y' := if m <=? 2 then y - 1 else y).
  set (era := y' / 400).
  set (yoe := y' - era * 400).
  set (mp := if 2 <? m then m - 3 else m + 9).
  assert (0 <= yoe <= 399) as Hyoe by (subst yoe era; Z.div_mod_to_equations; lia).
  assert (0 <= mp <= 11 /\ m = (if mp <? 10 then mp + 3 else mp - 9) /\
          y = (if mp <? 10 then yoe + era * 400 else yoe + era * 400 + 1)) as (Hmp & Hm' & Hy).
  { subst mp yoe y'. destruct (Z.ltb_spec 2 m), (Z.leb_spec m 2); try lia.
    - replace (m - 3 <? 10) with true by (symmetry; apply Z.ltb_lt; lia). lia.
    - replace (m + 9 <? 10) with false by (symmetry; apply Z.ltb_ge; lia). lia. }
  set (doy := (153 * mp + 2) / 5 + d - 1).
  assert (1 <= d <= (153 * (mp + 1) + 2) / 5 - (153 * mp + 2) / 5 /\
          0 <= doy < 365 + ((yoe + 1) / 4 - yoe / 4) - ((yoe + 1) / 100 - yoe / 100)
                         + ((yoe + 1) / 400 - yoe / 400)) as (Hd' & Hdoy).
  { assert (m = 1 \/ m = 2 \/ m = 3 \/ m = 4 \/ m = 5 \/ m = 6 \/ m = 7 \/ m = 8 \/ m = 9 \/
            m = 10 \/ m = 11 \/ m = 12) as Hcases by lia.
    clear Hm' Hy Hmp. subst doy mp yoe era y'. unfold days_in_month in Hd.
    destruct (is_leap_year_spec y) as [[Hl Hl']|[Hl Hl']]; rewrite Hl in Hd; clear Hl;
      repeat (destruct Hcases as [->|Hcases]); try subst m;
      cbn [Z.eqb Pos.eqb orb] in Hd; evaluate_month_terms;
      (split; [|split]); Z.div_mod_to_equations; lia. }
  destruct (year_of_era_inverse yoe doy Hyoe Hdoy) as (Hyear & Hdoe).
  pose proof (month_of_year_inverse mp d Hmp Hd') as Hmonth. fold doy in Hmonth.
  set (doe := yoe * 365 + yoe / 4 - yoe / 100 + doy) in *.
  assert (doe - (365 * yoe + yoe / 4 - yoe / 100) = doy) as Edoe by (subst doe; lia).
  assert (doy - (153 * mp + 2) / 5 + 1 = d) as Edoy by (subst doy; lia).
  clearbody doy doe mp yoe era. clear y'.
  unfold civil_from_days. cbv zeta.
  replace (era * 146097 + doe - 719468 + 719468) with (era * 146097 + doe) by lia.
  replace ((era * 146097 + doe) / 146097) with era by (Z.div_mod_to_equations; lia).
  replace (era * 146097 + doe - era * 146097) with doe by lia.
  rewrite Hyear, Edoe, Hmonth, Edoy, Hm', Hy.
  destruct (Z.ltb_spec mp 10) as [H10|H10].
  - replace (mp + 3 <=? 2) with false by (symmetry; apply Z.leb_gt; lia). reflexivity.
  - replace (mp - 9 <=? 2) with true by (symmetry; apply Z.leb_le; lia). reflexivity.
Qed.

Lemma Day_add_days (t k : Z) :
  Day (t + k * msPerDay) = Day t + k /\ TimeWithinDay (t + k * msPerDay) = TimeWithinDay t.
Proof. unfold Day, TimeWithinDay, msPerDay. split; Z.div_mod_to_equations; lia. Qed.

(** X28. [current.setMonth(current.getMonth() + 1)] moves the time value
    by the number of days of the current month and keeps the time of day.
    When the next month has the day of the month, the result is that day
    of the next month; otherwise it is in the month after the next, on
    the day that is left when the days of the next month are taken off. *)
Theorem setMonth_next_moves_one_month_length (t : Z) :
  let y := YearFromTime t in
  let m := MonthFromTime t + 1 in
  let d := DateFromTime t in
  let t' := t + days_in_month y m * msPerDay in
  let y1 := y + m / 12 in
  let m1 := m mod 12 + 1 in
  setMonth (Some t) (plus_number (getMonth (Some t)) 1) = TimeClip t' /\
  TimeWithinDay t' = TimeWithinDay t /\
  (d <= days_in_month y1 m1 ->
   YearFromTime t' = y1 /\ MonthFromTime t' + 1 = m1 /\ DateFromTime t' = d) /\
  (days_in_month y1 m1 < d ->
   YearFromTime t' = y1 + m1 / 12 /\ MonthFromTime t' + 1 = m1 mod 12 + 1 /\
   DateFromTime t' = d - days_in_month y1 m1).
Proof.
  cbv zeta. rewrite setMonth_next.
  unfold next_month, MakeDay, YearFromTime, MonthFromTime, DateFromTime.
  destruct (civil_from_days_inverse (Day t)) as (Hinv & Hm).
  assert (1 <= snd (civil_from_days (Day t)) <= 31) as Hday.
  { destruct (civil_from_days_steps (Day t))
      as (era & doe & yoe & doy & mp & _ & _ & _ & _ & _ & _ & _ & _ & Hd & ->).
    exact Hd. }
  set (y := fst (fst (civil_from_days (Day t)))) in *.
  set (m := snd (fst (civil_from_days (Day t)))) in *.
  set (d := snd (civil_from_days (Day t))) in *.
  replace (m - 1 + 1) with m by lia.
  destruct (Day_add_days t (days_in_month y m)) as (Hday' & Htime).
  rewrite Hday', Htime.
  set (y1 := y + m / 12). set (m1 := m mod 12 + 1).
  assert (1 <= m1 <= 12) as Hm1 by (subst m1; Z.div_mod_to_equations; lia).
  pose proof (month_length y m Hm) as L0. fold y1 m1 in L0.
  pose proof (month_length y1 m1 Hm1) as L1.
  pose proof (days_in_month_range y1 m1) as R1.
  pose proof (days_in_month_range (y1 + m1 / 12) (m1 mod 12 + 1)) as R2.
  rewrite (days_from_civil_linear y m d) in Hinv.
  assert (Day t + days_in_month y m = days_from_civil y1 m1 d) as E1
      by (rewrite (days_from_civil_linear y1 m1 d); lia).
  split; [|split; [reflexivity|split]].
  - f_equal. unfold MakeDate. rewrite <- L0.
    unfold Day, TimeWithinDay, msPerDay in *. Z.div_mod_to_equations. lia.
  - intros Hkept. rewrite E1, civil_from_days_of_date by lia. cbn [fst snd].
    repeat split; lia.
  - intros Hover.
    assert (Day t + days_in_month y m
            = days_from_civil (y1 + m1 / 12) (m1 mod 12 + 1) (d - days_in_month y1 m1)) as E2
        by (rewrite (days_from_civil_linear _ _ (d - days_in_month y1 m1)),
              (days_from_civil_linear y1 m1 d) in *; lia).
    rewrite E2, civil_from_days_of_date; [|Z.div_mod_to_equations; lia|lia].
    cbn [fst snd]. repeat split; lia.
Qed.

End Calendar2.

(** ** Instances *)

(** The key [sctp4711tXyZ] is sent to the host [4711.push.ft07.com]. *)
Lemma sendByServerChan_endpoint_witness :
  (send_key demo_sctp = Some "sctp4711tXyZ" /\ "sctp4711tXyZ" <> "" /\
   startsWith "sctp4711tXyZ" "sctp" = true /\ first_match "sctp4711tXyZ" "4711") /\
  trace (snd (sendByServerChan "stand-up at ten" demo_sctp "reminder" world_once))
  = trace world_once
    ++ [Ev_sendByServerChan;
        Ev_fetch ("https://" +:+ "4711" +:+ ".push.ft07.com/send/" +:+ "sctp4711tXyZ" +:+ ".send")
                 (ServerChan_body "reminder" "stand-up at ten")].
Proof.
  assert (first_match "sctp4711tXyZ" "4711") as Hm
    by (apply regex_sctp_exec_first_match; reflexivity).
  split; [split; [reflexivity|split; [discriminate|split; [reflexivity|exact Hm]]]|].
  destruct (sendByServerChan_endpoint "stand-up at ten" "reminder" demo_sctp world_once)
    as (_ & H & _).
  destruct (H "sctp4711tXyZ") as (Hurl & _); [reflexivity|discriminate|reflexivity|].
  exact (Hurl "4711" Hm).
Defined.

(** A body without [name] and with an empty [type]. *)
Lemma handleCreateTask_missing_field_witness :
  (Request.json (demo_request "POST" "/api/tasks" incomplete_body) = Json_object incomplete_body /\
   In "type" requiredFields /\ truthy (required_field incomplete_body "type") = false) /\
  exists missing,
    handleCreateTask (demo_request "POST" "/api/tasks" incomplete_body) world_once
    = (Normal (Response.mk 400 (Body_text ("缺少必填字段: " +:+ String.concat ",  " missing))),
       world_once) /\
    (In "name" missing /\ In "type" missing /\ ~ In "content" missing).
Proof.
  split; [split; [reflexivity|split; [cbn; tauto|reflexivity]]|].
  destruct (handleCreateTask_missing_field (demo_request "POST" "/api/tasks" incomplete_body)
              incomplete_body world_once eq_refl)
    as (missing & H1 & _ & H2 & _).
  { exists "type". split; [cbn; tauto|reflexivity]. }
  exists missing. split; [exact H1|]. split; [|split].
  - apply H2. split; [cbn; tauto|left; reflexivity].
  - apply H2. split; [cbn; tauto|right; reflexivity].
  - intros Hin. apply H2 in Hin. destruct Hin as [_ [H|H]]; discriminate.
Defined.

Lemma demo_clock_valid (N : nat) (replies : list fetch_outcome) (tasks : list Task.t) :
  valid_clock (demo_world N replies tasks).
Proof. unfold valid_clock, demo_world. cbn [clock]. vm_compute. discriminate. Qed.

(** A body that is cut short. *)
Lemma body_that_is_not_JSON_witness :
  Request.json broken_request = Json_rejects (SyntaxError "Unexpected end of JSON input") /\
  handleCreateTask broken_request world_once
  = (Normal (Response.mk 500 (Body_failure "Unexpected end of JSON input")), world_once) /\
  handleUpdateTask broken_request "once" world_once
  = (Normal (Response.mk 500 (Body_failure "Unexpected end of JSON input")), world_once).
Proof.
  split; [reflexivity|].
  exact (body_that_is_not_JSON broken_request (SyntaxError "Unexpected end of JSON input")
           "once" world_once eq_refl).
Defined.

(** An update of a task that does not exist. *)
Lemma handleUpdateTask_unknown_id_witness :
  (Request.json (demo_request "PUT" "/api/tasks/nobody" (rename_body None))
   = Json_object (rename_body None) /\
   forall r, In r (db_task world_once) -> Row.id r <> "nobody") /\
  handleUpdateTask (demo_request "PUT" "/api/tasks/nobody" (rename_body None)) "nobody" world_once
  = (Normal (Response.mk 404 (Body_text "任务不存在")), world_once).
Proof.
  assert (forall r, In r (db_task world_once) -> Row.id r <> "nobody") as Hmiss.
  { intros r Hin. vm_compute in Hin. destruct Hin as [<-|[]]. discriminate. }
  split; [split; [reflexivity|exact Hmiss]|].
  exact (handleUpdateTask_unknown_id (demo_request "PUT" "/api/tasks/nobody" (rename_body None))
           (rename_body None) "nobody" world_once eq_refl Hmiss).
Defined.

(** What follows the id in the path is ignored. *)
Lemma handleTaskApi_item_routes_witness :
  (Request.pathname (demo_request "PUT" "/api/tasks/once/extra" (rename_body None))
   = "/api/tasks/" +:+ "once" +:+ "/extra" /\
   without_char "/" "once" /\ (exists t, "/extra" = String "/" t) /\ "once" <> "" /\
   Request.method (demo_request "PUT" "/api/tasks/once/extra" (rename_body None)) = "PUT") /\
  handleTaskApi (demo_request "PUT" "/api/tasks/once/extra" (rename_body None))
  = handleUpdateTask (demo_request "PUT" "/api/tasks/once/extra" (rename_body None)) "once".
Proof.
  assert (without_char "/" "once") as Hid by (cbn; repeat split; discriminate).
  split.
  - split; [reflexivity|]. split; [exact Hid|]. split; [now exists "extra"|].
    split; [discriminate|reflexivity].
  - apply (proj1 (handleTaskApi_item_routes
                    (demo_request "PUT" "/api/tasks/once/extra" (rename_body None))
                    "once" "/extra" eq_refl Hid (or_intror (ex_intro _ "extra" eq_refl))));
      [discriminate|reflexivity].
Defined.

(** [DELETE] on the collection has no route. *)
Lemma handleTaskApi_collection_routes_witness :
  (Request.pathname (demo_request "DELETE" "/api/tasks" no_properties) = "/api/tasks" /\
   Request.method (demo_request "DELETE" "/api/tasks" no_properties) <> "POST" /\
   Request.method (demo_request "DELETE" "/api/tasks" no_properties) <> "GET") /\
  handleTaskApi (demo_request "DELETE" "/api/tasks" no_properties) = Not_Found.
Proof.
  split; [split; [reflexivity|split; discriminate]|].
  apply (proj2 (proj2 (handleTaskApi_collection_routes
                         (demo_request "DELETE" "/api/tasks" no_properties) eq_refl)));
    discriminate.
Defined.

(** An entry without credentials. *)
Lemma sendByWechatWork_missing_credentials_witness :
  has_credentials demo_email = false /\
  sendByWechatWork "stand-up at ten" demo_email Undefined world_once
  = (Throw (Error "WeChatWork 推送失败: 缺少 corp_id/app_secret/agent_id"),
     emit Ev_sendByWechatWork world_once).
Proof.
  split; [reflexivity|].
  exact (sendByWechatWork_missing_credentials "stand-up at ten" demo_email Undefined world_once
           eq_refl).
Defined.

(** A token request that is refused. *)
Lemma sendByWechatWork_token_refused_witness :
  (has_credentials demo_wechat_work = true /\
   net world_token_refused = [Reply refused_reply] /\
   accepted (errcode refused_reply) = false) /\
  exists w',
    sendByWechatWork "stand-up at ten" demo_wechat_work Undefined world_token_refused
    = (Throw (Error ("WeChatWork 获取 token 失败: " +:+ "bad")), w') /\
    net w' = [] /\
    trace w' = trace world_token_refused ++
               [Ev_sendByWechatWork; Ev_fetch (tokenUrl_of demo_wechat_work) No_body].
Proof.
  assert (net world_token_refused = [Reply refused_reply]) as Hnet by (vm_compute; reflexivity).
  split; [split; [reflexivity|split; [exact Hnet|reflexivity]]|].
  destruct (sendByWechatWork_token_refused "stand-up at ten" demo_wechat_work Undefined
              world_token_refused refused_reply [] eq_refl Hnet eq_refl)
    as (w' & H1 & H2 & H3 & _).
  exists w'. split; [exact H1|]. split; [exact H3|exact H2].
Defined.

(** A task whose own receiver has an empty [touser], no [toparty] and a
    [totag]: the default [touser] is hidden, the default [toparty] is
    used. *)
Lemma sendByWechatWork_posts_with_token_witness :
  (has_credentials demo_wechat_team = true /\
   net world_token = [Reply token_reply; Reply ok_reply] /\
   accepted (errcode token_reply) = true) /\
  fst (sendByWechatWork "stand-up at ten" demo_wechat_team
                        (Obj [("touser", ""); ("totag", "ops")]) world_token)
  = Normal ok_reply /\
  trace (snd (sendByWechatWork "stand-up at ten" demo_wechat_team
                               (Obj [("touser", ""); ("totag", "ops")]) world_token))
  = trace world_token ++
    [Ev_sendByWechatWork; Ev_fetch (tokenUrl_of demo_wechat_team) No_body;
     Ev_fetch ("https://qyapi.weixin.qq.com/cgi-bin/message/send?access_token=" +:+ "tok")
              (WechatWork_body "@all" "7" "ops" "stand-up at ten")].
Proof.
  assert (net world_token = [Reply token_reply; Reply ok_reply]) as Hnet
    by (vm_compute; reflexivity).
  split; [split; [reflexivity|split; [exact Hnet|reflexivity]]|].
  generalize (sendByWechatWork_posts_with_token "stand-up at ten" demo_wechat_team
                (Obj [("touser", ""); ("totag", "ops")]) world_token token_reply
                (Reply ok_reply) [] eq_refl Hnet eq_refl).
  destruct (sendByWechatWork _ _ _ _) as [r w']. intros (H1 & _ & _ & _ & H2).
  split; [exact H2|exact H1].
Defined.

(** A request that the provider accepts. *)
Lemma sendByServerChan_outcome_witness :
  (fst (ServerChan_pushUrl demo_server_chan tt) = Normal "https://sctapi.ftqq.com/SCT123abc.send" /\
   net world_once = [Reply ok_reply]) /\
  fst (sendByServerChan "stand-up at ten" demo_server_chan "reminder" world_once)
  = Normal ok_reply /\
  net (snd (sendByServerChan "stand-up at ten" demo_server_chan "reminder" world_once)) = [].
Proof.
  assert (net world_once = [Reply ok_reply]) as Hnet by (vm_compute; reflexivity).
  split; [split; [reflexivity|exact Hnet]|].
  generalize (sendByServerChan_outcome "stand-up at ten" "reminder"
                "https://sctapi.ftqq.com/SCT123abc.send" demo_server_chan world_once
                (Reply ok_reply) [] eq_refl Hnet).
  destruct (sendByServerChan _ _ _ _) as [r w']. intros (_ & H1 & _ & _ & H2).
  split; [exact H2|exact H1].
Defined.

(** A tick without a configuration. *)
Lemma tick_without_work_witness :
  GLOBAL_CONFIG world_no_config = Kv_missing /\
  handleScheduledTasks ISO_parse world_no_config = (Normal tt, world_no_config).
Proof.
  split; [reflexivity|].
  exact (tick_without_work ISO_parse world_no_config (or_introl eq_refl)).
Defined.

(** The weekly task in the table after a send that was accepted: its row
    is the one that was there. *)
Lemma stored_task_keeps_execute_time_witness :
  (In (row_of_task weekly_task)
      (db_task (snd (dispatch_task ISO_parse (demo_config 0) demo_channels demo_now
                                   (task_of_row (row_of_task weekly_task)) world_weekly))) /\
   Row.id (row_of_task weekly_task) = Row.id (row_of_task weekly_task)) /\
  (In (row_of_task weekly_task) (db_task world_weekly) \/
   Row.execute_time (row_of_task weekly_task) = Row.execute_time (row_of_task weekly_task)).
Proof.
  assert (In (row_of_task weekly_task)
             (db_task (snd (dispatch_task ISO_parse (demo_config 0) demo_channels demo_now
                                          (task_of_row (row_of_task weekly_task)) world_weekly))))
    as Hin by (vm_compute; left; reflexivity).
  split; [split; [exact Hin|reflexivity]|].
  exact (stored_task_keeps_execute_time ISO_parse (demo_config 0) demo_channels demo_now
           (row_of_task weekly_task) world_weekly _ Hin eq_refl).
Defined.

(** [DELETE /api/task/] in the Pages variant: the id is empty. *)
Lemma Pages_item_routes_witness :
  (without_char "/" "" /\
   Request.pathname (demo_request "DELETE" "/api/task/" no_properties)
   = "/api/task/" +:+ "" +:+ "" /\
   Request.method (demo_request "DELETE" "/api/task/" no_properties) = "DELETE") /\
  Pages.handleTaskApi handleCreateTask (demo_request "DELETE" "/api/task/" no_properties)
  = Pages.handleDeleteTask "" /\
  fst (Pages.handleTaskApi handleCreateTask (demo_request "DELETE" "/api/task/" no_properties)
                           world_once)
  = Normal (Response.mk 200 Body_success).
Proof.
  split; [split; [exact I|split; reflexivity]|].
  destruct (Pages_item_routes handleCreateTask
              (demo_request "DELETE" "/api/task/" no_properties) "" "" I (or_introl eq_refl))
    as ((_ & H & _) & _); [reflexivity|].
  destruct (H eq_refl) as [H1 H2]. split; [exact H1|exact (H2 world_once)].
Defined.

(** A [PUT] with a body that is cut short, in the Pages variant. *)
Lemma Pages_onRequest_throws_witness :
  (without_char "/" "once" /\
   Request.pathname (Request.mk "PUT" "/api/task/once"
                                (Json_rejects (SyntaxError "Unexpected end of JSON input")))
   = "/api/task/" +:+ "once" +:+ "") /\
  Pages.onRequest handleCreateTask Not_Found
                  (Request.mk "PUT" "/api/task/once"
                              (Json_rejects (SyntaxError "Unexpected end of JSON input")))
                  world_once
  = (Throw (SyntaxError "Unexpected end of JSON input"), world_once).
Proof.
  assert (without_char "/" "once") as Hid by (cbn; repeat split; discriminate).
  split; [split; [exact Hid|reflexivity]|].
  exact (proj1 (Pages_onRequest_throws handleCreateTask Not_Found
                  (Request.mk "PUT" "/api/task/once"
                              (Json_rejects (SyntaxError "Unexpected end of JSON input")))
                  "once" "" (SyntaxError "Unexpected end of JSON input") world_once
                  Hid (or_introl eq_refl) eq_refl eq_refl eq_refl)).
Defined.

(** A provider that refuses every request: the task stays as it was and
    is due again a minute later. *)
Lemma failed_dispatch_leaves_task_due_witness :
  (In (Ev_insertTaskLog refused_record)
      (new_events world_refused
         (snd (dispatch_task ISO_parse (demo_config 2) demo_channels demo_now
                             (task_of_row (row_of_task single_task)) world_refused))) /\
   Log.status refused_record = "fail" /\
   In (row_of_task single_task) (select_due (db_task world_refused) demo_now) /\
   String.leb demo_now "2024-01-01T00:01:00.000Z" = true) /\
  db_task (snd (dispatch_task ISO_parse (demo_config 2) demo_channels demo_now
                              (task_of_row (row_of_task single_task)) world_refused))
  = db_task world_refused /\
  count_events update_call
    (new_events world_refused
       (snd (dispatch_task ISO_parse (demo_config 2) demo_channels demo_now
                           (task_of_row (row_of_task single_task)) world_refused))) = 0%nat /\
  In (row_of_task single_task)
     (select_due (db_task (snd (dispatch_task ISO_parse (demo_config 2) demo_channels demo_now
                                              (task_of_row (row_of_task single_task))
                                              world_refused)))
                 "2024-01-01T00:01:00.000Z").
Proof.
  assert (In (row_of_task single_task) (select_due (db_task world_refused) demo_now)) as Hdue
    by (vm_compute; left; reflexivity).
  assert (In (Ev_insertTaskLog refused_record)
             (new_events world_refused
                (snd (dispatch_task ISO_parse (demo_config 2) demo_channels demo_now
                                    (task_of_row (row_of_task single_task)) world_refused))))
    as Hin by (vm_compute; repeat (first [left; reflexivity|right])).
  split; [split; [exact Hin|split; [reflexivity|split; [exact Hdue|reflexivity]]]|].
  destruct (failed_dispatch_leaves_task_due ISO_parse (demo_config 2) demo_channels demo_now
              (task_of_row (row_of_task single_task)) world_refused refused_record
              Hin eq_refl)
    as (H1 & H2 & H3).
  split; [exact H1|]. split; [exact H2|]. apply H3; [exact Hdue|reflexivity].
Defined.

(** The recurring task whose end has passed, in the table, and a provider
    that refuses the request. *)
Lemma ended_cycle_keeps_status_when_sends_fail_witness :
  (Row.type (row_of_task expired_task) = "cycle" /\
   Row.cycle_config (row_of_task expired_task) = Some (object_json expired_cycle) /\
   end_time expired_cycle = Some "2023-12-31T00:00:00.000Z" /\
   Date_le (ISO_parse "2023-12-31T00:00:00.000Z") (ISO_parse demo_now) = true /\
   In (row_of_task expired_task) (select_due (db_task world_expired_refused) demo_now) /\
   In (Ev_insertTaskLog expired_record)
      (new_events world_expired_refused
         (snd (dispatch_task ISO_parse (demo_config 1) demo_channels demo_now
                             (task_of_row (row_of_task expired_task)) world_expired_refused))) /\
   Log.status expired_record = "fail") /\
  count_events update_call
    (new_events world_expired_refused
       (snd (dispatch_task ISO_parse (demo_config 1) demo_channels demo_now
                           (task_of_row (row_of_task expired_task)) world_expired_refused)))
  = 0%nat /\
  db_task (snd (dispatch_task ISO_parse (demo_config 1) demo_channels demo_now
                              (task_of_row (row_of_task expired_task)) world_expired_refused))
  = db_task world_expired_refused /\
  In (row_of_task expired_task)
     (db_task (snd (dispatch_task ISO_parse (demo_config 1) demo_channels demo_now
                                  (task_of_row (row_of_task expired_task))
                                  world_expired_refused))) /\
  Row.status (row_of_task expired_task) = true.
Proof.
  assert (In (row_of_task expired_task) (select_due (db_task world_expired_refused) demo_now))
    as Hdue by (vm_compute; left; reflexivity).
  assert (In (Ev_insertTaskLog expired_record)
             (new_events world_expired_refused
                (snd (dispatch_task ISO_parse (demo_config 1) demo_channels demo_now
                                    (task_of_row (row_of_task expired_task))
                                    world_expired_refused))))
    as Hin by (vm_compute; repeat (first [left; reflexivity|right])).
  split.
  - split; [reflexivity|]. split; [reflexivity|]. split; [reflexivity|].
    split; [vm_compute; reflexivity|]. split; [exact Hdue|]. split; [exact Hin|reflexivity].
  - apply (ended_cycle_keeps_status_when_sends_fail ISO_parse (demo_config 1) demo_channels
             demo_now (row_of_task expired_task) expired_cycle "2023-12-31T00:00:00.000Z"
             world_expired_refused expired_record);
      [reflexivity|reflexivity|reflexivity|vm_compute; reflexivity|exact Hdue|exact Hin
      |reflexivity].
Defined.

(** A complete body. *)
Lemma handleCreateTask_stores_nothing_witness :
  (Request.json (demo_request "POST" "/api/tasks" demo_body) = Json_object demo_body /\
   (forall field, In field requiredFields -> truthy (required_field demo_body field) = true) /\
   valid_clock world_once) /\
  exists e,
    D1_type_error e /\
    handleCreateTask (demo_request "POST" "/api/tasks" demo_body) world_once
    = (Normal (Response.mk 500 (Body_failure (exn_message e))),
       set_uuid (S (uuid world_once)) world_once).
Proof.
  assert (forall field, In field requiredFields ->
                        truthy (required_field demo_body field) = true) as Hreq.
  { intros field Hin. cbn in Hin.
    destruct Hin as [<-|[<-|[<-|[<-|[<-|[]]]]]]; reflexivity. }
  split; [split; [reflexivity|split; [exact Hreq|apply demo_clock_valid]]|].
  exact (handleCreateTask_stores_nothing (demo_request "POST" "/api/tasks" demo_body)
           demo_body world_once eq_refl Hreq (demo_clock_valid _ _ _)).
Defined.

(** A body that renames the weekly task. *)
Lemma handleUpdateTask_stores_nothing_witness :
  (Request.json (demo_request "PUT" "/api/tasks/weekly" (rename_body None))
   = Json_object (rename_body None) /\
   List.find (fun r => String.eqb (Row.id r) "weekly") (db_task world_weekly)
   = Some (row_of_task weekly_task) /\
   valid_clock world_weekly) /\
  exists e,
    D1_type_error e /\
    handleUpdateTask (demo_request "PUT" "/api/tasks/weekly" (rename_body None))
                     "weekly" world_weekly
    = (Normal (Response.mk 500 (Body_failure (exn_message e))),
       emit (Ev_updateTask (merged_task (task_of_row (row_of_task weekly_task))
                                        (rename_body None) (ISO_string (clock world_weekly))))
            world_weekly) /\
    db_task (snd (handleUpdateTask (demo_request "PUT" "/api/tasks/weekly" (rename_body None))
                                   "weekly" world_weekly))
    = db_task world_weekly.
Proof.
  assert (List.find (fun r => String.eqb (Row.id r) "weekly") (db_task world_weekly)
          = Some (row_of_task weekly_task)) as Hfind by (vm_compute; reflexivity).
  split; [split; [reflexivity|split; [exact Hfind|apply demo_clock_valid]]|].
  exact (handleUpdateTask_stores_nothing
           (demo_request "PUT" "/api/tasks/weekly" (rename_body None)) (rename_body None)
           "weekly" world_weekly (row_of_task weekly_task) eq_refl Hfind
           (demo_clock_valid _ _ _)).
Defined.

(** The one-shot task in the table and a provider that accepts, with
    [max_retry = 0]. *)
Lemma accepted_send_is_not_stored_witness :
  (channel_property demo_channels (Row.channel (row_of_task single_task))
   = Some demo_server_chan /\
   first_send_ends (row_of_task single_task) demo_server_chan world_once (Normal ok_reply)
     (snd (sendByServerChan "stand-up at ten" demo_server_chan "reminder" world_once))) /\
  exists e w' lg,
    dispatch_task ISO_parse (demo_config 0) demo_channels demo_now
                  (task_of_row (row_of_task single_task)) world_once = (Throw e, w') /\
    D1_type_error e /\
    db_task w' = db_task world_once /\ db_log w' = [] /\ net w' = [] /\
    Log.status lg = "success" /\ Log.message lg = "推送成功，渠道响应: " +:+ "{}".
Proof.
  assert (first_send_ends (row_of_task single_task) demo_server_chan world_once (Normal ok_reply)
            (snd (sendByServerChan "stand-up at ten" demo_server_chan "reminder" world_once)))
    as Hsend by (left; split; [reflexivity|vm_compute; reflexivity]).
  split; [split; [reflexivity|exact Hsend]|].
  destruct (accepted_send_is_not_stored ISO_parse (demo_config 0) demo_channels demo_now
              (row_of_task single_task) demo_server_chan world_once _ ok_reply eq_refl Hsend)
    as (e & w' & lg & H1 & H2 & _ & H3 & H4 & H5 & _ & _ & _ & H6 & H7).
  exists e, w', lg. split; [exact H1|]. split; [exact H2|].
  split; [rewrite H4; vm_compute; reflexivity|].
  split; [rewrite H5; vm_compute; reflexivity|].
  split; [rewrite H3; vm_compute; reflexivity|]. split; [exact H6|exact H7].
Defined.

(** The one-shot task in the table, a provider that refuses,
    [max_retry = 2]. *)
Lemma failed_send_is_not_retried_witness :
  (channel_property demo_channels (Row.channel (row_of_task single_task))
   = Some demo_server_chan /\
   first_send_ends (row_of_task single_task) demo_server_chan world_refused
     (Throw (Error ("ServerChan 推送失败: " +:+ "bad send_key")))
     (snd (sendByServerChan "stand-up at ten" demo_server_chan "reminder" world_refused))) /\
  exists e w' lg,
    dispatch_task ISO_parse (demo_config 2) demo_channels demo_now
                  (task_of_row (row_of_task single_task)) world_refused = (Throw e, w') /\
    D1_type_error e /\
    Log.status lg = "fail" /\
    Log.message lg = "推送失败（重试 2 次）: channelConfig is not defined" /\
    net w' = [Reply refused_reply; Reply refused_reply] /\
    db_task w' = db_task world_refused /\ db_log w' = [].
Proof.
  assert (first_send_ends (row_of_task single_task) demo_server_chan world_refused
            (Throw (Error ("ServerChan 推送失败: " +:+ "bad send_key")))
            (snd (sendByServerChan "stand-up at ten" demo_server_chan "reminder" world_refused)))
    as Hsend by (left; split; [reflexivity|vm_compute; reflexivity]).
  split; [split; [reflexivity|exact Hsend]|].
  destruct (failed_send_is_not_retried ISO_parse (demo_config 2) demo_channels demo_now
              (row_of_task single_task) world_refused _ _
              (or_introl (ex_intro _ demo_server_chan (conj eq_refl Hsend))))
    as (e & w' & lg & H1 & H2 & _ & H3 & H4 & H5 & _ & H6 & H7).
  exists e, w', lg. split; [exact H1|]. split; [exact H2|]. split; [exact H6|].
  split; [exact H7|]. split; [rewrite H3|split; [rewrite H4|rewrite H5]];
    vm_compute; reflexivity.
Defined.

(** The task on [sms], a channel without an entry, [max_retry = 3]. *)
Lemma missing_entry_outcome_witness :
  (channel_property demo_channels (Row.channel (row_of_task sms_task)) = None /\
   Row.channel (row_of_task sms_task) <> "server_chan" /\
   Row.channel (row_of_task sms_task) <> "wechat_work") /\
  exists e w' lg,
    dispatch_task ISO_parse (demo_config 3) demo_channels demo_now
                  (task_of_row (row_of_task sms_task)) world_sms = (Throw e, w') /\
    D1_type_error e /\
    trace w' = trace world_sms ++
               retry_events 10 demo_now (row_of_task sms_task) 0 3 ++ [Ev_insertTaskLog lg] /\
    db_task w' = db_task world_sms /\ db_log w' = db_log world_sms /\
    Log.status lg = "success" /\
    exists e', D1_type_error e' /\ Log.message lg = retry_message 3 e'.
Proof.
  split; [split; [reflexivity|split; discriminate]|].
  destruct (missing_entry_outcome ISO_parse (demo_config 3) demo_channels demo_now
              (row_of_task sms_task) world_sms eq_refl ltac:(discriminate) ltac:(discriminate))
    as (e & w' & lg & H1 & H2 & H3 & _ & H4 & H5 & _ & H6 & H7).
  exists e, w', lg. repeat split; assumption.
Defined.

(** Two rows are due and the configuration has no [retry_config]. *)
Lemma tick_stops_after_the_first_pass_witness :
  (GLOBAL_CONFIG world_without_retry = Kv_config config_without_retry /\
   notification_channels config_without_retry = Some demo_channels /\
   valid_clock world_without_retry /\
   select_due (db_task world_without_retry) (ISO_string (clock world_without_retry))
   = [row_of_task single_task; row_of_task email_task]) /\
  handleScheduledTasks ISO_parse world_without_retry
  = (Normal tt,
     snd (dispatch_task ISO_parse config_without_retry demo_channels
                        (ISO_string (clock world_without_retry))
                        (task_of_row (row_of_task single_task)) world_without_retry)) /\
  exists lg,
    records_handed
      (new_events world_without_retry
         (snd (dispatch_task ISO_parse config_without_retry demo_channels
                             (ISO_string (clock world_without_retry))
                             (task_of_row (row_of_task single_task)) world_without_retry)))
    = [lg] /\
    Log.task_id lg = "once".
Proof.
  assert (valid_clock world_without_retry) as Hclock by (vm_compute; discriminate).
  assert (select_due (db_task world_without_retry) (ISO_string (clock world_without_retry))
          = [row_of_task single_task; row_of_task email_task]) as Hdue
      by (vm_compute; reflexivity).
  split; [split; [reflexivity|split; [reflexivity|split; [exact Hclock|exact Hdue]]]|].
  destruct (tick_stops_after_the_first_pass ISO_parse world_without_retry config_without_retry
              demo_channels (row_of_task single_task) [row_of_task email_task]
              eq_refl eq_refl Hclock Hdue)
    as (_ & H1 & H2 & _).
  split; [exact H1|exact H2].
Defined.

(** The task on the channel [constructor]: the configuration has no such
    member, and the read finds the function every object inherits. *)
Lemma unhandled_entry_outcome_witness :
  (demo_channels !! "constructor" = None /\
   channel_property demo_channels (Row.channel (row_of_task inherited_task))
   = Some no_properties_read /\
   Row.channel (row_of_task inherited_task) <> "server_chan" /\
   Row.channel (row_of_task inherited_task) <> "wechat_work") /\
  exists e w' lg,
    dispatch_task ISO_parse (demo_config 2) demo_channels demo_now
                  (task_of_row (row_of_task inherited_task)) world_inherited = (Throw e, w') /\
    D1_type_error e /\
    trace w' = trace world_inherited ++
               [Ev_updateTask (advanced_row demo_now (row_of_task inherited_task))] ++
               retry_events 10 demo_now (row_of_task inherited_task) 1 2 ++
               [Ev_insertTaskLog lg] /\
    db_task w' = db_task world_inherited /\ db_log w' = db_log world_inherited /\
    Log.status lg = "success" /\
    exists e', D1_type_error e' /\ Log.message lg = retry_message 2 e'.
Proof.
  split; [split; [reflexivity|split; [reflexivity|split; discriminate]]|].
  destruct (unhandled_entry_outcome ISO_parse (demo_config 2) demo_channels demo_now
              (row_of_task inherited_task) no_properties_read world_inherited eq_refl
              ltac:(discriminate) ltac:(discriminate))
    as (e & w' & lg & H1 & H2 & H3 & _ & H4 & H5 & _ & H6 & H7).
  exists e, w', lg. repeat split; assumption.
Defined.

